(** * MV-LV-Networks: the OpenDSS topology compiler of [backend.py]

    A shallow embedding of class [DSSDriver] (src/backend.py, lines 410-824):
    the stages that turn the tables of a network workbook into OpenDSS
    commands, and the properties of those stages.

    Modelling conventions.
    - The OpenDSS engine is an external collaborator: it is modelled as a
      recorder of the calls made on [dss_text] and [dss_circuit], in order.
    - A pandas table is the list of its rows, a row is a record with one
      field per column the code reads, and the index of a row is its position
      (the [RangeIndex] that [pd.read_excel] gives).
    - Numeric cells that the code computes with are exact rationals ([Q]);
      a cell that is only interpolated into a command is an opaque [value].
    - An f-string is the list of its fragments: literal text and interpolated
      values, in order (Python's rendering of a float is left uninterpreted).
    - Strings are byte strings; [len] and [lower] agree with Python's on
      ASCII text, and [int] is modelled on ASCII text only ([is_ascii]).
    - [np.round] is taken on the exact rational, not on binary64 (see
      [np_round2]).
    - Left out: the progress bars ([tqdm]), the colour codes of the two
      banners, reading the profile files ([np.load], the pools are given),
      and the unused mean of a commercial profile. The engine accepts every
      command. *)

From Stdlib Require Import ZArith QArith Qround Qminmax String Ascii List Lia Bool.
From Stdlib Require Import DecimalString.
From stdpp Require Import base option gmap strings list.
Import ListNotations.

Local Open Scope string_scope.
Local Open Scope Z_scope.

(* ================================================================== *)
(** * Values and f-strings *)

Inductive value : Type :=
| VStr (s : string)
| VInt (z : Z)
| VNum (q : Q)
| VNums (l : list Q)
| VDate (year : Z) (days : Z).
(* [VDate y d]: 1 January of year [y] plus [d] days, rendered by
   [strftime("%B %d")]. *)

Inductive frag : Type :=
| Lit (s : string)
| Fmt (v : value).

Abbreviation fstring := (list frag).

(** [str] of a Python int. *)
Definition str_int (z : Z) : string := NilZero.string_of_int (Z.to_int z).

(** [sep.join(l)] *)
Fixpoint join (sep : string) (l : list string) : string :=
  match l with
  | [] => ""
  | x :: xs =>
      match xs with
      | [] => x
      | _ :: _ => x ++ sep ++ join sep xs
      end
  end.

(** [s.lower()] on ASCII text. *)
Definition lower_ascii (c : ascii) : ascii :=
  let n := nat_of_ascii c in
  if ((65 <=? n)%nat && (n <=? 90)%nat)%bool then ascii_of_nat (n + 32) else c.

Fixpoint lower (s : string) : string :=
  match s with
  | EmptyString => EmptyString
  | String c s' => String (lower_ascii c) (lower s')
  end.

(** [min(a, b)] of Python: the first argument unless the second is
    strictly smaller. *)
Definition Qltb (x y : Q) : bool := negb (Qle_bool y x).

Definition py_min (a b : Q) : Q := if Qltb b a then b else a.

(** [np.round(x, 2)]: scale by 100, round half to even, scale back, here
    on the exact rational. NumPy does the three steps in binary64, so the
    two agree wherever the hundredfold of [x] is further from a half than
    the rounding error of the floating-point product; they can differ next
    to a tie (at [kvs_primary] 6.325 the code writes 0.57 where this gives
    0.58). The theorems below evaluate [kVAtraf] at 12.7 only, where the
    scaled value is 115.45 and both give 1.15. *)
Definition rint (x : Q) : Z :=
  let f := Qfloor x in
  match Qcompare (x - inject_Z f) (1 # 2) with
  | Lt => f
  | Gt => f + 1
  | Eq => if Z.even f then f else f + 1
  end.

Definition np_round2 (x : Q) : Q := (inject_Z (rint (x * 100)) / 100)%Q.

(* ================================================================== *)
(** * The record source: [self.data] *)

Record mv_net_tx_row := {
  mn_Substation_ID : value; mn_Bus1 : value; mn_Bus2 : value;
  mn_Connection_Primary : value; mn_Connection_Secondary : value;
  mn_kvs_primary : value; mn_kvs_secondary : value;
  mn_kvas_primary : value; mn_kvas_secondary : value;
  mn_loadloss : value; mn_noloadloss : value; mn_xhl : value
}.

Record linecode_row := {
  lc_Linecode_ID : string; lc_Phases : value;
  lc_r1 : value; lc_x1 : value; lc_b1 : value;
  lc_r0 : value; lc_b0 : value; lc_x0 : value;
  lc_Units : value;
  lc_Ampacity1 : Q; lc_Ampacity2 : Q
}.

Record line_row := {
  ln_Element_Name : string; ln_Line_Number : value;
  ln_Start_Node : value; ln_Start_Node_Phase : value;
  ln_End_Node : value; ln_End_Node_Phase : value;
  ln_Phases : Z; ln_Length : value; ln_Units : value;
  ln_Linecode : string
}.

Record mvcap_row := {
  cp_Element_ID : value; cp_Bus1 : value; cp_phases : value;
  cp_kvar : value; cp_kvs : value
}.

Record mvtx_row := {
  mt_Substation_ID : value; mt_Bus1 : value; mt_Bus2 : value;
  mt_Conn_Type : string;
  mt_kvs_primary : Q; mt_kvs_secondary : Q;
  mt_kvas_primary : Q; mt_kvas_secondary : Q;
  mt_xhl : value; mt_noloadloss : value; mt_loadloss : value;
  mt_wdg1_numtaps : Z
}.

Record lvtx_row := {
  lt_Substation_ID : value; lt_Bus1 : value;
  lt_Conn_Type : string;
  lt_Connection_Primary : value; lt_Connection_Secondary : value;
  lt_kvs_primary : Q; lt_kvs_secondary : Q;
  lt_kvas_primary : value; lt_kvas_secondary : value;
  lt_xhl : value; lt_noloadloss : value; lt_loadloss : value;
  lt_wdg1_tap : value
}.

Record lv_line_row := {
  ll_line_name : value; ll_bus1 : value; ll_bus2 : value;
  ll_phases : Z; ll_length : value; ll_units : value; ll_linecode : value
}.

Record lv_load_row := {
  ld_load_name : value; ld_phases : Z; ld_bus1 : value;
  ld_kv : value; ld_pf : value; ld_model : value;
  ld_tx_cap : Q
}.

(** [self.data]: a dict from sheet name to table; [None] is an absent key. *)
Record tables := {
  mv_net_txs : option (list mv_net_tx_row);
  linecodes : option (list linecode_row);
  lines : option (list line_row);
  mvcaps : option (list mvcap_row);
  mvtx : option (list mvtx_row);
  lvtx : option (list lvtx_row);
  lv_lines : option (list lv_line_row);
  lv_loads : option (list lv_load_row)
}.

(** A profile pool as [np.load] returns it: customer, day, half-hour. *)
Abbreviation pool := (list (list (list Q))).

(** What a run reads and never writes. [np_seed s] is the sequence of draws
    of numpy's generator after [np.random.seed(s)]. *)
Record env := {
  data : tables;
  house_data : pool;
  com_data : pool;
  np_seed : Z -> nat -> nat;
  now_year : Z
}.

(* ================================================================== *)
(** * The engine, the Geo Layer and the state of a run *)

Inductive engine_call : Type :=
| Command (c : fstring)                        (* dss_text.Command = c *)
| SetActiveElement (name : fstring)            (* dss_circuit.SetActiveElement(name) *)
| SetProperty (prop : string) (val : fstring). (* ActiveElement.Properties(prop).Val = val *)

Inductive cell : Type :=
| CText (f : fstring)
| CNum (q : Q).

(** A layer of [gis_data] as the store of its cells, by (row label, column). *)
Abbreviation layer := (gmap (nat * string) cell).

Record state := {
  dss_log : list engine_call;
  gis_MV_lines : layer;
  gis_MVLV_txs : layer;
  rng_stream : nat -> nat;
  rng_pos : nat;
  stdout : list fstring
}.

(** The engine's log grows at its end. *)
Definition add_calls (cs : list engine_call) (st : state) : state :=
  {| dss_log := dss_log st ++ cs;
     gis_MV_lines := gis_MV_lines st; gis_MVLV_txs := gis_MVLV_txs st;
     rng_stream := rng_stream st; rng_pos := rng_pos st; stdout := stdout st |}.

Definition log_call (c : engine_call) (st : state) : state := add_calls [c] st.

Definition set_MV_lines (k : nat * string) (v : cell) (st : state) : state :=
  {| dss_log := dss_log st;
     gis_MV_lines := <[k := v]> (gis_MV_lines st); gis_MVLV_txs := gis_MVLV_txs st;
     rng_stream := rng_stream st; rng_pos := rng_pos st; stdout := stdout st |}.

Definition set_MVLV_txs (k : nat * string) (v : cell) (st : state) : state :=
  {| dss_log := dss_log st;
     gis_MV_lines := gis_MV_lines st; gis_MVLV_txs := <[k := v]> (gis_MVLV_txs st);
     rng_stream := rng_stream st; rng_pos := rng_pos st; stdout := stdout st |}.

Definition set_rng (s : nat -> nat) (p : nat) (st : state) : state :=
  {| dss_log := dss_log st;
     gis_MV_lines := gis_MV_lines st; gis_MVLV_txs := gis_MVLV_txs st;
     rng_stream := s; rng_pos := p; stdout := stdout st |}.

Definition put_stdout (f : fstring) (st : state) : state :=
  {| dss_log := dss_log st;
     gis_MV_lines := gis_MV_lines st; gis_MVLV_txs := gis_MVLV_txs st;
     rng_stream := rng_stream st; rng_pos := rng_pos st; stdout := stdout st ++ [f] |}.

(* ================================================================== *)
(** * Exceptions and the monad of a stage *)

Inductive exn : Type :=
| KeyError (k : string)
| IndexError
| ValueError
| TypeError (msg : string).

(** [Diverge]: the fuel of a [while True] loop ran out. *)
Inductive outcome (A : Type) : Type :=
| Ok (a : A)
| Raise (e : exn)
| Diverge.
Arguments Ok {A} a.
Arguments Raise {A} e.
Arguments Diverge {A}.

#[global] Instance outcome_ret : MRet outcome := λ A a, Ok a.
#[global] Instance outcome_bind : MBind outcome := λ A B f m,
  match m with
  | Ok a => f a
  | Raise e => Raise e
  | Diverge => Diverge
  end.

(** A stage keeps what it did before it raised. *)
Definition M (A : Type) : Type := state -> outcome A * state.

#[global] Instance M_ret : MRet M := λ A a st, (Ok a, st).
#[global] Instance M_bind : MBind M := λ A B f m st,
  match m st with
  | (Ok a, st') => f a st'
  | (Raise e, st') => (Raise e, st')
  | (Diverge, st') => (Diverge, st')
  end.

Definition lift {A} (o : outcome A) : M A := λ st, (o, st).
Definition raise {A} (e : exn) : M A := lift (Raise e).
Definition diverge {A} : M A := lift Diverge.
Definition modify (f : state -> state) : M unit := λ st, (Ok tt, f st).

(** [try: m except: pass] *)
Definition try_except_pass (m : M unit) : M unit := λ st,
  match m st with
  | (Ok a, st') => (Ok a, st')
  | (Raise _, st') => (Ok tt, st')
  | (Diverge, st') => (Diverge, st')
  end.

(** [for x in l: body(x)] *)
Fixpoint for_each {A} (l : list A) (body : A -> M unit) : M unit :=
  match l with
  | [] => mret tt
  | x :: xs => body x ;; for_each xs body
  end.

(** [element.iterrows()] *)
Definition iterrows {A} (t : list A) : list (nat * A) := imap pair t.

(** [self.data[name]] *)
Definition get_table {A} (name : string) (t : option A) : M A :=
  match t with
  | Some x => mret x
  | None => raise (KeyError name)
  end.

Definition dss_command (c : fstring) : M unit := modify (log_call (Command c)).
Definition print (f : fstring) : M unit := modify (put_stdout f).

(** [np.random.seed(s)] *)
Definition np_random_seed (e : env) (s : Z) : M unit := modify (set_rng (np_seed e s) 0).

(** [np.random.randint(low, high)]: one draw, in [low, high). *)
Definition randint (low high : Z) : M Z := λ st,
  if high <=? low then (Raise ValueError, st)
  else (Ok (low + Z.of_nat (rng_stream st (rng_pos st)) mod (high - low)),
        set_rng (rng_stream st) (S (rng_pos st)) st).

(** [a[i]] on one axis of an array: negative indices count from the end. *)
Definition np_index {A} (l : list A) (i : Z) : outcome A :=
  let n := Z.of_nat (length l) in
  let j := if i <? 0 then i + n else i in
  if (j <? 0) || (n <=? j) then Raise IndexError
  else match l !! Z.to_nat j with
       | Some x => Ok x
       | None => Raise IndexError
       end.

(** [np.max(a)] *)
Definition np_max (l : list Q) : outcome Q :=
  match l with
  | [] => Raise ValueError
  | x :: xs => Ok (fold_left (λ m y, if Qltb m y then y else m) xs x)
  end.

(* ================================================================== *)
(** * Phase-code translation (lines 550-553, repeated at 654-657) *)

(** Each element of [l] with the elements left once it is taken out. *)
Fixpoint selections {A} (l : list A) : list (A * list A) :=
  match l with
  | [] => []
  | x :: xs => (x, xs) :: map (λ p, (fst p, x :: snd p)) (selections xs)
  end.

(** [itertools.permutations(pool, r)], in the order itertools yields them. *)
Fixpoint permutations {A} (r : nat) (pool : list A) : list (list A) :=
  match r with
  | O => [[]]
  | S r' => flat_map (λ p, map (cons (fst p)) (permutations r' (snd p))) (selections pool)
  end.

Definition three_ph_combi : list string :=
  map string_of_list_ascii (permutations 3 ["R"; "W"; "B"]%char).
Definition two_ph_combi : list string :=
  map string_of_list_ascii (permutations 2 ["R"; "B"; "W"]%char).
Definition one_ph_combi : list string :=
  map string_of_list_ascii (permutations 1 ["R"; "B"; "W"]%char).

(** [{'R': 1, 'W': 2, 'B': 3}] *)
Definition phase_number : gmap ascii Z :=
  {[ "R"%char := 1; "W"%char := 2; "B"%char := 3 ]}.

(** [d[k]]: a missing key raises [KeyError]. *)
Definition subscript {K V} `{Countable K} (show : K -> string)
    (d : gmap K V) (k : K) : outcome V :=
  match d !! k with
  | Some v => Ok v
  | None => Raise (KeyError (show k))
  end.

Definition show_char (c : ascii) : string := String c EmptyString.

(** ['.'.join(str({'R': 1, 'W': 2, 'B': 3}[char]) for char in key)] *)
Definition phase_suffix (key : string) : outcome string :=
  digits ← mapM (subscript show_char phase_number) (list_ascii_of_string key);
  mret (join "." (map str_int digits)).

(** [{key: phase_suffix(key) for key in keys}], filling [d] in order. *)
Fixpoint dict_comprehension (keys : list string) (d : gmap string string)
    : outcome (gmap string string) :=
  match keys with
  | [] => Ok d
  | key :: rest =>
      v ← phase_suffix key;
      dict_comprehension rest (<[key := v]> d)
  end.

Definition phase_keys : list string := three_ph_combi ++ two_ph_combi ++ one_ph_combi.

Definition char_to_num : outcome (gmap string string) :=
  dict_comprehension phase_keys ∅.

(** The table, once built. *)
Definition phase_table : gmap string string :=
  match char_to_num with
  | Ok tbl => tbl
  | _ => ∅
  end.

(** [char_to_num[code]] as both transformer stages use it. *)
Definition translate (code : string) : outcome string :=
  tbl ← char_to_num;
  subscript id tbl code.

(* ================================================================== *)
(** * The stages of [DSSDriver] *)

Definition basic_opendss_actions : M unit :=
  dss_command [Lit "clear"];;
  dss_command [Lit "Set DefaultBaseFrequency = 50"].

Definition voltage_source : M unit :=
  dss_command [Lit "New circuit.circuit basekv=66 pu=1 angle=0 phases=3 R1=0.52824 X1=2.113 R0=0.59157 X0=1.7747"];;
  dss_command [Lit "edit vsource.source bus1=sourcebus basekv=66 pu=1 angle=0 phases=3 R1=0.52824 X1=2.113 R0=0.59157 X0=1.7"].

Definition mv_tx_data (row : mv_net_tx_row) : fstring :=
  [Lit "New Transformer."; Fmt (mn_Substation_ID row); Lit " "] ++
  [Lit "phases=3 "] ++
  [Lit "windings=2 "] ++
  [Lit "buses=["; Fmt (mn_Bus1 row); Lit ", mv_f0_n"; Fmt (mn_Bus2 row); Lit "] "] ++
  [Lit "conns=["; Fmt (mn_Connection_Primary row); Lit ", ";
   Fmt (mn_Connection_Secondary row); Lit "] "] ++
  [Lit "kVs=["; Fmt (mn_kvs_primary row); Lit ", "; Fmt (mn_kvs_secondary row); Lit "] "] ++
  [Lit "kVAs=["; Fmt (mn_kvas_primary row); Lit ", "; Fmt (mn_kvas_secondary row); Lit "] "] ++
  [Lit "%loadloss="; Fmt (mn_loadloss row); Lit " "] ++
  [Lit "%noloadloss="; Fmt (mn_noloadloss row); Lit " "] ++
  [Lit "xhl="; Fmt (mn_xhl row); Lit " "] ++
  [Lit "enabled=true"].

Definition mv_net_tx (e : env) : M unit :=
  element ← get_table "mv_net_txs" (mv_net_txs (data e));
  for_each (iterrows element) (λ ir, dss_command (mv_tx_data (snd ir))).

Definition linecode_data (row : linecode_row) : fstring :=
  [Lit "new linecode.lc_"; Fmt (VStr (lc_Linecode_ID row)); Lit " "] ++
  [Lit "nphases="; Fmt (lc_Phases row); Lit " "] ++
  [Lit "r1="; Fmt (lc_r1 row); Lit " "] ++
  [Lit "x1="; Fmt (lc_x1 row); Lit " "] ++
  [Lit "b1="; Fmt (lc_b1 row); Lit " "] ++
  [Lit "r0="; Fmt (lc_r0 row); Lit " "] ++
  [Lit "b0="; Fmt (lc_b0 row); Lit " "] ++
  [Lit "x0="; Fmt (lc_x0 row); Lit " "] ++
  [Lit "units="; Fmt (lc_Units row); Lit " "] ++
  [Lit "normamp="; Fmt (VNum (py_min (lc_Ampacity1 row) (lc_Ampacity2 row))); Lit " "].

Definition line_codes (e : env) : M unit :=
  element ← get_table "linecodes" (linecodes (data e));
  for_each (iterrows element) (λ ir, dss_command (linecode_data (snd ir))).

Definition mv_line_data (row : line_row) : fstring :=
  [Lit "new line.mv_f0_l"; Fmt (ln_Line_Number row); Lit " "] ++
  [Lit "bus1=mv_f0_n"; Fmt (ln_Start_Node row); Lit "."; Fmt (ln_Start_Node_Phase row); Lit " "] ++
  [Lit "bus2=mv_f0_n"; Fmt (ln_End_Node row); Lit "."; Fmt (ln_End_Node_Phase row); Lit " "] ++
  [Lit "phases="; Fmt (VInt (ln_Phases row)); Lit " "] ++
  [Lit "length="; Fmt (ln_Length row); Lit " "] ++
  [Lit "units="; Fmt (ln_Units row); Lit " "] ++
  [Lit "linecode=lc_"; Fmt (VStr (ln_Linecode row)); Lit "-"; Fmt (VInt (ln_Phases row)); Lit "ph "] ++
  [Lit "enabled=true"].

(** [f"{row['Linecode']}-{row['Phases']}ph"], compared with [Linecode_ID]. *)
Definition linecode_key (row : line_row) : string :=
  ln_Linecode row ++ "-" ++ str_int (ln_Phases row) ++ "ph".

(** The [Ampacity1] column of the line codes whose id is [key]. *)
Definition ampacity1_of (key : string) (lcs : list linecode_row) : list Q :=
  map lc_Ampacity1 (List.filter (λ r, String.eqb (lc_Linecode_ID r) key) lcs).

Definition is_deletion (row : line_row) : bool :=
  String.eqb (lower (ln_Element_Name row)) "delete".

Definition connections_row (e : env) (ir : nat * line_row) : M unit :=
  let index := fst ir in
  let row := snd ir in
  if negb (is_deletion row) then
    dss_command (mv_line_data row);;
    modify (set_MV_lines (index, "DSSNAME") (CText [Lit "mv_f0_l"; Fmt (ln_Line_Number row)]));;
    lcs ← get_table "linecodes" (linecodes (data e));
    amp ← lift (np_index (ampacity1_of (linecode_key row) lcs) 0);
    modify (set_MV_lines (index, "Ampacity") (CNum amp))
  else mret tt.

Definition connections (e : env) : M unit :=
  element ← get_table "lines" (lines (data e));
  for_each (iterrows element) (connections_row e).

Definition mv_caps_data (row : mvcap_row) : fstring :=
  [Lit "new capacitor.mv_f0_l"; Fmt (cp_Element_ID row); Lit " "] ++
  [Lit "bus1=mv_f0_n"; Fmt (cp_Bus1 row); Lit ".1.2.3 "] ++
  [Lit "phases="; Fmt (cp_phases row); Lit " "] ++
  [Lit "kvar="; Fmt (cp_kvar row); Lit " "] ++
  [Lit "kV="; Fmt (cp_kvs row)].

Definition capacitors (e : env) : M unit :=
  element ← get_table "mvcaps" (mvcaps (data e));
  for_each (iterrows element) (λ ir, dss_command (mv_caps_data (snd ir))).

(** ** MV transformers and regulators: [mv_txs] *)

Definition mv_tx_split (row : mvtx_row) (suffix : string) : fstring :=
  [Lit "new transformer."; Fmt (mt_Substation_ID row); Lit " "] ++
  [Lit "buses=[mv_f0_n"; Fmt (mt_Bus1 row); Lit "."; Fmt (VStr suffix);
   Lit " mv_f0_n"; Fmt (mt_Bus2 row); Lit ".1.0 mv_f0_n"; Fmt (mt_Bus2 row); Lit ".0.2] "] ++
  [Lit "phases=1 "] ++
  [Lit "windings=3 "] ++
  [Lit "conns=[Delta Wye Wye] "] ++
  [Lit "kVs=["; Fmt (VNum (mt_kvs_primary row)); Lit " "; Fmt (VNum (mt_kvs_secondary row));
   Lit " "; Fmt (VNum (mt_kvs_secondary row)); Lit "] "] ++
  [Lit "kVAs=["; Fmt (VNum (mt_kvas_primary row)); Lit " "; Fmt (VNum (mt_kvas_secondary row));
   Lit " "; Fmt (VNum (mt_kvas_secondary row)); Lit "] "] ++
  [Lit "xhl="; Fmt (mt_xhl row); Lit " "] ++
  [Lit "%noloadloss="; Fmt (mt_noloadloss row); Lit " "] ++
  [Lit "%loadloss="; Fmt (mt_loadloss row)].

Definition jumper_A_E (row : mvtx_row) : fstring :=
  [Lit "New Reactor.Jumper_"; Fmt (mt_Substation_ID row); Lit "_A_E phases=1 bus1=mv_f0_n";
   Fmt (mt_Bus1 row); Lit ".1 bus2=Jumper_"; Fmt (mt_Substation_ID row);
   Lit "_A.2 X=0.0001 R=0.0001"].
Definition jumper_A_O (row : mvtx_row) : fstring :=
  [Lit "New Reactor.Jumper_"; Fmt (mt_Substation_ID row); Lit "_A_O phases=1  bus1=Jumper_";
   Fmt (mt_Substation_ID row); Lit "_A.1 bus2=mv_f0_n"; Fmt (mt_Bus2 row);
   Lit ".1 X=0.0001 R=0.0001"].
Definition jumper_B_E (row : mvtx_row) : fstring :=
  [Lit "New Reactor.Jumper_"; Fmt (mt_Substation_ID row); Lit "_B_E phases=1 bus1=mv_f0_n";
   Fmt (mt_Bus1 row); Lit ".2 bus2=Jumper_"; Fmt (mt_Substation_ID row);
   Lit "_B.2 X=0.0001 R=0.0001"].
Definition jumper_B_O (row : mvtx_row) : fstring :=
  [Lit "New Reactor.Jumper_"; Fmt (mt_Substation_ID row); Lit "_B_O phases=1  bus1=Jumper_";
   Fmt (mt_Substation_ID row); Lit "_B.1 bus2=mv_f0_n"; Fmt (mt_Bus2 row);
   Lit ".2 X=0.0001 R=0.0001"].
Definition jumper_C_E (row : mvtx_row) : fstring :=
  [Lit "New Reactor.Jumper_"; Fmt (mt_Substation_ID row); Lit "_C_E phases=1 bus1=mv_f0_n";
   Fmt (mt_Bus1 row); Lit ".3 bus2=Jumper_"; Fmt (mt_Substation_ID row);
   Lit "_C.2 X=0.0001 R=0.0001"].
Definition jumper_C_O (row : mvtx_row) : fstring :=
  [Lit "New Reactor.Jumper_"; Fmt (mt_Substation_ID row); Lit "_C_O phases=1  bus1=Jumper_";
   Fmt (mt_Substation_ID row); Lit "_C.1 bus2=mv_f0_n"; Fmt (mt_Bus2 row);
   Lit ".3 X=0.0001 R=0.0001"].

Definition kv : Q := 12.7.
Definition nt : Q := 10 / 100.

(** [np.round((nt * float(kva1) / (1 + nt)), 2)] *)
Definition kVAtraf (kva1 : Q) : Q := np_round2 (nt * kva1 / (1 + nt)).

Definition reg_tx (row : mvtx_row) (kva : Q) (phase : string) : fstring :=
  [Lit "new transformer."; Fmt (mt_Substation_ID row); Lit "_"; Fmt (VStr phase); Lit " "] ++
  [Lit "phases=1 "] ++
  [Lit "windings=2 "] ++
  [Lit "xhl="; Fmt (mt_xhl row); Lit " "] ++
  [Lit "%noloadloss="; Fmt (mt_noloadloss row); Lit " "] ++
  [Lit "%loadloss="; Fmt (mt_loadloss row); Lit " "] ++
  [Lit "wdg=1 "] ++
  [Lit "Bus=Jumper_"; Fmt (mt_Substation_ID row); Lit "_"; Fmt (VStr phase); Lit ".1.0 "] ++
  [Lit "kV="; Fmt (VNum kv); Lit " "] ++
  [Lit "kVA="; Fmt (VNum kva); Lit " "] ++
  [Lit "wdg=2 "] ++
  [Lit "Bus=Jumper_"; Fmt (mt_Substation_ID row); Lit "_"; Fmt (VStr phase); Lit ".1.2 "] ++
  [Lit "kV="; Fmt (VNum (kv / 10)); Lit " "] ++
  [Lit "kVA="; Fmt (VNum kva); Lit " "] ++
  [Lit "Maxtap=1.0 "] ++
  [Lit "Mintap=-1.0 "] ++
  [Lit "tap=0.0 "] ++
  [Lit "numtaps="; Fmt (VInt (mt_wdg1_numtaps row - 1))].

Definition reg_control (row : mvtx_row) (phase : string) : fstring :=
  [Lit " new regcontrol.Reg_"; Fmt (mt_Substation_ID row); Lit "_"; Fmt (VStr phase); Lit " "] ++
  [Lit "transformer="; Fmt (mt_Substation_ID row); Lit "_"; Fmt (VStr phase); Lit " "] ++
  [Lit "winding=2 "] ++
  [Lit "bus=Jumper_"; Fmt (mt_Substation_ID row); Lit "_"; Fmt (VStr phase); Lit ".1 "] ++
  [Lit "vreg=100.0 "] ++
  [Lit "band=3.0 "] ++
  [Lit "ptratio="; Fmt (VNum (kv * 10)); Lit " "] ++
  [Lit "maxtapchange=1"].

Definition mv_txs_row (tbl : gmap string string) (ir : nat * mvtx_row) : M unit :=
  let row := snd ir in
  let kva1 := mt_kvs_primary row in
  let kva2 := mt_kvs_secondary row in
  if negb (Qeq_bool kva1 kva2) then
    suffix ← lift (subscript id tbl (mt_Conn_Type row));
    dss_command (mv_tx_split row suffix)
  else
    dss_command [Lit "set maxcontroliter=100"];;
    dss_command (jumper_A_E row);;
    dss_command (jumper_A_O row);;
    dss_command (jumper_B_E row);;
    dss_command (jumper_B_O row);;
    dss_command (jumper_C_E row);;
    dss_command (jumper_C_O row);;
    for_each ["A"; "B"; "C"] (λ phase, dss_command (reg_tx row (kVAtraf kva1) phase));;
    for_each ["A"; "B"; "C"] (λ phase, dss_command (reg_control row phase)).

Definition mv_txs (e : env) : M unit :=
  tbl ← lift char_to_num;
  element ← get_table "mvtx" (mvtx (data e));
  for_each (iterrows element) (mv_txs_row tbl).

(** ** LV transformers: [lv_tx] *)

Definition lv_tx_tail (row : lvtx_row) : fstring :=
  [Lit "xhl="; Fmt (lt_xhl row); Lit " "] ++
  [Lit "%noloadloss="; Fmt (lt_noloadloss row); Lit " "] ++
  [Lit "%loadloss="; Fmt (lt_loadloss row); Lit " "] ++
  [Lit "wdg=1 "] ++
  [Lit "numtaps=4 "] ++
  [Lit "tap="; Fmt (lt_wdg1_tap row); Lit " "] ++
  [Lit "maxtap=1.137 "] ++
  [Lit "mintap=1.028"].

Definition lv_tx_three (index : nat) (row : lvtx_row) : fstring :=
  [Lit "new transformer.mv_f0_lv_"; Fmt (lt_Substation_ID row); Lit " "] ++
  [Lit "phases=3 "] ++
  [Lit "windings=2 "] ++
  [Lit "buses=[mv_f0_n"; Fmt (lt_Bus1 row); Lit " mv_f0_lv"; Fmt (VInt (Z.of_nat index));
   Lit "_busbar] "] ++
  [Lit "conns=["; Fmt (lt_Connection_Primary row); Lit " ";
   Fmt (lt_Connection_Secondary row); Lit "] "] ++
  [Lit "kVs=["; Fmt (VNum (lt_kvs_primary row)); Lit " "; Fmt (VNum (lt_kvs_secondary row));
   Lit "] "] ++
  [Lit "kVAs=["; Fmt (lt_kvas_primary row); Lit " "; Fmt (lt_kvas_secondary row); Lit "] "] ++
  lv_tx_tail row.

Definition lv_tx_split (index : nat) (row : lvtx_row) (suffix : string) : fstring :=
  [Lit "new transformer.mv_f0_lv_"; Fmt (lt_Substation_ID row); Lit " "] ++
  [Lit "phases=1 "] ++
  [Lit "windings=3 "] ++
  [Lit "buses=[mv_f0_n"; Fmt (lt_Bus1 row); Lit "."; Fmt (VStr suffix);
   Lit " mv_f0_lv"; Fmt (VInt (Z.of_nat index)); Lit "_busbar.1.0 mv_f0_lv";
   Fmt (VInt (Z.of_nat index)); Lit "_busbar.0.2] "] ++
  [Lit "conns=[Delta Wye Wye] "] ++
  [Lit "kVs=[22 0.25 0.25] "] ++
  [Lit "kVAs=["; Fmt (lt_kvas_primary row); Lit " "; Fmt (lt_kvas_secondary row);
   Lit " "; Fmt (lt_kvas_secondary row); Lit "] "] ++
  lv_tx_tail row.

Definition lv_tx_single (index : nat) (row : lvtx_row) (suffix : string) : fstring :=
  [Lit "new transformer.mv_f0_lv_"; Fmt (lt_Substation_ID row); Lit " "] ++
  [Lit "phases=1 "] ++
  [Lit "windings=2 "] ++
  [Lit "buses=[mv_f0_n"; Fmt (lt_Bus1 row); Lit "."; Fmt (VStr suffix);
   Lit " mv_f0_lv"; Fmt (VInt (Z.of_nat index)); Lit "_busbar.1] "] ++
  [Lit "conns=[Wye Wye] "] ++
  [Lit "kVs=["; Fmt (VNum (lt_kvs_primary row)); Lit " "; Fmt (VNum (lt_kvs_secondary row));
   Lit "] "] ++
  [Lit "kVAs=["; Fmt (lt_kvas_primary row); Lit " "; Fmt (lt_kvas_secondary row); Lit "] "] ++
  lv_tx_tail row.

Definition lv_tx_data (tbl : gmap string string) (index : nat) (row : lvtx_row)
    : outcome fstring :=
  if (String.length (lt_Conn_Type row) =? 3)%nat then
    Ok (lv_tx_three index row)
  else if (String.length (lt_Conn_Type row) =? 2)%nat then
    suffix ← subscript id tbl (lt_Conn_Type row);
    Ok (lv_tx_split index row suffix)
  else
    suffix ← subscript id tbl (lt_Conn_Type row);
    Ok (lv_tx_single index row suffix).

Definition lv_tx_row (tbl : gmap string string) (ir : nat * lvtx_row) : M unit :=
  let index := fst ir in
  let row := snd ir in
  c ← lift (lv_tx_data tbl index row);
  dss_command c;;
  modify (set_MVLV_txs (index, "DSSNAME") (CText [Lit "mv_f0_lv_"; Fmt (lt_Substation_ID row)])).

Definition lv_tx (e : env) : M unit :=
  tbl ← lift char_to_num;
  element ← get_table "lvtx" (lvtx (data e));
  for_each (iterrows element) (lv_tx_row tbl).

(** ** LV lines: [lv_nets] *)

Definition line_data (row : lv_line_row) : fstring :=
  let bus_conn := if ll_phases row =? 3 then ".1.2.3" else ".1" in
  [Lit "new line."; Fmt (ll_line_name row); Lit " "] ++
  [Lit "bus1="; Fmt (ll_bus1 row); Lit bus_conn; Lit " "] ++
  [Lit "bus2="; Fmt (ll_bus2 row); Lit bus_conn; Lit " "] ++
  [Lit "phases="; Fmt (VInt (ll_phases row)); Lit " "] ++
  [Lit "length="; Fmt (ll_length row); Lit " "] ++
  [Lit "units="; Fmt (ll_units row); Lit " "] ++
  [Lit "linecode="; Fmt (ll_linecode row); Lit " "].

Definition lv_nets (e : env) : M unit :=
  element ← get_table "lv_lines" (lv_lines (data e));
  for_each (iterrows element) (λ ir, dss_command (line_data (snd ir))).

(** ** Loads and their daily profiles: [lv_load_mod] *)

Definition time_res : Z := 30.

Definition load_data (row : lv_load_row) : fstring :=
  [Lit "new load."; Fmt (ld_load_name row); Lit " "] ++
  [Lit "phases="; Fmt (VInt (ld_phases row)); Lit " "] ++
  [Lit "bus1="; Fmt (ld_bus1 row); Lit " "] ++
  [Lit "kw=1 "] ++
  [Lit "conn=wye "] ++
  [Lit "kv="; Fmt (ld_kv row); Lit " "] ++
  [Lit "pf="; Fmt (ld_pf row); Lit " "] ++
  [Lit "model=1 "] ++
  [Lit "vminpu=0.0 vmaxpu=2 "] ++
  [Lit "status="; Fmt (ld_model row); Lit " "] ++
  [Lit "enabled=True"].

Definition load_shape (tag : string) (index : nat) (profile : list Q) : fstring :=
  [Lit ("New Loadshape.Load_shape_" ++ tag ++ "_"); Fmt (VInt (Z.of_nat index)); Lit " "] ++
  [Lit "npts="; Fmt (VInt ((24 * 60) / time_res)); Lit " "] ++
  [Lit "minterval="; Fmt (VInt time_res); Lit " "] ++
  [Lit "Pmult="; Fmt (VNums profile); Lit " "] ++
  [Lit "useactual=no"].

(** [p[np.random.randint(len(p)), selected_day, :]] *)
Definition draw_profile (p : pool) (selected_day : Z) : M (list Q) :=
  i ← randint 0 (Z.of_nat (length p));
  lift (days ← np_index p i; np_index days selected_day).

(** The [while True] loop of a non-residential load (lines 794-801): draw
    until the peak is below half the transformer capacity. *)
Fixpoint sample_com (fuel : nat) (e : env) (selected_day : Z) (tx_cap : Q) : M (list Q) :=
  match fuel with
  | O => diverge
  | S fuel' =>
      load_profile_com ← draw_profile (com_data e) selected_day;
      load_max ← lift (np_max load_profile_com);
      if Qltb load_max (tx_cap / 2) then mret load_profile_com
      else sample_com fuel' e selected_day tx_cap
  end.

(** Associate the profile to a customer (lines 775-776 and 811-812). *)
Definition bind_daily (row : lv_load_row) (tag : string) (index : nat) : M unit :=
  modify (log_call (SetActiveElement [Lit "load."; Fmt (ld_load_name row)]));;
  modify (log_call (SetProperty "daily"
            [Lit ("Load_shape_" ++ tag ++ "_"); Fmt (VInt (Z.of_nat index))])).

Definition lv_load_row_body (e : env) (fuel : nat) (selected_day : Z)
    (ir : nat * lv_load_row) : M unit :=
  let index := fst ir in
  let row := snd ir in
  if ld_phases row =? 1 then
    dss_command (load_data row);;
    load_profile_res ← draw_profile (house_data e) selected_day;
    dss_command (load_shape "res" index load_profile_res);;
    bind_daily row "res" index
  else
    dss_command (load_data row);;
    load_profile_com ← sample_com fuel e selected_day (ld_tx_cap row);
    dss_command (load_shape "com" index load_profile_com);;
    bind_daily row "com" index.

Definition lv_load_mod_body (e : env) (fuel : nat) (selected_day : Z) : M Z :=
  selected_day ← (if selected_day =? 0
                  then np_random_seed e 100;; randint 0 365
                  else mret selected_day);
  element ← get_table "lv_loads" (lv_loads (data e));
  for_each (iterrows element) (lv_load_row_body e fuel selected_day);;
  mret selected_day.

(** [def lv_load_mod(self, selected_day=0)], called with [args]. *)
Definition lv_load_mod (e : env) (fuel : nat) (args : list Z) : M Z :=
  match args with
  | [] => lv_load_mod_body e fuel 0
  | [selected_day] => lv_load_mod_body e fuel selected_day
  | _ => raise (TypeError "lv_load_mod() takes from 1 to 2 positional arguments")
  end.

(** ** The date report and the global directives *)

Definition get_date_and_season (e : env) (day_of_year : Z) : value * string :=
  let date_str := VDate (now_year e) (day_of_year - 1) in
  let season :=
    if (355 <=? day_of_year) || (day_of_year <=? 78) then "Summer"
    else if (79 <=? day_of_year) && (day_of_year <=? 170) then "Autumn"
    else if (171 <=? day_of_year) && (day_of_year <=? 263) then "Winter"
    else "Spring" in
  (date_str, season).

Definition missing_selected_day : exn :=
  TypeError "print_selected_date() missing 1 required positional argument: 'selected_day'".

(** [def print_selected_date(self, selected_day)], called with [args]. *)
Definition print_selected_date (e : env) (args : list Z) : M unit :=
  match args with
  | [] => raise missing_selected_day
  | [selected_day] =>
      let ds := get_date_and_season e selected_day in
      print [Lit "The random day selected for the simulation is "; Fmt (fst ds);
             Lit ", and it correspond to the "; Fmt (VStr (snd ds)); Lit " season."]
  | _ => raise (TypeError "print_selected_date() takes 2 positional arguments")
  end.

Definition voltage_bases : fstring := [Lit "Set VoltageBases=[66.0, 22.0, 12.7 0.400, 0.2309]"].
Definition calcv : fstring := [Lit "calcv"].

Definition other_opendss_commands : M unit :=
  dss_command voltage_bases;;
  dss_command calcv.

(** ** The orchestrator: [build_network] (lines 435-455) *)

Definition build_network (e : env) (fuel : nat) : M unit :=
  print [Lit "Network building started."];;
  basic_opendss_actions;;
  voltage_source;;
  mv_net_tx e;;
  line_codes e;;
  connections e;;
  try_except_pass (capacitors e);;
  try_except_pass (mv_txs e);;
  lv_tx e;;
  lv_nets e;;
  lv_load_mod e fuel [];;
  print_selected_date e [];;
  other_opendss_commands;;
  print [Lit "Network building completed."].

(* ================================================================== *)
(** * Reading the emitted commands back *)

(** The calls a stage added to the engine's log between two states. *)
Definition emitted (st st' : state) : list engine_call :=
  drop (length (dss_log st)) (dss_log st').

Definition has_lit (s : string) (c : fstring) : bool :=
  existsb (λ f, match f with Lit t => String.eqb s t | Fmt _ => false end) c.

Definition head_lit (c : fstring) : string :=
  match c with
  | Lit s :: _ => s
  | _ => ""
  end.

(** Every value interpolated right after an occurrence of [key]. *)
Fixpoint fields_after (key : string) (c : fstring) : list value :=
  match c with
  | [] => []
  | f :: rest =>
      match f, rest with
      | Lit s, Fmt v :: _ =>
          if String.eqb s key then v :: fields_after key rest else fields_after key rest
      | _, _ => fields_after key rest
      end
  end.

Inductive topology : Type :=
| TwoWindingThreePhase
| ThreeWindingSplitPhase
| TwoWindingSinglePhase
| RegulatorAssembly.

Inductive kind : Type :=
| KDirective                      (* an engine option, not a component *)
| KEntryJumper (phase : string)   (* reactor from the primary bus to the jumper bus *)
| KExitJumper (phase : string)    (* reactor from the jumper bus to the secondary bus *)
| KRegTransformer (phase : string)(* 1-phase 2-winding transformer on the jumper bus *)
| KRegControl (phase : string)
| KTransformer (t : topology)     (* a transformer of a standard topology *)
| KOther.

#[global] Instance topology_eq_dec : EqDecision topology.
Proof. solve_decision. Defined.
#[global] Instance kind_eq_dec : EqDecision kind.
Proof. solve_decision. Defined.

Definition jumper_kind (s : string) : kind :=
  match List.find (λ ph, String.prefix ("_" ++ ph ++ "_E ") s) ["A"; "B"; "C"] with
  | Some ph => KEntryJumper ph
  | None =>
      match List.find (λ ph, String.prefix ("_" ++ ph ++ "_O ") s) ["A"; "B"; "C"] with
      | Some ph => KExitJumper ph
      | None => KOther
      end
  end.

Definition transformer_kind (c : fstring) : kind :=
  if has_lit "phases=1 " c && has_lit "windings=2 " c && has_lit "Bus=Jumper_" c then
    match c with
    | _ :: _ :: _ :: Fmt (VStr ph) :: _ => KRegTransformer ph
    | _ => KOther
    end
  else if has_lit "phases=3 " c && has_lit "windings=2 " c then
    KTransformer TwoWindingThreePhase
  else if has_lit "phases=1 " c && has_lit "windings=3 " c && has_lit "conns=[Delta Wye Wye] " c then
    KTransformer ThreeWindingSplitPhase
  else if has_lit "phases=1 " c && has_lit "windings=2 " c then
    KTransformer TwoWindingSinglePhase
  else KOther.

(** What a command defines, read from its text. *)
Definition kind_of (c : fstring) : kind :=
  let h := lower (head_lit c) in
  if String.prefix "set " h || String.eqb h "clear" || String.eqb h "calcv" then KDirective
  else if String.eqb h "new reactor.jumper_" then
    match c with
    | _ :: _ :: Lit s :: _ => jumper_kind s
    | _ => KOther
    end
  else if String.prefix "new transformer." h then transformer_kind c
  else if String.eqb h " new regcontrol.reg_" then
    match c with
    | _ :: _ :: _ :: Fmt (VStr ph) :: _ => KRegControl ph
    | _ => KOther
    end
  else KOther.

Definition kind_of_call (c : engine_call) : kind :=
  match c with
  | Command f => kind_of f
  | _ => KOther
  end.

Definition is_component (k : kind) : bool :=
  match k with
  | KDirective | KOther => false
  | _ => true
  end.

(** The component definitions among the calls, in emission order. *)
Definition components (l : list engine_call) : list kind :=
  List.filter is_component (map kind_of_call l).

Definition phase_of (k : kind) : option string :=
  match k with
  | KEntryJumper ph | KExitJumper ph | KRegTransformer ph | KRegControl ph => Some ph
  | _ => None
  end.

Definition of_phase (ph : string) (ks : list kind) : list kind :=
  List.filter (λ k, bool_decide (phase_of k = Some ph)) ks.

Definition assembly_of (ph : string) : list kind :=
  [KEntryJumper ph; KExitJumper ph; KRegTransformer ph; KRegControl ph].

Definition is_regulator_assembly (ks : list kind) : bool :=
  bool_decide (length ks = 12%nat) &&
  forallb (λ ph, bool_decide (of_phase ph ks = assembly_of ph)) ["A"; "B"; "C"].

(** The topology variant that a list of emitted calls amounts to. *)
Definition chosen_topology (l : list engine_call) : option topology :=
  match components l with
  | [KTransformer t] => Some t
  | ks => if is_regulator_assembly ks then Some RegulatorAssembly else None
  end.

(* ================================================================== *)
(** * The specification's own words, for comparison with the code *)

(** Section 4.2: the decision rule of the topology selector. *)
Definition spec_topology (kv1 kv2 : Q) (phase_code : string) : option topology :=
  if Qeq_bool kv1 kv2 then Some RegulatorAssembly
  else match String.length phase_code with
       | 3%nat => Some TwoWindingThreePhase
       | 2%nat => Some ThreeWindingSplitPhase
       | 1%nat => Some TwoWindingSinglePhase
       | _ => None
       end.

(** Section 4.2, step 3: the equivalent single-phase capacity. *)
Definition regulation_range : Q := 0.1.
Definition spec_equivalent_capacity (primary_capacity : Q) : Q :=
  np_round2 ((regulation_range / (1 + regulation_range)) * primary_capacity).

(** Section 4.1: when translation is said to fail. *)
Definition is_rwb (c : ascii) : bool :=
  Ascii.eqb c "R" || Ascii.eqb c "W" || Ascii.eqb c "B".

Definition spec_invalid (s : string) : bool :=
  negb (forallb is_rwb (list_ascii_of_string s))
  || (String.length s =? 0)%nat || (3 <? String.length s)%nat.

(** Section 3: R to 1, W to 2, B to 3, dot-separated. *)
Definition spec_digit (c : ascii) : string :=
  if Ascii.eqb c "R" then "1" else if Ascii.eqb c "W" then "2" else "3".

Definition spec_suffix (s : string) : string :=
  join "." (map spec_digit (list_ascii_of_string s)).

(** What [connections] does for a kept row before it looks up the ampacity. *)
Definition annotate_line (i : nat) (row : line_row) (st : state) : state :=
  set_MV_lines (i, "DSSNAME") (CText [Lit "mv_f0_l"; Fmt (ln_Line_Number row)])
    (add_calls [Command (mv_line_data row)] st).

Definition kept (ir : nat * line_row) : bool := negb (is_deletion (snd ir)).

(** The line definitions of the kept rows, in order. *)
Definition line_calls (irs : list (nat * line_row)) : list engine_call :=
  map (λ ir, Command (mv_line_data (snd ir))) (List.filter kept irs).

(** What [mv_txs] issues for a record of equal voltages (lines 580-650). *)
Definition regulator_calls (row : mvtx_row) : list engine_call :=
  Command [Lit "set maxcontroliter=100"] ::
  map Command [jumper_A_E row; jumper_A_O row; jumper_B_E row; jumper_B_O row;
               jumper_C_E row; jumper_C_O row] ++
  map (λ phase, Command (reg_tx row (kVAtraf (mt_kvs_primary row)) phase)) ["A"; "B"; "C"] ++
  map (λ phase, Command (reg_control row phase)) ["A"; "B"; "C"].

(** The leading text of a call, to read the order of a log. *)
Definition call_head (c : engine_call) : string :=
  match c with
  | Command f => head_lit f
  | SetActiveElement _ => "SetActiveElement"
  | SetProperty _ _ => "SetProperty"
  end.

(** The two commands of [other_opendss_commands], recognised in a log. *)
Definition is_final_directive (c : engine_call) : bool :=
  match c with
  | Command [Lit s] => String.prefix "Set VoltageBases" s || String.eqb s "calcv"
  | _ => false
  end.

(** No stage before the date report issues one of the two final directives. *)
Definition not_final (c : engine_call) : Prop := is_final_directive c = false.

(** The capacities written after [kVA=] in a list of calls. *)
Definition kVA_fields (l : list engine_call) : list value :=
  flat_map (λ c, match c with
                 | Command f => fields_after "kVA=" f
                 | _ => []
                 end) l.

(** The four calls that define a load and bind profile [p] to it. *)
Definition bound_calls (row : lv_load_row) (tag : string) (i : nat) (p : list Q)
    : list engine_call :=
  [Command (load_data row);
   Command (load_shape tag i p);
   SetActiveElement [Lit "load."; Fmt (ld_load_name row)];
   SetProperty "daily" [Lit ("Load_shape_" ++ tag ++ "_"); Fmt (VInt (Z.of_nat i))]].

(** The Geo Layer entry that [lv_tx] writes for a row. *)
Definition name_lv_tx (i : nat) (row : lvtx_row) (st : state) : state :=
  set_MVLV_txs (i, "DSSNAME") (CText [Lit "mv_f0_lv_"; Fmt (lt_Substation_ID row)]) st.

(** The stages of [build_network] up to the load stage, as it chains them. *)
Definition stages_to_loads (e : env) (fuel : nat) : M Z :=
  print [Lit "Network building started."];;
  basic_opendss_actions;;
  voltage_source;;
  mv_net_tx e;;
  line_codes e;;
  connections e;;
  try_except_pass (capacitors e);;
  try_except_pass (mv_txs e);;
  lv_tx e;;
  lv_nets e;;
  lv_load_mod e fuel [].

(** A computation only appends calls satisfying [P] to the engine's log,
    whatever its outcome. *)
Definition appends {A} (P : engine_call -> Prop) (m : M A) : Prop :=
  ∀ st o st', m st = (o, st') ->
    ∃ new, dss_log st' = (dss_log st ++ new)%list ∧ Forall P new.

(* ================================================================== *)
(** * The snapshot time: [sel_time] (lines 826-862) *)

(** [s.split(sep)] for a separator of one character. *)
Fixpoint split_on (sep : ascii) (s : string) : list string :=
  match s with
  | EmptyString => [EmptyString]
  | String c s' =>
      if Ascii.eqb c sep then EmptyString :: split_on sep s'
      else match split_on sep s' with
           | x :: xs => String c x :: xs
           | [] => [String c EmptyString]
           end
  end.

(** [a, b = l]: anything but two items is a [ValueError]. *)
Definition unpack2 {A} (l : list A) : outcome (A * A) :=
  match l with
  | [a; b] => Ok (a, b)
  | _ => Raise ValueError
  end.

(** The text on which [int] is modelled: characters below 128 only. On
    other text [int] also takes the white space and the decimal digits of
    other scripts, which a string of bytes does not tell apart. *)
Definition is_ascii (s : string) : bool :=
  forallb (λ c, (nat_of_ascii c <? 128)%nat) (list_ascii_of_string s).

(** The characters below 128 that [int] skips around a literal: tab, line
    feed, vertical tab, form feed, carriage return and the space. (The
    separators 28..31 are white space for [str.isspace] but not for [int],
    which raises [ValueError] on them.) *)
Definition is_space (c : ascii) : bool :=
  let n := nat_of_ascii c in
  ((9 <=? n) && (n <=? 13) || (n =? 32))%nat.

Definition is_digit (c : ascii) : bool :=
  let n := nat_of_ascii c in ((48 <=? n) && (n <=? 57))%nat.

Fixpoint lstrip (l : list ascii) : list ascii :=
  match l with
  | c :: l' => if is_space c then lstrip l' else l
  | [] => []
  end.

Definition strip (l : list ascii) : list ascii := rev (lstrip (rev (lstrip l))).

(** The digits of a decimal literal: single underscores may stand between
    digits. [after_digit] tells whether the character before was a digit. *)
Fixpoint digits_value (after_digit : bool) (acc : Z) (l : list ascii) : option Z :=
  match l with
  | [] => if after_digit then Some acc else None
  | c :: l' =>
      if is_digit c then digits_value true (10 * acc + (Z.of_nat (nat_of_ascii c) - 48)) l'
      else if Ascii.eqb c "_" && after_digit then digits_value false acc l'
      else None
  end.

(** [int(s)] on text that satisfies [is_ascii] and has at most 4300
    characters: white space around, an optional sign, decimal digits.
    Longer text can exceed the digit limit of Python 3.11 and later, where
    [int] raises [ValueError] on more than 4300 digits; the theorems on
    [sel_time] that range over all inputs assume both bounds. *)
Definition py_int (s : string) : outcome Z :=
  let body := strip (list_ascii_of_string s) in
  let signed :=
    match body with
    | c :: rest =>
        if Ascii.eqb c "-" then (-1, rest)
        else if Ascii.eqb c "+" then (1, rest)
        else (1, body)
    | [] => (1, body)
    end in
  match digits_value false 0 (snd signed) with
  | Some v => Ok (fst signed * v)
  | None => Raise ValueError
  end.

(** [f"{z:02d}"] *)
Definition format_02d (z : Z) : string :=
  let digits := str_int (Z.abs z) in
  if z <? 0 then "-" ++ digits
  else if (String.length digits <? 2)%nat then "0" ++ digits
  else digits.

(** [h, m = snapshottime.split(':')] and [h, m = int(h), int(m)] *)
Definition parse_time (snapshottime : string) : outcome (Z * Z) :=
  hm ← unpack2 (split_on ":" snapshottime);
  h ← py_int (fst hm);
  m ← py_int (snd hm);
  Ok (h, m).

(** The rounding of lines 843-849, on a time that passed the range test. *)
Definition round_half_hour (h m : Z) : Z * string :=
  if m <? 15 then (h, "00")
  else if (15 <=? m) && (m <? 45) then (h, "30")
  else ((if h <? 23 then h + 1 else 0), "00").

(** The [try] block up to [rounded_time]; it raises nothing but
    [ValueError]. *)
Definition sel_time_try (snapshottime : string) : outcome string :=
  hm ← parse_time snapshottime;
  let h := fst hm in
  let m := snd hm in
  if negb ((0 <=? h) && (h <? 24)) || negb ((0 <=? m) && (m <? 60)) then
    Raise ValueError
  else
    let r := round_half_hour h m in
    Ok (format_02d (fst r) ++ ":" ++ snd r).

Definition invalid_time_message : fstring :=
  [Lit "Invalid input. Please enter time in the format hh:mm where hh is 00-23 and mm is 00-59."].

(** The [while True] loop: the argument is never read again, so a pass
    that fails is followed by the same pass. *)
Fixpoint sel_time_loop (fuel : nat) (snapshottime : string) : M string :=
  match fuel with
  | O => diverge
  | S fuel' =>
      match sel_time_try snapshottime with
      | Ok rounded_time =>
          print [Lit "Rounded time: "; Fmt (VStr rounded_time)];;
          mret rounded_time
      | Raise ValueError =>
          print invalid_time_message;;
          sel_time_loop fuel' snapshottime
      | Raise e => raise e
      | Diverge => diverge
      end
  end.

Definition sel_time (fuel : nat) (snapshottime : string) : M (string * string) :=
  rounded_time ← sel_time_loop fuel snapshottime;
  sim_hh ← lift (np_index (split_on ":" rounded_time) 0);
  sim_mm ← lift (np_index (split_on ":" rounded_time) 1);
  mret (sim_hh, sim_mm).

(* ================================================================== *)
(** * Reading whole stages *)

(** Whether [mv_txs] can emit a record: equal voltages, or a PhaseCode of
    the table. *)
Definition mv_row_ok (row : mvtx_row) : bool :=
  Qeq_bool (mt_kvs_primary row) (mt_kvs_secondary row) ||
  match translate (mt_Conn_Type row) with
  | Ok _ => true
  | _ => false
  end.

(** What [mv_txs] issues for a record it can emit. *)
Definition mv_row_calls (row : mvtx_row) : list engine_call :=
  if Qeq_bool (mt_kvs_primary row) (mt_kvs_secondary row) then regulator_calls row
  else match translate (mt_Conn_Type row) with
       | Ok suffix => [Command (mv_tx_split row suffix)]
       | _ => []
       end.

(** The tables with the two optional sheets replaced. *)
Definition with_optional (caps : option (list mvcap_row)) (txs : option (list mvtx_row))
    (e : env) : env :=
  {| data := {| mv_net_txs := mv_net_txs (data e); linecodes := linecodes (data e);
                lines := lines (data e); mvcaps := caps; mvtx := txs;
                lvtx := lvtx (data e); lv_lines := lv_lines (data e);
                lv_loads := lv_loads (data e) |};
     house_data := house_data e; com_data := com_data e;
     np_seed := np_seed e; now_year := now_year e |}.

(** The tag of a load's loadshape: [res] for phase count 1, [com] otherwise. *)
Definition load_tag (row : lv_load_row) : string :=
  if ld_phases row =? 1 then "res" else "com".

(** The calls of the load stage for the rows [irs] bound to the profiles [ps]. *)
Definition loads_calls (irs : list (nat * lv_load_row)) (ps : list (list Q))
    : list engine_call :=
  concat (zip_with (λ ir p, bound_calls (snd ir) (load_tag (snd ir)) (fst ir) p) irs ps).

(** The definition [lv_tx] issues for a row it can emit. *)
Definition lv_tx_cmd (ir : nat * lvtx_row) : fstring :=
  match lv_tx_data phase_table (fst ir) (snd ir) with
  | Ok c => c
  | _ => []
  end.

Definition lv_row_ok (ir : nat * lvtx_row) : bool :=
  match lv_tx_data phase_table (fst ir) (snd ir) with
  | Ok _ => true
  | _ => false
  end.

(* ================================================================== *)
(** * A small network, for the examples *)

Definition lc_abc : linecode_row :=
  {| lc_Linecode_ID := "ABC-3ph"; lc_Phases := VInt 3;
     lc_r1 := VNum 0.3; lc_x1 := VNum 0.4; lc_b1 := VNum 0;
     lc_r0 := VNum 0.6; lc_b0 := VNum 0; lc_x0 := VNum 1.2;
     lc_Units := VStr "km"; lc_Ampacity1 := 300; lc_Ampacity2 := 250 |}.

Definition lc_swer : linecode_row :=
  {| lc_Linecode_ID := "SWER-1ph"; lc_Phases := VInt 1;
     lc_r1 := VNum 1.5; lc_x1 := VNum 0.8; lc_b1 := VNum 0;
     lc_r0 := VNum 1.5; lc_b0 := VNum 0; lc_x0 := VNum 0.8;
     lc_Units := VStr "km"; lc_Ampacity1 := 100; lc_Ampacity2 := 120 |}.

Definition line_of (name : string) (number : Z) (code : string) (phases : Z) : line_row :=
  {| ln_Element_Name := name; ln_Line_Number := VInt number;
     ln_Start_Node := VInt number; ln_Start_Node_Phase := VStr "1.2.3";
     ln_End_Node := VInt (number + 1); ln_End_Node_Phase := VStr "1.2.3";
     ln_Phases := phases; ln_Length := VNum 0.5; ln_Units := VStr "km";
     ln_Linecode := code |}.

Definition mvtx_of (id code : string) (kv1 kv2 kva : Q) : mvtx_row :=
  {| mt_Substation_ID := VStr id; mt_Bus1 := VInt 7; mt_Bus2 := VInt 8;
     mt_Conn_Type := code;
     mt_kvs_primary := kv1; mt_kvs_secondary := kv2;
     mt_kvas_primary := kva; mt_kvas_secondary := kva;
     mt_xhl := VNum 4; mt_noloadloss := VNum 0.2; mt_loadloss := VNum 1;
     mt_wdg1_numtaps := 33 |}.

Definition lvtx_of (id code : string) (kv1 kv2 : Q) : lvtx_row :=
  {| lt_Substation_ID := VStr id; lt_Bus1 := VInt 9; lt_Conn_Type := code;
     lt_Connection_Primary := VStr "Delta"; lt_Connection_Secondary := VStr "Wye";
     lt_kvs_primary := kv1; lt_kvs_secondary := kv2;
     lt_kvas_primary := VNum 100; lt_kvas_secondary := VNum 100;
     lt_xhl := VNum 4; lt_noloadloss := VNum 0.2; lt_loadloss := VNum 1;
     lt_wdg1_tap := VNum 1.05 |}.

Definition load_of (name : string) (phases : Z) (cap : Q) : lv_load_row :=
  {| ld_load_name := VStr name; ld_phases := phases; ld_bus1 := VStr "lv_bus";
     ld_kv := VNum 0.4; ld_pf := VNum 0.95; ld_model := VStr "fixed";
     ld_tx_cap := cap |}.

Definition sample_mv_net_tx : mv_net_tx_row :=
  {| mn_Substation_ID := VStr "ZS1"; mn_Bus1 := VStr "sourcebus"; mn_Bus2 := VInt 1;
     mn_Connection_Primary := VStr "Delta"; mn_Connection_Secondary := VStr "Wye";
     mn_kvs_primary := VNum 66; mn_kvs_secondary := VNum 22;
     mn_kvas_primary := VNum 20000; mn_kvas_secondary := VNum 20000;
     mn_loadloss := VNum 0.5; mn_noloadloss := VNum 0.1; mn_xhl := VNum 10 |}.

Definition sample_cap : mvcap_row :=
  {| cp_Element_ID := VInt 1; cp_Bus1 := VInt 4; cp_phases := VInt 3;
     cp_kvar := VNum 300; cp_kvs := VNum 22 |}.

Definition sample_lv_line : lv_line_row :=
  {| ll_line_name := VStr "lv_line_1"; ll_bus1 := VStr "mv_f0_lv0_busbar";
     ll_bus2 := VStr "lv_bus"; ll_phases := 3; ll_length := VNum 30;
     ll_units := VStr "m"; ll_linecode := VStr "lv_abc" |}.

Definition sample_tables : tables :=
  {| mv_net_txs := Some [sample_mv_net_tx];
     linecodes := Some [lc_abc; lc_swer];
     lines := Some [line_of "Line" 1 "ABC" 3; line_of "DeLeTe" 2 "none" 1;
                    line_of "Line" 3 "SWER" 1];
     mvcaps := Some [sample_cap];
     mvtx := Some [mvtx_of "SW1" "RWB" 22 12.7 1000; mvtx_of "R1_REG" "RWB" 12.7 12.7 1000];
     lvtx := Some [lvtx_of "T1" "RWB" 22 0.4; lvtx_of "T2" "RB" 22 0.25;
                   lvtx_of "T3" "W" 12.7 0.25];
     lv_lines := Some [sample_lv_line];
     lv_loads := Some [load_of "house" 1 0; load_of "shop" 3 10] |}.

(** Two customers per pool, one day each; the first commercial profile
    peaks at 6, the second at 4. *)
Definition sample_env : env :=
  {| data := sample_tables;
     house_data := [[[0.5; 9; 0.7]]; [[0.2; 8; 0.3]]]%Q;
     com_data := [[[6; 1; 2]]; [[1; 4; 3]]]%Q;
     np_seed := λ _ n, n;
     now_year := 2024 |}.


Definition empty_state : state :=
  {| dss_log := []; gis_MV_lines := ∅; gis_MVLV_txs := ∅;
     rng_stream := λ n, n; rng_pos := 0; stdout := [] |}.

(* ================================================================== *)
(** * Properties *)

(** ** Phase-code translation *)

Lemma dict_comprehension_lookup (g : string -> string) (keys : list string) :
  Forall (λ k, phase_suffix k = Ok (g k)) keys ->
  ∀ d : gmap string string, ∃ tbl : gmap string string,
    dict_comprehension keys d = Ok tbl ∧
    ∀ s, tbl !! s = if bool_decide (s ∈ keys) then Some (g s) else d !! s.
Proof.
  induction 1 as [|k keys Hk _ IH]; intros d.
  - exists d. split; [reflexivity|]. intros s.
    rewrite bool_decide_eq_false_2; [reflexivity | apply not_elem_of_nil].
  - destruct (IH (<[k := g k]> d)) as (tbl & Htbl & Hlook).
    exists tbl. split.
    + cbn [dict_comprehension]. rewrite Hk. exact Htbl.
    + intros s. rewrite Hlook.
      destruct (decide (s ∈ keys)) as [Hin|Hnin].
      * rewrite !bool_decide_eq_true_2; [reflexivity | by right | done].
      * rewrite (bool_decide_eq_false_2 (s ∈ keys)) by done.
        destruct (decide (s = k)) as [->|Hne].
        -- rewrite lookup_insert_eq, bool_decide_eq_true_2; [reflexivity | by left].
        -- rewrite lookup_insert_ne by congruence.
           rewrite bool_decide_eq_false_2; [reflexivity|].
           intros [?|?]%elem_of_cons; contradiction.
Qed.

Lemma phase_suffix_keys : Forall (λ k, phase_suffix k = Ok (spec_suffix k)) phase_keys.
Proof. vm_compute. repeat constructor. Qed.

(** The table holds the fifteen permutations and nothing else. *)
Lemma translate_table (s : string) :
  translate s = if bool_decide (s ∈ phase_keys) then Ok (spec_suffix s) else Raise (KeyError s).
Proof.
  destruct (dict_comprehension_lookup spec_suffix phase_keys phase_suffix_keys ∅)
    as (tbl & Htbl & Hlook).
  unfold translate, char_to_num. rewrite Htbl.
  change (subscript id tbl s =
          if bool_decide (s ∈ phase_keys) then Ok (spec_suffix s) else Raise (KeyError s)).
  unfold subscript. rewrite Hlook.
  destruct (bool_decide (s ∈ phase_keys)); [reflexivity|].
  by rewrite lookup_empty.
Qed.

Lemma is_rwb_cases (c : ascii) :
  is_rwb c = true -> c = "R"%char ∨ c = "W"%char ∨ c = "B"%char.
Proof.
  unfold is_rwb. intros H.
  apply orb_true_iff in H as [H|H]; [apply orb_true_iff in H as [H|H]|];
    apply Ascii.eqb_eq in H; auto.
Qed.

Lemma spec_invalid_false (s : string) :
  spec_invalid s = false ->
  forallb is_rwb (list_ascii_of_string s) = true ∧
  (String.length s ≠ 0)%nat ∧ (String.length s <= 3)%nat.
Proof.
  unfold spec_invalid. intros H.
  apply orb_false_iff in H as [H H3]. apply orb_false_iff in H as [H H0].
  apply negb_false_iff in H. apply Nat.eqb_neq in H0. apply Nat.ltb_ge in H3.
  auto.
Qed.

Lemma phase_keys_valid (s : string) :
  s ∈ phase_keys ↔ spec_invalid s = false ∧ NoDup (list_ascii_of_string s).
Proof.
  split.
  - intros Hin.
    assert (Hall : Forall (λ k, spec_invalid k = false ∧
                     bool_decide (NoDup (list_ascii_of_string k)) = true) phase_keys).
    { vm_compute. repeat constructor. }
    rewrite Forall_forall in Hall. destruct (Hall s Hin) as [H1 H2].
    split; [exact H1 | by apply bool_decide_eq_true in H2].
  - intros [Hv Hnd].
    apply spec_invalid_false in Hv as (Hall & H0 & H3).
    destruct s as [|a [|b [|c [|d s]]]]; cbn in H0, H3; try lia; try congruence;
      cbn in Hall, Hnd;
      repeat match goal with
      | H : (_ && _) = true |- _ => apply andb_true_iff in H as [? ?]
      | H : is_rwb _ = true |- _ => apply is_rwb_cases in H as [-> | [-> | ->]]
      end;
      first [ apply (bool_decide_unpack _); vm_compute; exact I
            | exfalso; apply (bool_decide_pack _) in Hnd; vm_compute in Hnd; exact Hnd ].
Qed.

(** C7 (as amended). Translation is a lookup in the table of the fifteen
    permutations: it succeeds exactly on the strings of one to three
    distinct letters from R, W, B, where it returns the dot-separated digits
    under R to 1, W to 2, B to 3; on every other string, one with a repeated
    letter included, it raises [KeyError] on that string. *)
Theorem translate_permutations (s : string) :
  (spec_invalid s = false ∧ NoDup (list_ascii_of_string s) ->
     translate s = Ok (spec_suffix s)) ∧
  (spec_invalid s = true ∨ ¬ NoDup (list_ascii_of_string s) ->
     translate s = Raise (KeyError s)) ∧
  ((∃ e, translate s = Raise e) ↔
     spec_invalid s = true ∨ ¬ NoDup (list_ascii_of_string s)).
Proof.
  pose proof (translate_table s) as Ht.
  pose proof (phase_keys_valid s) as Hk.
  assert (Hbad : spec_invalid s = true ∨ ¬ NoDup (list_ascii_of_string s) -> s ∉ phase_keys).
  { intros [Hi|Hd] [Hv Hn]%Hk; [congruence | contradiction]. }
  split; [|split].
  - intros Hv%Hk. by rewrite Ht, bool_decide_eq_true_2.
  - intros Hb%Hbad. by rewrite Ht, bool_decide_eq_false_2.
  - split.
    + intros [e He]. rewrite Ht in He.
      destruct (decide (s ∈ phase_keys)) as [Hin|Hnin].
      * rewrite bool_decide_eq_true_2 in He by done. discriminate.
      * destruct (spec_invalid s) eqn:Hi; [by left|right].
        intros Hnd. apply Hnin, Hk. done.
    + intros Hb%Hbad. exists (KeyError s). by rewrite Ht, bool_decide_eq_false_2.
Qed.

Lemma translate_permutations_witness :
  translate "RB" = Ok "1.3" ∧ translate "BWR" = Ok "3.2.1" ∧
  translate "RWBR" = Raise (KeyError "RWBR").
Proof.
  split; [|split].
  - apply (proj1 (translate_permutations "RB")).
    split; [reflexivity | apply (bool_decide_unpack _); vm_compute; exact I].
  - apply (proj1 (translate_permutations "BWR")).
    split; [reflexivity | apply (bool_decide_unpack _); vm_compute; exact I].
  - apply (proj1 (proj2 (translate_permutations "RWBR"))). left. reflexivity.
Defined.

(** C7 (as stated) fails: "RR" has only letters of R, W, B and length 2,
    and its translation raises. *)
Lemma translate_repeated_letter :
  spec_invalid "RR" = false ∧
  translate "RR" = Raise (KeyError "RR") ∧
  ¬ (∀ s, (∃ e, translate s = Raise e) ↔ spec_invalid s = true).
Proof.
  split; [reflexivity|]. split; [vm_compute; reflexivity|].
  intros H. destruct (H "RR") as [H1 _].
  assert (Hf : spec_invalid "RR" = true) by (apply H1; eexists; vm_compute; reflexivity).
  discriminate Hf.
Qed.

(** ** Runs of the stage monad *)

Lemma bind_run {A B} (m : M A) (f : A -> M B) (st : state) :
  (m ≫= f) st =
  match m st with
  | (Ok a, st') => f a st'
  | (Raise e, st') => (Raise e, st')
  | (Diverge, st') => (Diverge, st')
  end.
Proof. reflexivity. Qed.

Lemma add_calls_nil (st : state) : add_calls [] st = st.
Proof. destruct st. unfold add_calls. cbn. by rewrite app_nil_r. Qed.

Lemma add_calls_app (cs1 cs2 : list engine_call) (st : state) :
  add_calls cs2 (add_calls cs1 st) = add_calls (cs1 ++ cs2)%list st.
Proof. unfold add_calls. cbn. by rewrite app_assoc. Qed.

Lemma emitted_add_calls (cs : list engine_call) (st : state) :
  emitted st (add_calls cs st) = cs.
Proof. unfold emitted. cbn. by rewrite drop_app_length. Qed.

Lemma emitted_app (st st' : state) (new : list engine_call) :
  dss_log st' = (dss_log st ++ new)%list -> emitted st st' = new.
Proof. intros H. unfold emitted. rewrite H. apply drop_app_length. Qed.

Lemma for_each_app {A} (l1 l2 : list A) (body : A -> M unit) (st : state) :
  for_each (l1 ++ l2)%list body st =
  match for_each l1 body st with
  | (Ok _, st1) => for_each l2 body st1
  | (Raise e, st1) => (Raise e, st1)
  | (Diverge, st1) => (Diverge, st1)
  end.
Proof.
  revert st. induction l1 as [|x l1 IH]; intros st; [reflexivity|].
  cbn [app for_each]. rewrite !bind_run.
  destruct (body x st) as [[[]|e|] st1]; [apply IH | reflexivity | reflexivity].
Qed.

(** A loop whose body only issues one command per row. *)
Lemma for_each_commands {A} (f : A -> fstring) (l : list A) (st : state) :
  for_each l (λ x, dss_command (f x)) st = (Ok tt, add_calls (map (λ x, Command (f x)) l) st).
Proof.
  revert st. induction l as [|x l IH]; intros st.
  - cbn. by rewrite add_calls_nil.
  - cbn [for_each map]. rewrite bind_run. cbn.
    rewrite IH. unfold log_call. by rewrite add_calls_app.
Qed.

Lemma map_snd_iterrows {A} (l : list A) : map snd (iterrows l) = l.
Proof.
  unfold iterrows.
  assert (H : ∀ (f : nat -> nat) , map snd (imap (λ i x, (f i, x)) l) = l).
  { induction l as [|x l IH]; intros f; [reflexivity|].
    cbn. f_equal. apply (IH (f ∘ S)). }
  apply (H id).
Qed.

(** ** Line codes *)

Lemma py_min_Qmin (a b : Q) : (py_min a b == Qmin a b)%Q.
Proof.
  unfold py_min, Qltb. destruct (Qle_bool a b) eqn:Hab; cbn.
  - apply Qle_bool_iff in Hab. symmetry. by apply Q.min_l.
  - assert (Hlt : (b < a)%Q).
    { apply Qnot_le_lt. intros H. apply Qle_bool_iff in H. congruence. }
    symmetry. apply Q.min_r. by apply Qlt_le_weak.
Qed.

Lemma py_min_cases (a b : Q) : py_min a b = a ∨ py_min a b = b.
Proof. unfold py_min. destruct (Qltb b a); auto. Qed.

(** C5. The line-code stage issues one definition per line-code record, in
    table order, and the value it writes after [normamp=] is Python's
    [min(Ampacity1, Ampacity2)]: one of the two ampacities, equal to their
    minimum. *)
Theorem line_codes_normamp (e : env) (lcs : list linecode_row) (st : state)
    (Hlc : linecodes (data e) = Some lcs) :
  line_codes e st = (Ok tt, add_calls (map (λ r, Command (linecode_data r)) lcs) st) ∧
  ∀ row : linecode_row,
    fields_after "normamp=" (linecode_data row)
      = [VNum (py_min (lc_Ampacity1 row) (lc_Ampacity2 row))] ∧
    (py_min (lc_Ampacity1 row) (lc_Ampacity2 row) = lc_Ampacity1 row ∨
     py_min (lc_Ampacity1 row) (lc_Ampacity2 row) = lc_Ampacity2 row) ∧
    (py_min (lc_Ampacity1 row) (lc_Ampacity2 row)
       == Qmin (lc_Ampacity1 row) (lc_Ampacity2 row))%Q.
Proof.
  split.
  - unfold line_codes. rewrite Hlc. unfold get_table. rewrite bind_run.
    unfold mret, M_ret. cbv beta iota.
    rewrite (for_each_commands (λ ir, linecode_data (snd ir))).
    rewrite <- (map_snd_iterrows lcs) at 2. by rewrite map_map.
  - intros row. split; [reflexivity|]. split; [apply py_min_cases | apply py_min_Qmin].
Qed.

Lemma line_codes_normamp_witness :
  emitted empty_state (snd (line_codes sample_env empty_state))
    = [Command (linecode_data lc_abc); Command (linecode_data lc_swer)] ∧
  fields_after "normamp=" (linecode_data lc_abc) = [VNum 250].
Proof.
  pose proof (line_codes_normamp sample_env [lc_abc; lc_swer] empty_state eq_refl) as [Hrun Hrow].
  split.
  - rewrite Hrun. apply emitted_add_calls.
  - exact (proj1 (Hrow lc_abc)).
Defined.

(** ** MV lines and the Geo Layer *)

Lemma np_index_0 {A} (l : list A) :
  np_index l 0 = match l with
                 | x :: _ => Ok x
                 | [] => Raise IndexError
                 end.
Proof.
  destruct l as [|x l]; [reflexivity|].
  unfold np_index. cbn [length].
  change (0 <? 0) with false. cbv iota.
  destruct (Z.leb_spec (Z.of_nat (S (length l))) 0) as [H|H]; [lia|].
  reflexivity.
Qed.

Lemma connections_row_deleted (e : env) (i : nat) (row : line_row) (st : state) :
  is_deletion row = true -> connections_row e (i, row) st = (Ok tt, st).
Proof. intros H. unfold connections_row. cbn [fst snd]. by rewrite H. Qed.

Lemma connections_row_kept (e : env) (i : nat) (row : line_row) (st : state) :
  is_deletion row = false ->
  connections_row e (i, row) st =
  match linecodes (data e) with
  | None => (Raise (KeyError "linecodes"), annotate_line i row st)
  | Some lcs =>
      match ampacity1_of (linecode_key row) lcs with
      | [] => (Raise IndexError, annotate_line i row st)
      | a :: _ => (Ok tt, set_MV_lines (i, "Ampacity") (CNum a) (annotate_line i row st))
      end
  end.
Proof.
  intros H. unfold connections_row. cbn [fst snd]. rewrite H. cbn [negb].
  rewrite !bind_run. unfold dss_command, modify, log_call. cbv beta iota.
  rewrite !bind_run. cbv beta iota.
  destruct (linecodes (data e)) as [lcs|]; [|reflexivity].
  unfold get_table, mret, M_ret. cbv beta iota. 
  rewrite !bind_run. unfold lift. rewrite np_index_0.
  destruct (ampacity1_of (linecode_key row) lcs); reflexivity.
Qed.


Lemma annotate_line_log (i : nat) (row : line_row) (st : state) :
  dss_log (annotate_line i row st) = (dss_log st ++ [Command (mv_line_data row)])%list.
Proof. reflexivity. Qed.

Lemma annotate_line_frame (i : nat) (row : line_row) (st : state) (k : nat * string) :
  i ≠ fst k -> gis_MV_lines (annotate_line i row st) !! k = gis_MV_lines st !! k.
Proof.
  intros Hne. unfold annotate_line. cbn.
  apply lookup_insert_ne. intros <-. by apply Hne.
Qed.

Lemma line_calls_deleted (i : nat) (row : line_row) (irs : list (nat * line_row)) :
  is_deletion row = true -> line_calls ((i, row) :: irs) = line_calls irs.
Proof. intros H. unfold line_calls, kept. cbn. by rewrite H. Qed.

Lemma line_calls_kept (i : nat) (row : line_row) (irs : list (nat * line_row)) :
  is_deletion row = false ->
  line_calls ((i, row) :: irs) = Command (mv_line_data row) :: line_calls irs.
Proof. intros H. unfold line_calls, kept. cbn. by rewrite H. Qed.

(** Whatever the outcome of the loop over the lines: the log grew by the
    definitions of the kept rows among those reached, and no key of a row
    that is not kept was written. *)
Lemma connections_loop (e : env) (irs : list (nat * line_row)) :
  ∀ st o st', for_each irs (connections_row e) st = (o, st') ->
    (∃ n, dss_log st' = (dss_log st ++ line_calls (take n irs))%list ∧
          (o = Ok tt -> n = length irs)) ∧
    (∀ k, (∀ ir, ir ∈ irs -> is_deletion (snd ir) = false -> fst ir ≠ fst k) ->
          gis_MV_lines st' !! k = gis_MV_lines st !! k).
Proof.
  induction irs as [|[i row] irs IH]; intros st o st' Hrun.
  - cbn in Hrun. injection Hrun as <- <-. split; [|done].
    exists 0%nat. split; [|done]. cbn. by rewrite app_nil_r.
  - cbn [for_each] in Hrun. rewrite bind_run in Hrun.
    destruct (is_deletion row) eqn:Hd.
    + rewrite connections_row_deleted in Hrun by done. cbv beta iota in Hrun.
      destruct (IH _ _ _ Hrun) as [(n & Hlog & Hn) Hframe]. split.
      * exists (S n). split; [|intros Ho; cbn; f_equal; auto].
        rewrite Hlog. cbn [take]. by rewrite line_calls_deleted.
      * intros k Hk. apply Hframe. intros ir Hin. apply Hk. by right.
    + assert (Hi : ∀ k : nat * string,
                (∀ ir, ir ∈ (i, row) :: irs -> is_deletion (snd ir) = false -> fst ir ≠ fst k) ->
                i ≠ fst k).
      { intros k Hk. apply (Hk (i, row)); [by left | done]. }
      assert (Hone : line_calls (take 1 ((i, row) :: irs)) = [Command (mv_line_data row)]).
      { cbn [take]. by rewrite line_calls_kept. }
      rewrite connections_row_kept in Hrun by done.
      destruct (linecodes (data e)) as [lcs|];
        [destruct (ampacity1_of (linecode_key row) lcs) as [|a l]|].
      * injection Hrun as <- <-. split.
        -- exists 1%nat. rewrite Hone. split; [apply annotate_line_log | discriminate].
        -- intros k Hk. apply annotate_line_frame, Hi, Hk.
      * destruct (IH _ _ _ Hrun) as [(n & Hlog & Hn) Hframe]. split.
        -- exists (S n). split; [|intros Ho; cbn; f_equal; auto].
           rewrite Hlog. cbn [set_MV_lines dss_log]. rewrite annotate_line_log.
           cbn [take]. rewrite line_calls_kept by done. by rewrite <- app_assoc.
        -- intros k Hk. rewrite Hframe by (intros ir Hin; apply Hk; by right).
           cbn [set_MV_lines gis_MV_lines].
           rewrite lookup_insert_ne by (intros Heq; apply (Hi k Hk); by rewrite <- Heq).
           apply annotate_line_frame, Hi, Hk.
      * injection Hrun as <- <-. split.
        -- exists 1%nat. rewrite Hone. split; [apply annotate_line_log | discriminate].
        -- intros k Hk. apply annotate_line_frame, Hi, Hk.
Qed.


Lemma connections_loop_ok (e : env) (lcs : list linecode_row) (irs : list (nat * line_row)) :
  linecodes (data e) = Some lcs ->
  (∀ ir, ir ∈ irs -> is_deletion (snd ir) = false ->
         ampacity1_of (linecode_key (snd ir)) lcs ≠ []) ->
  ∀ st, ∃ st', for_each irs (connections_row e) st = (Ok tt, st').
Proof.
  intros Hlc. induction irs as [|[i row] irs IH]; intros Hres st.
  - by exists st.
  - cbn [for_each]. rewrite bind_run.
    assert (Hres' : ∀ ir, ir ∈ irs -> is_deletion (snd ir) = false ->
                          ampacity1_of (linecode_key (snd ir)) lcs ≠ []).
    { intros ir Hin. apply Hres. by right. }
    destruct (is_deletion row) eqn:Hd.
    + rewrite connections_row_deleted by done. apply (IH Hres').
    + rewrite connections_row_kept, Hlc by done.
      pose proof (Hres (i, row) ltac:(by left) Hd) as Hne. cbn [snd] in Hne.
      destruct (ampacity1_of (linecode_key row) lcs) as [|a l]; [done|].
      apply (IH Hres').
Qed.

Lemma connections_loop_annotated (e : env) (lcs : list linecode_row)
    (irs : list (nat * line_row)) :
  linecodes (data e) = Some lcs ->
  NoDup (map fst irs) ->
  ∀ st st', for_each irs (connections_row e) st = (Ok tt, st') ->
  ∀ ir, ir ∈ irs -> is_deletion (snd ir) = false ->
    gis_MV_lines st' !! (fst ir, "DSSNAME")
      = Some (CText [Lit "mv_f0_l"; Fmt (ln_Line_Number (snd ir))]) ∧
    ∃ a rest, ampacity1_of (linecode_key (snd ir)) lcs = a :: rest ∧
              gis_MV_lines st' !! (fst ir, "Ampacity") = Some (CNum a).
Proof.
  intros Hlc. induction irs as [|[i row] irs IH]; intros Hnd st st' Hrun ir Hin Hkept.
  - by apply elem_of_nil in Hin.
  - cbn [map fst] in Hnd. apply NoDup_cons in Hnd as [Hfresh Hnd].
    cbn [for_each] in Hrun. rewrite bind_run in Hrun.
    destruct (is_deletion row) eqn:Hd.
    + rewrite connections_row_deleted in Hrun by done. cbv beta iota in Hrun.
      apply elem_of_cons in Hin as [->|Hin]; [cbn in Hkept; congruence|].
      by apply (IH Hnd st st' Hrun).
    + rewrite connections_row_kept, Hlc in Hrun by done.
      destruct (ampacity1_of (linecode_key row) lcs) as [|a l] eqn:Hamp; [discriminate|].
      apply elem_of_cons in Hin as [->|Hin]; [|by apply (IH Hnd _ st' Hrun)].
      cbn [fst snd].
      assert (Hlater : ∀ col : string, ∀ ir', ir' ∈ irs -> is_deletion (snd ir') = false ->
                         fst ir' ≠ fst (i, col)).
      { intros col ir' Hin' _ Heq. apply Hfresh. cbn [fst] in Heq. rewrite <- Heq.
        apply list_elem_of_In, in_map, list_elem_of_In, Hin'. }
      destruct (connections_loop e irs _ _ _ Hrun) as [_ Hframe].
      rewrite !Hframe by (apply Hlater). cbn [set_MV_lines gis_MV_lines annotate_line].
      split.
      * rewrite lookup_insert_ne by (intros [=]). by rewrite lookup_insert_eq.
      * exists a, l. split; [by rewrite Hamp|]. by rewrite lookup_insert_eq.
Qed.

(** [iterrows] pairs each row with its position. *)
Lemma elem_of_iterrows {A} (l : list A) (i : nat) (x : A) :
  (i, x) ∈ iterrows l ↔ l !! i = Some x.
Proof.
  unfold iterrows. rewrite elem_of_lookup_imap. split.
  - intros (j & y & [= -> ->] & Hl). exact Hl.
  - intros Hl. by exists i, x.
Qed.

Lemma NoDup_iterrows {A} (l : list A) : NoDup (map fst (iterrows l)).
Proof.
  assert (H : map fst (iterrows l) = seq 0 (length l)).
  { unfold iterrows.
    assert (G : ∀ (k : nat) (f : nat -> nat), (∀ j, f j = (k + j)%nat) ->
                  map fst (imap (λ j x, (f j, x)) l) = seq k (length l)).
    { induction l as [|x l IH]; intros k f Hf; [reflexivity|].
      cbn. rewrite Hf, Nat.add_0_r. f_equal.
      apply (IH (S k) (f ∘ S)). intros j. cbn. rewrite Hf. lia. }
    apply (G 0%nat id). reflexivity. }
  rewrite H. apply NoDup_seq.
Qed.

Lemma line_calls_rows (f : nat -> nat) (l : list line_row) :
  line_calls (imap (λ j x, (f j, x)) l)
  = map (λ r, Command (mv_line_data r)) (List.filter (λ r, negb (is_deletion r)) l).
Proof.
  revert f. induction l as [|row l IH]; intros f; [reflexivity|].
  cbn [imap List.filter]. destruct (is_deletion row) eqn:Hd; cbn [negb map].
  - rewrite line_calls_deleted by done. apply (IH (f ∘ S)).
  - rewrite line_calls_kept by done. f_equal. apply (IH (f ∘ S)).
Qed.



Lemma connections_run (e : env) (ls : list line_row) (st : state) :
  lines (data e) = Some ls ->
  connections e st = for_each (iterrows ls) (connections_row e) st.
Proof. intros Hl. unfold connections. rewrite Hl. reflexivity. Qed.

(** The first line code whose id is [key] is the one whose [Ampacity1]
    the lookup returns. *)
Lemma ampacity1_of_find (key : string) (lcs : list linecode_row) :
  ampacity1_of key lcs =
  match List.find (λ r, String.eqb (lc_Linecode_ID r) key) lcs with
  | Some lc => lc_Ampacity1 lc :: tail (ampacity1_of key lcs)
  | None => []
  end.
Proof.
  unfold ampacity1_of. induction lcs as [|r lcs IH]; [reflexivity|].
  cbn [List.filter List.find]. destruct (String.eqb (lc_Linecode_ID r) key); [reflexivity|].
  exact IH.
Qed.


(** The run of the MV-line stage when a kept line refers to a line code
    that the table lacks, the kept lines before it all resolving: the
    stage stops at that line, defined and named but without Ampacity, and
    no cell of a later line is written. *)
Lemma connections_unresolved_run (e : env) (before rest : list line_row)
    (row : line_row) (lcs : list linecode_row) (st : state) :
  lines (data e) = Some (before ++ row :: rest)%list ->
  linecodes (data e) = Some lcs ->
  (∀ r, r ∈ before -> is_deletion r = false -> ampacity1_of (linecode_key r) lcs ≠ []) ->
  is_deletion row = false ->
  ampacity1_of (linecode_key row) lcs = [] ->
  ∃ st', connections e st = (Raise IndexError, st') ∧
    emitted st st'
      = (map (λ r, Command (mv_line_data r)) (List.filter (λ r, negb (is_deletion r)) before)
         ++ [Command (mv_line_data row)])%list ∧
    gis_MV_lines st' !! (length before, "DSSNAME")
      = Some (CText [Lit "mv_f0_l"; Fmt (ln_Line_Number row)]) ∧
    gis_MV_lines st' !! (length before, "Ampacity")
      = gis_MV_lines st !! (length before, "Ampacity") ∧
    (∀ j col, (length before < j)%nat ->
       gis_MV_lines st' !! (j, col) = gis_MV_lines st !! (j, col)).
Proof.
  intros Hl Hlc Hbefore Hkept Hrow.
  rewrite (connections_run e _ st Hl). unfold iterrows. rewrite imap_app, for_each_app.
  destruct (connections_loop_ok e lcs (imap pair before) Hlc) with (st := st) as [st1 Hok].
  { intros [j r] Hin. cbn [snd]. apply Hbefore.
    apply (elem_of_iterrows before) in Hin. by eapply list_elem_of_lookup_2. }
  rewrite Hok.
  destruct (connections_loop e _ _ _ _ Hok) as [(n & Hlog & Hn) Hframe].
  rewrite (Hn eq_refl), firstn_all in Hlog.
  pose proof (line_calls_rows id before) as Hcalls.
  change (imap (λ j x, (id j, x)) before) with (imap pair before) in Hcalls.
  rewrite Hcalls in Hlog.
  cbn [imap for_each]. rewrite bind_run, connections_row_kept, Hlc, Hrow by done.
  assert (Hother : ∀ j col, j ≠ length before ->
            (∀ ir, ir ∈ imap pair before -> is_deletion (snd ir) = false -> fst ir ≠ j) ->
            gis_MV_lines (annotate_line (length before + 0) row st1) !! (j, col)
            = gis_MV_lines st !! (j, col)).
  { intros j col Hj Hnot. rewrite annotate_line_frame by (cbn [fst]; lia).
    apply Hframe. intros ir Hin Hk. cbn [fst]. by apply Hnot. }
  eexists. split; [reflexivity|]. split; [|split; [|split]].
  - apply emitted_app. rewrite annotate_line_log, Hlog. by rewrite <- app_assoc.
  - rewrite Nat.add_0_r. cbn. apply lookup_insert_eq.
  - rewrite Nat.add_0_r. cbn. rewrite lookup_insert_ne by (intros [=]).
    apply Hframe. intros [j r] Hin _ Heq. cbn [fst] in Heq. subst j.
    apply (elem_of_iterrows before) in Hin. apply lookup_lt_Some in Hin. lia.
  - intros j col Hj. apply Hother; [lia|].
    intros [k r] Hin _ Heq. cbn [fst] in Heq. subst k.
    apply (elem_of_iterrows before) in Hin. apply lookup_lt_Some in Hin. lia.
Qed.




(** C10. When every kept row refers to a line code of the table, the
    MV-line stage completes and the Ampacity cell it writes for a kept row
    is the [Ampacity1] of the first line code whose id is the row's
    [Linecode]-[Phases]ph key; when that line code has
    [Ampacity2 < Ampacity1], the cell differs from the [normamp] that the
    line-code stage emits for it. *)
Theorem connections_annotates_ampacity1 (e : env) (ls : list line_row)
    (lcs : list linecode_row) (st : state)
    (Hl : lines (data e) = Some ls)
    (Hlc : linecodes (data e) = Some lcs)
    (Hres : ∀ row, row ∈ ls -> is_deletion row = false ->
              ampacity1_of (linecode_key row) lcs ≠ []) :
  ∃ st', connections e st = (Ok tt, st') ∧
    ∀ i row, ls !! i = Some row -> is_deletion row = false ->
      ∃ lc, List.find (λ r, String.eqb (lc_Linecode_ID r) (linecode_key row)) lcs = Some lc ∧
            gis_MV_lines st' !! (i, "Ampacity") = Some (CNum (lc_Ampacity1 lc)) ∧
            fields_after "normamp=" (linecode_data lc)
              = [VNum (py_min (lc_Ampacity1 lc) (lc_Ampacity2 lc))] ∧
            ((lc_Ampacity2 lc < lc_Ampacity1 lc)%Q ->
               ¬ (lc_Ampacity1 lc == py_min (lc_Ampacity1 lc) (lc_Ampacity2 lc))%Q).
Proof.
  destruct (connections_loop_ok e lcs (iterrows ls) Hlc) with (st := st) as [st' Hok].
  { intros [j row] Hin. cbn [snd]. apply Hres.
    apply elem_of_iterrows in Hin. by eapply list_elem_of_lookup_2. }
  exists st'. split; [by rewrite (connections_run e ls st Hl)|].
  intros i row Hi Hkept.
  destruct (connections_loop_annotated e lcs (iterrows ls) Hlc (NoDup_iterrows ls)
              st st' Hok (i, row)) as [_ (a & rest & Ha & Hamp)].
  { by apply elem_of_iterrows. }
  { exact Hkept. }
  cbn [fst snd] in Ha, Hamp. rewrite ampacity1_of_find in Ha.
  destruct (List.find _ lcs) as [lc|] eqn:Hfind; [|discriminate].
  injection Ha as <- _.
  exists lc. split; [reflexivity|]. split; [exact Hamp|]. split; [reflexivity|].
  intros Hlt Heq. rewrite py_min_Qmin in Heq.
  rewrite Q.min_r in Heq by (by apply Qlt_le_weak).
  rewrite Heq in Hlt. by apply Qlt_irrefl in Hlt.
Qed.

Lemma connections_annotates_ampacity1_witness :
  ∃ st', connections sample_env empty_state = (Ok tt, st') ∧
         gis_MV_lines st' !! (0%nat, "Ampacity") = Some (CNum 300) ∧
         fields_after "normamp=" (linecode_data lc_abc) = [VNum 250].
Proof.
  destruct (connections_annotates_ampacity1 sample_env
              [line_of "Line" 1 "ABC" 3; line_of "DeLeTe" 2 "none" 1; line_of "Line" 3 "SWER" 1]
              [lc_abc; lc_swer] empty_state eq_refl eq_refl) as (st' & Hrun & Hrows).
  { intros row Hin Hkept.
    repeat (apply elem_of_cons in Hin as [->|Hin]); try (vm_compute; discriminate).
    by apply elem_of_nil in Hin. }
  exists st'. split; [exact Hrun|].
  destruct (Hrows 0%nat (line_of "Line" 1 "ABC" 3) eq_refl eq_refl)
    as (lc & Hfind & Hamp & Hnorm & _).
  vm_compute in Hfind. injection Hfind as <-.
  split; [exact Hamp | reflexivity].
Defined.

(** ** MV transformers and the regulator assembly *)

Lemma char_to_num_table : char_to_num = Ok phase_table.
Proof. vm_compute. reflexivity. Qed.

Lemma translate_subscript (code : string) :
  translate code = subscript id phase_table code.
Proof. unfold translate. rewrite char_to_num_table. reflexivity. Qed.

Lemma dss_command_run (c : fstring) (st : state) :
  dss_command c st = (Ok tt, add_calls [Command c] st).
Proof. reflexivity. Qed.

Lemma mv_txs_row_regulator (tbl : gmap string string) (i : nat) (row : mvtx_row) (st : state) :
  Qeq_bool (mt_kvs_primary row) (mt_kvs_secondary row) = true ->
  mv_txs_row tbl (i, row) st = (Ok tt, add_calls (regulator_calls row) st).
Proof.
  intros H. unfold mv_txs_row. cbn [snd]. rewrite H. cbn [negb].
  repeat (rewrite bind_run; rewrite ?dss_command_run, ?for_each_commands; cbv beta iota).
  rewrite !add_calls_app. reflexivity.
Qed.

Lemma regulator_calls_kinds (row : mvtx_row) :
  map kind_of_call (regulator_calls row) =
  [KDirective;
   KEntryJumper "A"; KExitJumper "A"; KEntryJumper "B"; KExitJumper "B";
   KEntryJumper "C"; KExitJumper "C";
   KRegTransformer "A"; KRegTransformer "B"; KRegTransformer "C";
   KRegControl "A"; KRegControl "B"; KRegControl "C"].
Proof. reflexivity. Qed.

Lemma mv_txs_run (e : env) (rows : list mvtx_row) (st : state) :
  mvtx (data e) = Some rows ->
  mv_txs e st = for_each (iterrows rows) (mv_txs_row phase_table) st.
Proof.
  intros H. unfold mv_txs. rewrite char_to_num_table, H. reflexivity.
Qed.

Lemma lv_tx_run (e : env) (rows : list lvtx_row) (st : state) :
  lvtx (data e) = Some rows ->
  lv_tx e st = for_each (iterrows rows) (lv_tx_row phase_table) st.
Proof.
  intros H. unfold lv_tx. rewrite char_to_num_table, H. reflexivity.
Qed.

Lemma mv_txs_row_split (i : nat) (row : mvtx_row) (suffix : string) (st : state) :
  Qeq_bool (mt_kvs_primary row) (mt_kvs_secondary row) = false ->
  translate (mt_Conn_Type row) = Ok suffix ->
  mv_txs_row phase_table (i, row) st = (Ok tt, add_calls [Command (mv_tx_split row suffix)] st).
Proof.
  intros H Ht. rewrite translate_subscript in Ht.
  unfold mv_txs_row. cbn [snd]. rewrite H. cbn [negb].
  rewrite bind_run. unfold lift. rewrite Ht. reflexivity.
Qed.

Lemma lv_tx_row_run (i : nat) (row : lvtx_row) (c : fstring) (st : state) :
  lv_tx_data phase_table i row = Ok c ->
  lv_tx_row phase_table (i, row) st = (Ok tt, name_lv_tx i row (add_calls [Command c] st)).
Proof.
  intros H. unfold lv_tx_row. cbn [fst snd]. rewrite bind_run. unfold lift.
  rewrite H. reflexivity.
Qed.

Lemma emitted_name_lv_tx (i : nat) (row : lvtx_row) (c : fstring) (st : state) :
  emitted st (name_lv_tx i row (add_calls [Command c] st)) = [Command c].
Proof. apply emitted_app. reflexivity. Qed.



(** ** The topology a record gets *)

Lemma regulator_calls_topology (row : mvtx_row) :
  chosen_topology (regulator_calls row) = Some RegulatorAssembly.
Proof.
  unfold chosen_topology, components. rewrite regulator_calls_kinds.
  vm_compute. reflexivity.
Qed.

Lemma lv_tx_data_three (i : nat) (row : lvtx_row) :
  String.length (lt_Conn_Type row) = 3%nat ->
  lv_tx_data phase_table i row = Ok (lv_tx_three i row).
Proof. intros H. unfold lv_tx_data. by rewrite H. Qed.

Lemma lv_tx_data_split (i : nat) (row : lvtx_row) (suffix : string) :
  String.length (lt_Conn_Type row) = 2%nat ->
  translate (lt_Conn_Type row) = Ok suffix ->
  lv_tx_data phase_table i row = Ok (lv_tx_split i row suffix).
Proof.
  intros H Ht. rewrite translate_subscript in Ht.
  unfold lv_tx_data. rewrite H. cbn [Nat.eqb]. by rewrite Ht.
Qed.

Lemma lv_tx_data_single (i : nat) (row : lvtx_row) (suffix : string) :
  String.length (lt_Conn_Type row) ≠ 3%nat ->
  String.length (lt_Conn_Type row) ≠ 2%nat ->
  translate (lt_Conn_Type row) = Ok suffix ->
  lv_tx_data phase_table i row = Ok (lv_tx_single i row suffix).
Proof.
  intros H3 H2 Ht. rewrite translate_subscript in Ht.
  unfold lv_tx_data.
  apply Nat.eqb_neq in H3, H2. rewrite H3, H2. by rewrite Ht.
Qed.

(** C1 (as amended). The two transformer stages select differently.
    [mv_txs] looks at the voltages only: equal voltages give the regulator
    assembly, unequal voltages give one three-winding split-phase
    Delta/Wye-Wye transformer for every PhaseCode of the table, whatever its
    length. [lv_tx] looks at the PhaseCode length only, whatever the
    voltages: length 3 gives one two-winding three-phase transformer,
    length 2 one three-winding split-phase transformer, any other length
    (a one-letter code of the table) one two-winding single-phase
    transformer. *)
Theorem topology_by_stage (i : nat) (st : state) :
  (∀ row : mvtx_row,
     ((mt_kvs_primary row == mt_kvs_secondary row)%Q ->
        ∃ st', mv_txs_row phase_table (i, row) st = (Ok tt, st') ∧
               chosen_topology (emitted st st') = Some RegulatorAssembly) ∧
     (¬ (mt_kvs_primary row == mt_kvs_secondary row)%Q ->
        ∀ suffix, translate (mt_Conn_Type row) = Ok suffix ->
        ∃ st', mv_txs_row phase_table (i, row) st = (Ok tt, st') ∧
               emitted st st' = [Command (mv_tx_split row suffix)] ∧
               chosen_topology (emitted st st') = Some ThreeWindingSplitPhase)) ∧
  (∀ row : lvtx_row,
     (String.length (lt_Conn_Type row) = 3%nat ->
        ∃ st', lv_tx_row phase_table (i, row) st = (Ok tt, st') ∧
               emitted st st' = [Command (lv_tx_three i row)] ∧
               chosen_topology (emitted st st') = Some TwoWindingThreePhase) ∧
     (String.length (lt_Conn_Type row) = 2%nat ->
        ∀ suffix, translate (lt_Conn_Type row) = Ok suffix ->
        ∃ st', lv_tx_row phase_table (i, row) st = (Ok tt, st') ∧
               emitted st st' = [Command (lv_tx_split i row suffix)] ∧
               chosen_topology (emitted st st') = Some ThreeWindingSplitPhase) ∧
     (String.length (lt_Conn_Type row) ≠ 3%nat ->
      String.length (lt_Conn_Type row) ≠ 2%nat ->
        ∀ suffix, translate (lt_Conn_Type row) = Ok suffix ->
        ∃ st', lv_tx_row phase_table (i, row) st = (Ok tt, st') ∧
               emitted st st' = [Command (lv_tx_single i row suffix)] ∧
               chosen_topology (emitted st st') = Some TwoWindingSinglePhase)).
Proof.
  split; intros row.
  - split.
    + intros Heq%Qeq_bool_iff. eexists. split; [by apply mv_txs_row_regulator|].
      rewrite emitted_add_calls. apply regulator_calls_topology.
    + intros Hne suffix Ht.
      assert (Hb : Qeq_bool (mt_kvs_primary row) (mt_kvs_secondary row) = false).
      { apply not_true_is_false. intros Hb. by apply Hne, Qeq_bool_iff. }
      eexists. split; [by apply mv_txs_row_split|].
      rewrite emitted_add_calls. split; reflexivity.
  - split; [|split].
    + intros H3. eexists. split; [apply lv_tx_row_run; by apply lv_tx_data_three|].
      rewrite emitted_name_lv_tx. split; reflexivity.
    + intros H2 suffix Ht. eexists.
      split; [apply lv_tx_row_run; by apply lv_tx_data_split|].
      rewrite emitted_name_lv_tx. split; reflexivity.
    + intros H3 H2 suffix Ht. eexists.
      split; [apply lv_tx_row_run; by apply lv_tx_data_single|].
      rewrite emitted_name_lv_tx. split; reflexivity.
Qed.

Lemma topology_by_stage_witness :
  (∃ st', mv_txs_row phase_table (0%nat, mvtx_of "SW1" "R" 22 12.7 1000) empty_state
            = (Ok tt, st') ∧
          chosen_topology (emitted empty_state st') = Some ThreeWindingSplitPhase) ∧
  (∃ st', lv_tx_row phase_table (2%nat, lvtx_of "T3" "W" 12.7 0.25) empty_state
            = (Ok tt, st') ∧
          chosen_topology (emitted empty_state st') = Some TwoWindingSinglePhase).
Proof.
  destruct (topology_by_stage 0%nat empty_state) as [Hmv _].
  destruct (topology_by_stage 2%nat empty_state) as [_ Hlv].
  split.
  - destruct (proj2 (Hmv (mvtx_of "SW1" "R" 22 12.7 1000))) with (suffix := "1")
      as (st' & Hrun & _ & Htop).
    + intros H. vm_compute in H. discriminate H.
    + vm_compute. reflexivity.
    + by exists st'.
  - destruct (proj2 (proj2 (Hlv (lvtx_of "T3" "W" 12.7 0.25)))) with (suffix := "2")
      as (st' & Hrun & _ & Htop).
    + cbn. lia.
    + cbn. lia.
    + vm_compute. reflexivity.
    + by exists st'.
Defined.

(** C1 (as stated) fails in both stages: [mv_txs] gives a record of unequal
    voltages and a three-letter PhaseCode a three-winding split-phase
    transformer, and [lv_tx] gives a record of equal voltages a standard
    transformer. *)
Lemma topology_not_by_voltage_then_length :
  chosen_topology (emitted empty_state
    (snd (mv_txs_row phase_table (0%nat, mvtx_of "SW1" "RWB" 22 12.7 1000) empty_state)))
    = Some ThreeWindingSplitPhase ∧
  spec_topology 22 12.7 "RWB" = Some TwoWindingThreePhase ∧
  chosen_topology (emitted empty_state
    (snd (lv_tx_row phase_table (0%nat, lvtx_of "T1" "RWB" 22 22) empty_state)))
    = Some TwoWindingThreePhase ∧
  spec_topology 22 22 "RWB" = Some RegulatorAssembly.
Proof. repeat split; vm_compute; reflexivity. Qed.

(** ** The capacity of the regulator's transformers *)

(** C3. What the code emits: the capacity written for both windings of
    each phase of a regulator is computed from [kvs_primary], the primary
    voltage; for a 12.7 kV, 1000 kVA regulator it is 1.15, where the
    equivalent capacity of the specification is 90.91. *)
Theorem regulator_capacity_from_voltage :
  (∀ row : mvtx_row,
     kVA_fields (regulator_calls row)
       = repeat (VNum (np_round2 (nt * mt_kvs_primary row / (1 + nt)))) 6) ∧
  kVA_fields (emitted empty_state
    (snd (mv_txs_row phase_table (1%nat, mvtx_of "R1_REG" "RWB" 12.7 12.7 1000) empty_state)))
    = repeat (VNum (kVAtraf 12.7)) 6 ∧
  (kVAtraf 12.7 == 1.15)%Q ∧
  (spec_equivalent_capacity 1000 == 90.91)%Q ∧
  ¬ (kVAtraf 12.7 == spec_equivalent_capacity 1000)%Q.
Proof.
  split; [intros row; reflexivity|].
  split; [vm_compute; reflexivity|].
  split; [vm_compute; reflexivity|].
  split; [vm_compute; reflexivity|].
  intros H. vm_compute in H. discriminate H.
Qed.



(** ** Load profiles *)

Lemma Qltb_lt (x y : Q) : Qltb x y = true -> (x < y)%Q.
Proof.
  unfold Qltb. intros H%negb_true_iff. apply Qnot_le_lt.
  intros Hle%Qle_bool_iff. congruence.
Qed.

(** A profile that leaves the retry loop has its peak below half the
    capacity. *)
Lemma sample_com_feasible (e : env) (day : Z) (cap : Q) (fuel : nat) :
  ∀ st p st', sample_com fuel e day cap st = (Ok p, st') ->
    ∃ m, np_max p = Ok m ∧ (m < cap / 2)%Q.
Proof.
  induction fuel as [|fuel IH]; intros st p st' H; [discriminate H|].
  cbn [sample_com] in H. rewrite bind_run in H.
  destruct (draw_profile (com_data e) day st) as [[p0|x|] st1]; try discriminate H.
  rewrite bind_run in H. unfold lift in H.
  destruct (np_max p0) as [m|x|] eqn:Hm; try discriminate H.
  destruct (Qltb m (cap / 2)) eqn:Hlt.
  - injection H as <- <-. exists m. split; [exact Hm | by apply Qltb_lt].
  - exact (IH st1 p st' H).
Qed.

(** The loop stops at the first draw whose peak is below half the
    capacity: a rejected draw costs one unit of fuel, an accepted one ends
    the loop. *)
Lemma sample_com_step (e : env) (day : Z) (cap : Q) (fuel : nat) (st st1 : state)
    (p : list Q) (m : Q) :
  draw_profile (com_data e) day st = (Ok p, st1) ->
  np_max p = Ok m ->
  sample_com (S fuel) e day cap st =
  if Qltb m (cap / 2) then (Ok p, st1) else sample_com fuel e day cap st1.
Proof.
  intros Hd Hm. cbn [sample_com]. rewrite bind_run, Hd. rewrite bind_run.
  unfold lift. rewrite Hm. by destruct (Qltb m (cap / 2)).
Qed.

Lemma randint_run (n : Z) (st : state) :
  0 < n ->
  randint 0 n st = (Ok (Z.of_nat (rng_stream st (rng_pos st)) mod n),
                    set_rng (rng_stream st) (S (rng_pos st)) st).
Proof.
  intros Hn. unfold randint.
  destruct (Z.leb_spec n 0) as [H|H]; [lia|].
  by rewrite Z.sub_0_r.
Qed.

(** One draw of a profile consumes one draw of the generator and touches
    nothing else. *)
Lemma draw_profile_run (p : pool) (day : Z) (st st' : state) (o : outcome (list Q)) :
  draw_profile p day st = (o, st') ->
  (o = Raise ValueError ∧ st' = st ∧ p = []) ∨
  (st' = set_rng (rng_stream st) (S (rng_pos st)) st ∧ p ≠ []).
Proof.
  unfold draw_profile. rewrite bind_run. intros H.
  destruct p as [|c p].
  - left. cbn in H. injection H as <- <-. done.
  - right. rewrite randint_run in H by (cbn [length]; lia).
    unfold lift in H. injection H as _ <-. done.
Qed.

Lemma sample_com_log (e : env) (day : Z) (cap : Q) (fuel : nat) :
  ∀ st o st', sample_com fuel e day cap st = (o, st') -> dss_log st' = dss_log st.
Proof.
  induction fuel as [|fuel IH]; intros st o st' H.
  - injection H as _ <-. reflexivity.
  - cbn [sample_com] in H. rewrite bind_run in H.
    destruct (draw_profile (com_data e) day st) as [o1 st1] eqn:Hd.
    assert (Hlog : dss_log st1 = dss_log st).
    { destruct (draw_profile_run _ _ _ _ _ Hd) as [(_ & -> & _)|(-> & _)]; reflexivity. }
    destruct o1 as [p0|x|]; try (injection H as _ <-; exact Hlog).
    rewrite bind_run in H. unfold lift in H.
    destruct (np_max p0) as [m|x|]; try (injection H as _ <-; exact Hlog).
    destruct (Qltb m (cap / 2)).
    + injection H as _ <-. exact Hlog.
    + rewrite (IH _ _ _ H). exact Hlog.
Qed.

Lemma bind_daily_run (row : lv_load_row) (tag : string) (i : nat) (st : state) :
  bind_daily row tag i st =
  (Ok tt, add_calls [SetActiveElement [Lit "load."; Fmt (ld_load_name row)];
                     SetProperty "daily" [Lit ("Load_shape_" ++ tag ++ "_");
                                          Fmt (VInt (Z.of_nat i))]] st).
Proof.
  unfold bind_daily. rewrite bind_run. unfold modify, log_call. cbv beta iota.
  by rewrite add_calls_app.
Qed.

Lemma np_index_in_range {A} (l : list A) (i : Z) :
  0 <= i < Z.of_nat (length l) -> ∃ x, np_index l i = Ok x ∧ x ∈ l.
Proof.
  intros Hi. unfold np_index.
  destruct (Z.ltb_spec i 0); [lia|].
  destruct (Z.ltb_spec i 0); [lia|].
  destruct (Z.leb_spec (Z.of_nat (length l)) i); [lia|]. cbn [orb].
  destruct (l !! Z.to_nat i) as [x|] eqn:Hx.
  - exists x. split; [reflexivity|]. by eapply list_elem_of_lookup_2.
  - apply lookup_ge_None in Hx. lia.
Qed.

Lemma np_max_spec (l : list Q) (m : Q) :
  np_max l = Ok m -> m ∈ l ∧ ∀ x, x ∈ l -> (x <= m)%Q.
Proof.
  destruct l as [|x0 l]; [discriminate|]. cbn [np_max]. intros [= <-].
  assert (H : ∀ (l : list Q) (a : Q),
            let m := fold_left (λ m y, if Qltb m y then y else m) l a in
            (m = a ∨ m ∈ l) ∧ (a <= m)%Q ∧ ∀ x, x ∈ l -> (x <= m)%Q).
  { clear. induction l as [|y l IH]; intros a; cbn [fold_left].
    - split; [by left|]. split; [apply Qle_refl|]. by intros x ?%elem_of_nil.
    - destruct (IH (if Qltb a y then y else a)) as (Hin & Hle & Hall).
      assert (Hay : (a <= (if Qltb a y then y else a))%Q ∧ (y <= (if Qltb a y then y else a))%Q).
      { unfold Qltb. destruct (Qle_bool y a) eqn:Hya; cbn [negb].
        - split; [apply Qle_refl | by apply Qle_bool_iff].
        - split; [|apply Qle_refl]. apply Qlt_le_weak, Qnot_le_lt.
          intros H%Qle_bool_iff. congruence. }
      destruct Hay as [Ha Hy]. split; [|split].
      + destruct Hin as [Hin|Hin]; [|right; by right].
        rewrite Hin. destruct (Qltb a y); [right; by left | by left].
      + eapply Qle_trans; eauto.
      + intros x [->|Hx]%elem_of_cons; [eapply Qle_trans; eauto | by apply Hall]. }
  destruct (H l x0) as (Hin & Hle & Hall). split.
  - destruct Hin as [->|Hin]; [by left | by right].
  - intros x [->|Hx]%elem_of_cons; [exact Hle | by apply Hall].
Qed.

Lemma np_index_error {A} (l : list A) (i : Z) (o : outcome A) :
  np_index l i = o -> (∃ x, o = Ok x ∧ x ∈ l) ∨ o = Raise IndexError.
Proof.
  intros <-. unfold np_index.
  destruct (_ || _); [by right|].
  destruct (l !! _) as [x|] eqn:Hx; [left | by right].
  exists x. split; [reflexivity|]. by eapply list_elem_of_lookup_2.
Qed.

Lemma np_index_nat {A} (l : list A) (k : nat) :
  np_index l (Z.of_nat k) = match l !! k with Some x => Ok x | None => Raise IndexError end.
Proof.
  unfold np_index.
  destruct (Z.ltb_spec (Z.of_nat k) 0); [lia|].
  destruct (Z.ltb_spec (Z.of_nat k) 0); [lia|]. rewrite Nat2Z.id.
  destruct (Z.leb_spec (Z.of_nat (length l)) (Z.of_nat k)) as [Hk|Hk]; cbn [orb]; [|done].
  rewrite (proj2 (lookup_ge_None l k)); [done | lia].
Qed.

Lemma draw_profile_empty (day : Z) (st : state) :
  draw_profile [] day st = (Raise ValueError, st).
Proof. reflexivity. Qed.

(** A draw from a pool that is not empty selects the customer at the
    generator's next output modulo the pool's length, and takes that
    customer's profile of the day. *)
Lemma draw_profile_nonempty (p : pool) (day : Z) (st : state) :
  p ≠ [] ->
  ∃ days, p !! (rng_stream st (rng_pos st) mod length p)%nat = Some days ∧
          draw_profile p day st
          = (np_index days day, set_rng (rng_stream st) (S (rng_pos st)) st).
Proof.
  intros Hp.
  assert (Hlen : 0 < Z.of_nat (length p)) by (destruct p; [done | cbn [length]; lia]).
  assert (Hlt : (rng_stream st (rng_pos st) mod length p < length p)%nat).
  { apply Nat.mod_upper_bound. lia. }
  destruct (lookup_lt_is_Some_2 p _ Hlt) as [days Hdays].
  exists days. split; [exact Hdays|].
  unfold draw_profile. rewrite bind_run, randint_run by exact Hlen. unfold lift.
  rewrite <- Nat2Z.inj_mod, np_index_nat, Hdays. reflexivity.
Qed.

(** A profile that leaves the retry loop is the profile of the day of a
    customer of the commercial pool. *)
Lemma sample_com_pool (e : env) (day : Z) (cap : Q) (fuel : nat) :
  ∀ st p st', sample_com fuel e day cap st = (Ok p, st') ->
    ∃ days, days ∈ com_data e ∧ np_index days day = Ok p.
Proof.
  induction fuel as [|fuel IH]; intros st p st' H; [discriminate H|].
  cbn [sample_com] in H. rewrite bind_run in H.
  destruct (decide (com_data e = [])) as [Hp|Hp].
  { rewrite Hp, draw_profile_empty in H. discriminate H. }
  destruct (draw_profile_nonempty (com_data e) day st Hp) as (days & Hdays & Hd).
  rewrite Hd in H.
  destruct (np_index days day) as [p0|x|] eqn:Hp0; try discriminate H.
  rewrite bind_run in H. unfold lift in H.
  destruct (np_max p0) as [m|x|]; try discriminate H.
  destruct (Qltb m (cap / 2)).
  - injection H as <- <-. exists days. split; [|exact Hp0].
    by eapply list_elem_of_lookup_2.
  - exact (IH _ p st' H).
Qed.

(** C2 (as amended). A load whose phase count is not 1 (a three-phase load
    in particular) that gets a profile bound got the profile of the chosen
    day of a customer of the commercial pool, written out in the loadshape
    that is bound to the load, and every multiplier of that profile, so its
    peak, is strictly below half the load's [tx_cap]. For a load of phase
    count 1 one draw is made and no more, whatever the fuel: when the pool
    is not empty and the customer drawn has the chosen day, that profile is
    bound whatever its peak and whatever [tx_cap]; when the pool is empty
    ([ValueError], generator not advanced) or the customer drawn lacks the
    day ([IndexError]) the load is left defined with no profile bound. *)
Theorem load_sampling (e : env) (fuel : nat) (day : Z) (i : nat)
    (row : lv_load_row) (st : state) :
  fields_after "new load." (load_data row) = [ld_load_name row] ∧
  (ld_phases row ≠ 1 ->
     ∀ st', lv_load_row_body e fuel day (i, row) st = (Ok tt, st') ->
       ∃ days p,
         days ∈ com_data e ∧ np_index days day = Ok p ∧
         emitted st st' =
           [Command (load_data row);
            Command [Lit "New Loadshape.Load_shape_com_"; Fmt (VInt (Z.of_nat i)); Lit " ";
                     Lit "npts="; Fmt (VInt 48); Lit " ";
                     Lit "minterval="; Fmt (VInt 30); Lit " ";
                     Lit "Pmult="; Fmt (VNums p); Lit " ";
                     Lit "useactual=no"];
            SetActiveElement [Lit "load."; Fmt (ld_load_name row)];
            SetProperty "daily" [Lit "Load_shape_com_"; Fmt (VInt (Z.of_nat i))]] ∧
         p ≠ [] ∧
         (∀ x, x ∈ p -> (x < ld_tx_cap row / 2)%Q) ∧
         (∃ m, np_max p = Ok m ∧ m ∈ p ∧ (m < ld_tx_cap row / 2)%Q)) ∧
  (ld_phases row = 1 ->
     ∃ o st',
       lv_load_row_body e fuel day (i, row) st = (o, st') ∧
       rng_stream st' = rng_stream st ∧
       match o with
       | Ok _ =>
           ∃ days p,
             house_data e !! (rng_stream st (rng_pos st) mod length (house_data e))%nat
               = Some days ∧
             np_index days day = Ok p ∧
             rng_pos st' = S (rng_pos st) ∧
             emitted st st' =
               [Command (load_data row);
                Command [Lit "New Loadshape.Load_shape_res_"; Fmt (VInt (Z.of_nat i)); Lit " ";
                         Lit "npts="; Fmt (VInt 48); Lit " ";
                         Lit "minterval="; Fmt (VInt 30); Lit " ";
                         Lit "Pmult="; Fmt (VNums p); Lit " ";
                         Lit "useactual=no"];
                SetActiveElement [Lit "load."; Fmt (ld_load_name row)];
                SetProperty "daily" [Lit "Load_shape_res_"; Fmt (VInt (Z.of_nat i))]]
       | Raise x =>
           emitted st st' = [Command (load_data row)] ∧
           ((x = ValueError ∧ house_data e = [] ∧ rng_pos st' = rng_pos st) ∨
            (x = IndexError ∧ rng_pos st' = S (rng_pos st) ∧
             ∃ days,
               house_data e !! (rng_stream st (rng_pos st) mod length (house_data e))%nat
                 = Some days ∧
               np_index days day = Raise IndexError))
       | Diverge => False
       end).
Proof.
  split; [reflexivity|]. split.
  - intros Hph st' Hrun.
    unfold lv_load_row_body in Hrun. cbn [fst snd] in Hrun.
    apply Z.eqb_neq in Hph. rewrite Hph in Hrun.
    rewrite bind_run, dss_command_run in Hrun. cbv beta iota in Hrun.
    rewrite bind_run in Hrun.
    destruct (sample_com fuel e day (ld_tx_cap row) _) as [[p|x|] st1] eqn:Hs;
      try discriminate Hrun.
    destruct (sample_com_feasible _ _ _ _ _ _ _ Hs) as (m & Hm & Hlt).
    destruct (sample_com_pool _ _ _ _ _ _ _ Hs) as (days & Hin & Hp).
    destruct (np_max_spec p m Hm) as [Hmin Hmax].
    exists days, p. split; [exact Hin|]. split; [exact Hp|].
    split; [|split; [|split]].
    + rewrite bind_run, dss_command_run in Hrun. cbv beta iota in Hrun.
      rewrite bind_daily_run, add_calls_app in Hrun. injection Hrun as <-.
      pose proof (sample_com_log _ _ _ _ _ _ _ Hs) as Hlog. cbn [add_calls dss_log] in Hlog.
      apply emitted_app. cbn [add_calls dss_log]. rewrite Hlog.
      rewrite <- app_assoc. reflexivity.
    + intros ->. by apply elem_of_nil in Hmin.
    + intros x Hx. eapply Qle_lt_trans; [by apply Hmax | exact Hlt].
    + by exists m.
  - intros Hph.
    unfold lv_load_row_body. cbn [fst snd].
    apply Z.eqb_eq in Hph. rewrite Hph.
    rewrite bind_run, dss_command_run. cbv beta iota. rewrite bind_run.
    destruct (decide (house_data e = [])) as [Hp|Hp].
    { rewrite Hp, draw_profile_empty. eexists _, _. split; [reflexivity|].
      split; [reflexivity|]. split; [apply emitted_add_calls|]. left. done. }
    destruct (draw_profile_nonempty (house_data e) day
                (add_calls [Command (load_data row)] st) Hp) as (days & Hdays & Hd).
    rewrite Hd. cbn [add_calls rng_stream rng_pos] in Hdays.
    destruct (np_index_error days day _ eq_refl) as [(p & Hp0 & _)|Hp0]; rewrite Hp0.
    + rewrite bind_run, dss_command_run. cbv beta iota.
      rewrite bind_daily_run, add_calls_app.
      eexists _, _. split; [reflexivity|]. split; [reflexivity|].
      exists days, p. split; [exact Hdays|]. split; [exact Hp0|].
      split; [reflexivity|].
      apply emitted_app. cbn. rewrite <- app_assoc. reflexivity.
    + eexists _, _. split; [reflexivity|]. split; [reflexivity|]. split.
      * apply emitted_app. reflexivity.
      * right. split; [reflexivity|]. split; [reflexivity|]. by exists days.
Qed.

Lemma load_sampling_witness :
  (∃ st', lv_load_row_body sample_env 5 0 (1%nat, load_of "shop" 3 10) empty_state
            = (Ok tt, st') ∧
          rng_pos st' = 2%nat ∧
          fields_after "Pmult=" (concat (map (λ c, match c with Command f => f | _ => [] end)
                                          (emitted empty_state st')))
            = [VNums [1; 4; 3]%Q]) ∧
  (∃ st', lv_load_row_body sample_env 0 0 (0%nat, load_of "house" 1 0) empty_state
            = (Ok tt, st') ∧
          rng_pos st' = 1%nat ∧
          fields_after "Pmult=" (concat (map (λ c, match c with Command f => f | _ => [] end)
                                          (emitted empty_state st')))
            = [VNums [0.5; 9; 0.7]%Q]).
Proof.
  split.
  - destruct (proj1 (proj2 (load_sampling sample_env 5 0 1 (load_of "shop" 3 10) empty_state))
                ltac:(discriminate)
                (snd (lv_load_row_body sample_env 5 0 (1%nat, load_of "shop" 3 10) empty_state))
                eq_refl) as (days & p & _ & _ & Hem & _).
    eexists. split; [reflexivity|]. split; reflexivity.
  - destruct (proj2 (proj2 (load_sampling sample_env 0 0 0 (load_of "house" 1 0) empty_state))
                eq_refl) as (o & st' & Hrun & _).
    eexists. split; [reflexivity|]. split; reflexivity.
Defined.

(** C2 (as stated) fails for residential loads: with the day outside the
    days of the customer drawn, a load of phase count 1 is defined and the
    stage stops with [IndexError] after the one draw; with an empty pool it
    stops with [ValueError]. No loadshape is issued and nothing is bound. *)
Lemma load_sampling_residential_unbound :
  ld_phases (load_of "house" 1 0) = 1 ∧
  fst (lv_load_row_body sample_env 5 1 (0%nat, load_of "house" 1 0) empty_state)
    = Raise IndexError ∧
  emitted empty_state
    (snd (lv_load_row_body sample_env 5 1 (0%nat, load_of "house" 1 0) empty_state))
    = [Command (load_data (load_of "house" 1 0))] ∧
  fst (lv_load_row_body
         {| data := sample_tables; house_data := []; com_data := [];
            np_seed := λ _ n, n; now_year := 2024 |}
         5 0 (0%nat, load_of "house" 1 0) empty_state)
    = Raise ValueError.
Proof. repeat split. Qed.

(** ** The orchestrator *)

Section Appends.
Variable P : engine_call -> Prop.

Lemma appends_ret {A} (a : A) : appends P (mret a : M A).
Proof.
  intros st o st' [= <- <-]. exists []. split; [by rewrite app_nil_r | constructor].
Qed.

Lemma appends_lift {A} (o : outcome A) : appends P (lift o).
Proof.
  intros st o' st' [= <- <-]. exists []. split; [by rewrite app_nil_r | constructor].
Qed.

Lemma appends_frame (f : state -> state) :
  (∀ st, dss_log (f st) = dss_log st) -> appends P (modify f).
Proof.
  intros Hf st o st' [= <- <-]. exists []. rewrite Hf.
  split; [by rewrite app_nil_r | constructor].
Qed.

Lemma appends_log_call (c : engine_call) : P c -> appends P (modify (log_call c)).
Proof.
  intros Hc st o st' [= <- <-]. exists [c]. split; [reflexivity | by constructor].
Qed.

Lemma appends_bind {A B} (m : M A) (f : A -> M B) :
  appends P m -> (∀ a, appends P (f a)) -> appends P (m ≫= f).
Proof.
  intros Hm Hf st o st' Hrun. rewrite bind_run in Hrun.
  destruct (m st) as [o1 st1] eqn:Hm1.
  destruct (Hm _ _ _ Hm1) as (new1 & Hlog1 & HP1).
  destruct o1 as [a|x|].
  - destruct (Hf a _ _ _ Hrun) as (new2 & Hlog2 & HP2).
    exists (new1 ++ new2)%list. split.
    + by rewrite Hlog2, Hlog1, app_assoc.
    + by apply Forall_app.
  - injection Hrun as <- <-. by exists new1.
  - injection Hrun as <- <-. by exists new1.
Qed.

Lemma appends_lift_bind {A B} (o : outcome A) (f : A -> M B) :
  (∀ a, o = Ok a -> appends P (f a)) -> appends P (lift o ≫= f).
Proof.
  intros Hf st o' st' Hrun. rewrite bind_run in Hrun. unfold lift in Hrun.
  destruct o as [a|x|].
  - exact (Hf a eq_refl st o' st' Hrun).
  - injection Hrun as <- <-. exists []. split; [by rewrite app_nil_r | constructor].
  - injection Hrun as <- <-. exists []. split; [by rewrite app_nil_r | constructor].
Qed.

Lemma appends_for_each {A} (l : list A) (body : A -> M unit) :
  (∀ x, appends P (body x)) -> appends P (for_each l body).
Proof.
  intros Hb. induction l as [|x l IH]; [apply appends_ret|].
  cbn [for_each]. apply appends_bind; [apply Hb | intros _; exact IH].
Qed.

Lemma appends_try (m : M unit) : appends P m -> appends P (try_except_pass m).
Proof.
  intros Hm st o st' Hrun. unfold try_except_pass in Hrun.
  destruct (m st) as [o1 st1] eqn:Hm1.
  destruct (Hm _ _ _ Hm1) as (new & Hlog & HP).
  destruct o1; injection Hrun as <- <-; by exists new.
Qed.

Lemma appends_get_table {A} (name : string) (t : option A) : appends P (get_table name t).
Proof. destruct t; [apply appends_ret | apply appends_lift]. Qed.

Lemma appends_randint (low high : Z) : appends P (randint low high).
Proof.
  intros st o st' Hrun. unfold randint in Hrun.
  destruct (high <=? low); injection Hrun as <- <-;
    exists []; (split; [by rewrite app_nil_r | constructor]).
Qed.
End Appends.



Ltac appends_step :=
  first
    [ apply appends_ret
    | apply appends_get_table
    | apply appends_randint
    | apply appends_log_call; reflexivity
    | apply appends_frame; reflexivity
    | apply appends_try
    | apply appends_for_each; intros ?
    | apply appends_bind; [|intros ?]
    | apply appends_lift ].

Ltac appends_auto := repeat appends_step.

Lemma appends_basic_opendss_actions : appends not_final basic_opendss_actions.
Proof. unfold basic_opendss_actions, dss_command. appends_auto. Qed.

Lemma appends_voltage_source : appends not_final voltage_source.
Proof. unfold voltage_source, dss_command. appends_auto. Qed.

Lemma appends_mv_net_tx (e : env) : appends not_final (mv_net_tx e).
Proof. unfold mv_net_tx, dss_command. appends_auto. Qed.

Lemma appends_line_codes (e : env) : appends not_final (line_codes e).
Proof. unfold line_codes, dss_command. appends_auto. Qed.

Lemma appends_connections (e : env) : appends not_final (connections e).
Proof.
  unfold connections. appends_auto. unfold connections_row, dss_command.
  destruct (negb (is_deletion (snd x))); appends_auto.
Qed.

Lemma appends_capacitors (e : env) : appends not_final (capacitors e).
Proof. unfold capacitors, dss_command. appends_auto. Qed.

Lemma appends_mv_txs (e : env) : appends not_final (mv_txs e).
Proof.
  unfold mv_txs. appends_auto. unfold mv_txs_row, dss_command.
  destruct (negb (Qeq_bool _ _)); appends_auto.
Qed.

Lemma lv_tx_data_cases (tbl : gmap string string) (i : nat) (row : lvtx_row) (c : fstring) :
  lv_tx_data tbl i row = Ok c ->
  c = lv_tx_three i row ∨ ∃ suffix, c = lv_tx_split i row suffix ∨ c = lv_tx_single i row suffix.
Proof.
  unfold lv_tx_data. intros H.
  destruct (String.length (lt_Conn_Type row) =? 3)%nat; [injection H as <-; by left|].
  destruct (String.length (lt_Conn_Type row) =? 2)%nat;
    destruct (subscript id tbl (lt_Conn_Type row)) as [s|x|]; try discriminate H;
    injection H as <-; right; exists s; auto.
Qed.

Lemma appends_lv_tx (e : env) : appends not_final (lv_tx e).
Proof.
  unfold lv_tx.
  apply appends_bind; [apply appends_lift|intros tbl].
  apply appends_bind; [apply appends_get_table|intros rows].
  apply appends_for_each. intros [i row]. unfold lv_tx_row. cbn [fst snd].
  apply appends_lift_bind. intros c Hc. unfold dss_command.
  apply lv_tx_data_cases in Hc as [->|(s & [->| ->])]; appends_auto.
Qed.

Lemma appends_lv_nets (e : env) : appends not_final (lv_nets e).
Proof. unfold lv_nets, dss_command. appends_auto. Qed.

Lemma appends_draw_profile (p : pool) (day : Z) : appends not_final (draw_profile p day).
Proof. unfold draw_profile. appends_auto. Qed.

Lemma appends_sample_com (e : env) (day : Z) (cap : Q) (fuel : nat) :
  appends not_final (sample_com fuel e day cap).
Proof.
  induction fuel as [|fuel IH]; [apply appends_lift|].
  cbn [sample_com]. apply appends_bind; [apply appends_draw_profile|intros p].
  apply appends_bind; [apply appends_lift|intros m].
  destruct (Qltb m (cap / 2)); [apply appends_ret | exact IH].
Qed.

Lemma appends_lv_load_mod (e : env) (fuel : nat) : appends not_final (lv_load_mod e fuel []).
Proof.
  unfold lv_load_mod, lv_load_mod_body.
  apply appends_bind; [|intros day].
  { change (0 =? 0) with true. cbv iota. unfold np_random_seed. appends_auto. }
  apply appends_bind; [apply appends_get_table|intros element].
  apply appends_bind; [|intros _; apply appends_ret].
  apply appends_for_each. intros [i row].
  unfold lv_load_row_body, bind_daily, dss_command. cbn [fst snd].
  destruct (ld_phases row =? 1).
  - apply appends_bind; [appends_auto|intros _].
    apply appends_bind; [apply appends_draw_profile|intros p]. appends_auto.
  - apply appends_bind; [appends_auto|intros _].
    apply appends_bind; [apply appends_sample_com|intros p]. appends_auto.
Qed.

Ltac appends_stage :=
  first [ apply appends_frame; reflexivity
        | apply appends_basic_opendss_actions | apply appends_voltage_source
        | apply appends_mv_net_tx | apply appends_line_codes
        | apply appends_connections
        | apply appends_try; first [apply appends_capacitors | apply appends_mv_txs]
        | apply appends_lv_tx | apply appends_lv_nets | apply appends_lv_load_mod ].

Lemma appends_stages_to_loads (e : env) (fuel : nat) :
  appends not_final (stages_to_loads e fuel).
Proof.
  unfold stages_to_loads, print.
  repeat (apply appends_bind; [appends_stage | intros ?]).
  appends_stage.
Qed.

Lemma print_selected_date_no_argument (e : env) (st : state) :
  print_selected_date e [] st = (Raise missing_selected_day, st).
Proof. reflexivity. Qed.

Lemma build_network_run (e : env) (fuel : nat) (st : state) :
  build_network e fuel st =
  match stages_to_loads e fuel st with
  | (Ok _, st1) => (Raise missing_selected_day, st1)
  | (Raise x, st1) => (Raise x, st1)
  | (Diverge, st1) => (Diverge, st1)
  end.
Proof.
  unfold build_network, stages_to_loads.
  repeat (rewrite !bind_run;
          match goal with
          | |- match ?m ?s with _ => _ end = _ => destruct (m s) as [[?|?|] ?]
          end; cbv beta iota; try reflexivity).
Qed.

(** C9. [build_network] calls [print_selected_date] with no argument (the
    day that [lv_load_mod] returns is dropped), and that call raises
    [TypeError] before its body runs. So a run whose stages up to the load
    stage complete ends with that error in the state the load stage left;
    no run returns normally, and no run issues either of the two final
    directives. *)
Theorem build_network_stops_at_date_report (e : env) (fuel : nat) (st : state) :
  print_selected_date e [] st = (Raise missing_selected_day, st) ∧
  build_network e fuel st =
    match stages_to_loads e fuel st with
    | (Ok _, st1) => (Raise missing_selected_day, st1)
    | (Raise x, st1) => (Raise x, st1)
    | (Diverge, st1) => (Diverge, st1)
    end ∧
  fst (build_network e fuel st) ≠ Ok tt ∧
  Forall not_final (emitted st (snd (build_network e fuel st))).
Proof.
  split; [reflexivity|]. split; [apply build_network_run|].
  rewrite build_network_run.
  destruct (stages_to_loads e fuel st) as [o st1] eqn:Hrun.
  destruct (appends_stages_to_loads e fuel _ _ _ Hrun) as (new & Hlog & Hnew).
  split.
  - destruct o; discriminate.
  - assert (Hem : emitted st st1 = new) by (by apply emitted_app).
    destruct o; cbn [snd]; by rewrite Hem.
Qed.

(** C8. On the sample network every stage up to the load stage completes,
    in the order of the orchestrator, and the run then ends with the
    [TypeError] of the date report: the log ends with the binding of the
    last load's profile, and the two final directives, which
    [other_opendss_commands] would issue, are not in it. *)
Theorem build_network_sample_run :
  fst (build_network sample_env 5 empty_state) = Raise missing_selected_day ∧
  map call_head (dss_log (snd (build_network sample_env 5 empty_state))) =
    ["clear"; "Set DefaultBaseFrequency = 50";
     "New circuit.circuit basekv=66 pu=1 angle=0 phases=3 R1=0.52824 X1=2.113 R0=0.59157 X0=1.7747";
     "edit vsource.source bus1=sourcebus basekv=66 pu=1 angle=0 phases=3 R1=0.52824 X1=2.113 R0=0.59157 X0=1.7";
     "New Transformer.";
     "new linecode.lc_"; "new linecode.lc_";
     "new line.mv_f0_l"; "new line.mv_f0_l";
     "new capacitor.mv_f0_l";
     "new transformer."; "set maxcontroliter=100";
     "New Reactor.Jumper_"; "New Reactor.Jumper_"; "New Reactor.Jumper_";
     "New Reactor.Jumper_"; "New Reactor.Jumper_"; "New Reactor.Jumper_";
     "new transformer."; "new transformer."; "new transformer.";
     " new regcontrol.Reg_"; " new regcontrol.Reg_"; " new regcontrol.Reg_";
     "new transformer.mv_f0_lv_"; "new transformer.mv_f0_lv_"; "new transformer.mv_f0_lv_";
     "new line.";
     "new load."; "New Loadshape.Load_shape_res_"; "SetActiveElement"; "SetProperty";
     "new load."; "New Loadshape.Load_shape_com_"; "SetActiveElement"; "SetProperty"] ∧
  existsb is_final_directive (dss_log (snd (build_network sample_env 5 empty_state))) = false ∧
  stdout (snd (build_network sample_env 5 empty_state)) = [[Lit "Network building started."]] ∧
  emitted empty_state (snd (other_opendss_commands empty_state))
    = [Command voltage_bases; Command calcv].
Proof. repeat split; vm_compute; reflexivity. Qed.




(** * Further properties of the code *)

(** ** The snapshot time *)

Lemma Z_below_Forall (P : Z -> Prop) (n : nat) :
  Forall P (map Z.of_nat (seq 0 n)) -> ∀ z, 0 <= z < Z.of_nat n -> P z.
Proof.
  intros H z Hz. rewrite Forall_forall in H. apply H.
  apply list_elem_of_In, in_map_iff. exists (Z.to_nat z).
  split; [lia|]. apply in_seq. lia.
Qed.

Lemma round_half_hour_range (h m : Z) :
  0 <= h < 24 -> 0 <= m < 60 ->
  0 <= fst (round_half_hour h m) < 24 ∧
  (snd (round_half_hour h m) = "00" ∨ snd (round_half_hour h m) = "30").
Proof.
  intros Hh Hm. unfold round_half_hour.
  destruct (m <? 15); [cbn; auto|].
  destruct ((15 <=? m) && (m <? 45)); [cbn; auto|].
  cbn [fst snd]. destruct (Z.ltb_spec h 23); split; auto; lia.
Qed.

Lemma round_half_hour_cases (h m : Z) :
  0 <= h < 24 -> 0 <= m < 60 ->
  (m < 15 ∧ round_half_hour h m = (h, "00")) ∨
  (15 <= m < 45 ∧ round_half_hour h m = (h, "30")) ∨
  (45 <= m ∧ h < 23 ∧ round_half_hour h m = (h + 1, "00")) ∨
  (45 <= m ∧ h = 23 ∧ round_half_hour h m = (0, "00")).
Proof.
  intros Hh Hm. unfold round_half_hour.
  destruct (Z.ltb_spec m 15); [left; auto|].
  destruct (Z.leb_spec 15 m), (Z.ltb_spec m 45); cbn [andb]; try lia.
  - right. left. auto.
  - right. right. destruct (Z.ltb_spec h 23); [left; auto | right].
    split; [lia|]. split; [lia|reflexivity].
Qed.

(** The rounded time splits back into its hour and its minutes. *)
Lemma split_rounded (h : Z) (mm : string) :
  0 <= h < 24 -> mm = "00" ∨ mm = "30" ->
  split_on ":" (format_02d h ++ ":" ++ mm) = [format_02d h; mm] ∧
  parse_time (format_02d h ++ ":" ++ mm) = Ok (h, if String.eqb mm "00" then 0 else 30).
Proof.
  intros Hh Hmm. revert h Hh. apply (Z_below_Forall _ 24).
  destruct Hmm as [-> | ->]; repeat constructor.
Qed.

Lemma sel_time_try_range (s r : string) :
  sel_time_try s = Ok r ->
  ∃ h m, parse_time s = Ok (h, m) ∧ 0 <= h < 24 ∧ 0 <= m < 60 ∧
         r = format_02d (fst (round_half_hour h m)) ++ ":" ++ snd (round_half_hour h m).
Proof.
  unfold sel_time_try. destruct (parse_time s) as [[h m]|x|]; try discriminate.
  cbn [mbind outcome_bind fst snd].
  destruct (Z.leb_spec 0 h), (Z.ltb_spec h 24), (Z.leb_spec 0 m), (Z.ltb_spec m 60);
    cbn [andb negb orb]; try discriminate.
  intros [= <-]. exists h, m. repeat split; auto.
Qed.

Lemma sel_time_try_valid (s : string) (h m : Z) :
  parse_time s = Ok (h, m) -> 0 <= h < 24 -> 0 <= m < 60 ->
  sel_time_try s = Ok (format_02d (fst (round_half_hour h m)) ++ ":" ++ snd (round_half_hour h m)).
Proof.
  intros Hp Hh Hm. unfold sel_time_try. rewrite Hp. cbn [mbind outcome_bind fst snd].
  destruct (Z.leb_spec 0 h), (Z.ltb_spec h 24), (Z.leb_spec 0 m), (Z.ltb_spec m 60);
    try lia. reflexivity.
Qed.

Lemma py_int_error (s : string) (e : exn) : py_int s = Raise e -> e = ValueError.
Proof.
  unfold py_int. destruct (digits_value false 0 _); [discriminate|]. by intros [= <-].
Qed.

Lemma py_int_no_diverge (s : string) : py_int s ≠ Diverge.
Proof. unfold py_int. destruct (digits_value false 0 _); discriminate. Qed.

Lemma sel_time_try_error (s : string) :
  (∃ r, sel_time_try s = Ok r) ∨ sel_time_try s = Raise ValueError.
Proof.
  unfold sel_time_try, parse_time.
  destruct (unpack2 (split_on ":" s)) as [[hs ms]|x|] eqn:Hu.
  - cbn [mbind outcome_bind fst snd].
    pose proof (py_int_error hs) as Heh. pose proof (py_int_no_diverge hs) as Hdh.
    pose proof (py_int_error ms) as Hem. pose proof (py_int_no_diverge ms) as Hdm.
    destruct (py_int hs) as [h|x|]; [|rewrite (Heh x eq_refl); right; reflexivity|done].
    cbn [mbind outcome_bind].
    destruct (py_int ms) as [m|x|]; [|rewrite (Hem x eq_refl); right; reflexivity|done].
    cbn [mbind outcome_bind fst snd].
    destruct (negb _ || negb _); [right; reflexivity | left; eauto].
  - right. unfold unpack2 in Hu.
    destruct (split_on ":" s) as [|a [|b [|c l]]]; try discriminate Hu;
      injection Hu as <-; reflexivity.
  - unfold unpack2 in Hu.
    destruct (split_on ":" s) as [|a [|b [|c l]]]; discriminate Hu.
Qed.

Lemma sel_time_loop_ok (s r : string) (fuel : nat) (st : state) :
  sel_time_try s = Ok r ->
  sel_time_loop (S fuel) s st
  = (Ok r, put_stdout [Lit "Rounded time: "; Fmt (VStr r)] st).
Proof. intros H. cbn [sel_time_loop]. rewrite H. reflexivity. Qed.

Lemma sel_time_loop_invalid (s : string) (fuel : nat) (st : state) :
  sel_time_try s = Raise ValueError ->
  sel_time_loop fuel s st = (Diverge, Nat.iter fuel (put_stdout invalid_time_message) st).
Proof.
  intros H. revert st. induction fuel as [|fuel IH]; intros st; [reflexivity|].
  cbn [sel_time_loop]. rewrite H, bind_run. unfold print, modify. cbv beta iota.
  rewrite IH. by rewrite Nat.iter_succ_r.
Qed.

(** X1. A time of characters below 128, at most 4300 of them, whose two
    fields parse to an hour in 0..23 and a minute in 0..59 is answered on
    the first pass: the minutes become "00" or "30",
    the hour is written with two digits, minutes 45 and more carry into the
    next hour and 23 wraps to 00; the answer is a half hour at most 15
    minutes away on the 24-hour clock, halves rounded up. *)
Theorem sel_time_rounds (s : string) (h m : Z) (fuel : nat) (st : state)
    (Hascii : is_ascii s = true) (Hlen : (String.length s <= 4300)%nat)
    (Hparse : parse_time s = Ok (h, m))
    (Hh : 0 <= h < 24) (Hm : 0 <= m < 60) :
  ∃ h' m',
    sel_time (S fuel) s st
      = (Ok (format_02d h', format_02d m'),
         put_stdout [Lit "Rounded time: "; Fmt (VStr (format_02d h' ++ ":" ++ format_02d m'))] st) ∧
    0 <= h' < 24 ∧ (m' = 0 ∨ m' = 30) ∧
    (((60 * h' + m') - (60 * h + m)) mod 1440 <= 15 ∨
     ((60 * h + m) - (60 * h' + m')) mod 1440 <= 14).
Proof.
  pose proof (sel_time_try_valid s h m Hparse Hh Hm) as Htry.
  destruct (round_half_hour_range h m Hh Hm) as [Hh' Hmm].
  exists (fst (round_half_hour h m)), (if String.eqb (snd (round_half_hour h m)) "00" then 0 else 30).
  assert (Hfmt : format_02d (if String.eqb (snd (round_half_hour h m)) "00" then 0 else 30)
                 = snd (round_half_hour h m)).
  { destruct Hmm as [-> | ->]; reflexivity. }
  rewrite Hfmt. split; [|split; [exact Hh'|split]].
  - unfold sel_time. rewrite bind_run, (sel_time_loop_ok _ _ _ _ Htry).
    destruct (split_rounded _ _ Hh' Hmm) as [-> _]. reflexivity.
  - destruct Hmm as [-> | ->]; auto.
  - destruct (round_half_hour_cases h m Hh Hm)
      as [(Hc & ->)|[(Hc & ->)|[(Hc & Hc' & ->)|(Hc & Hc' & ->)]]];
      cbn [fst snd]; change (String.eqb "00" "00") with true;
      change (String.eqb "30" "00") with false; cbv iota.
    + right. replace (60 * h + m - (60 * h + 0)) with m by lia.
      rewrite Z.mod_small; lia.
    + destruct (Z.le_gt_cases m 30).
      * left. replace (60 * h + 30 - (60 * h + m)) with (30 - m) by lia.
        rewrite Z.mod_small; lia.
      * right. replace (60 * h + m - (60 * h + 30)) with (m - 30) by lia.
        rewrite Z.mod_small; lia.
    + left. replace (60 * (h + 1) + 0 - (60 * h + m)) with (60 - m) by lia.
      rewrite Z.mod_small; lia.
    + left. subst h.
      replace (60 * 0 + 0 - (60 * 23 + m)) with ((60 - m) + (-1) * 1440) by lia.
      rewrite Z.mod_add by lia. rewrite Z.mod_small; lia.
Qed.

Lemma sel_time_rounds_witness :
  fst (sel_time 1 "23:45" empty_state) = Ok ("00", "00") ∧
  fst (sel_time 1 " 7 : 15 " empty_state) = Ok ("07", "30").
Proof.
  split.
  - destruct (sel_time_rounds "23:45" 23 45 0 empty_state eq_refl ltac:(cbn; lia)
                eq_refl ltac:(lia) ltac:(lia))
      as (h' & m' & Hrun & _).
    reflexivity.
  - destruct (sel_time_rounds " 7 : 15 " 7 15 0 empty_state eq_refl ltac:(cbn; lia)
                eq_refl ltac:(lia) ltac:(lia))
      as (h' & m' & Hrun & _).
    reflexivity.
Defined.



(** X2. A time of characters below 128, at most 4300 of them, that does
    not parse to an hour in 0..23 and a minute in 0..59 is never answered:
    every pass prints the same message and tries the same string again, so
    the call does not return. *)
Theorem sel_time_invalid_never_returns (s : string) (fuel : nat) (st : state)
    (Hascii : is_ascii s = true) (Hlen : (String.length s <= 4300)%nat)
    (Hbad : ∀ h m, parse_time s = Ok (h, m) -> ¬ (0 <= h < 24 ∧ 0 <= m < 60)) :
  sel_time fuel s st = (Diverge, Nat.iter fuel (put_stdout invalid_time_message) st).
Proof.
  assert (Htry : sel_time_try s = Raise ValueError).
  { destruct (sel_time_try_error s) as [[r Hr]|Hr]; [|exact Hr].
    apply sel_time_try_range in Hr as (h & m & Hp & Hh & Hm & _).
    destruct (Hbad h m Hp). auto. }
  unfold sel_time. rewrite bind_run. by rewrite sel_time_loop_invalid.
Qed.

Lemma sel_time_invalid_never_returns_witness :
  fst (sel_time 7 "24:00" empty_state) = Diverge ∧
  length (stdout (snd (sel_time 7 "24:00" empty_state))) = 7%nat ∧
  fst (sel_time 7 "9.30" empty_state) = Diverge ∧
  fst (sel_time 7 (String (ascii_of_nat 31) "7:15") empty_state) = Diverge.
Proof.
  assert (H1 : ∀ h m, parse_time "24:00" = Ok (h, m) -> ¬ (0 <= h < 24 ∧ 0 <= m < 60)).
  { intros h m H. vm_compute in H. injection H as <- <-. lia. }
  assert (H2 : ∀ h m, parse_time "9.30" = Ok (h, m) -> ¬ (0 <= h < 24 ∧ 0 <= m < 60)).
  { intros h m H. discriminate H. }
  rewrite (sel_time_invalid_never_returns "24:00" 7 empty_state eq_refl ltac:(cbn; lia) H1).
  assert (H3 : ∀ h m, parse_time (String (ascii_of_nat 31) "7:15") = Ok (h, m) ->
                 ¬ (0 <= h < 24 ∧ 0 <= m < 60)).
  { intros h m H. discriminate H. }
  rewrite (sel_time_invalid_never_returns "9.30" 7 empty_state eq_refl ltac:(cbn; lia) H2).
  rewrite (sel_time_invalid_never_returns (String (ascii_of_nat 31) "7:15") 7 empty_state
             eq_refl ltac:(cbn; lia) H3).
  repeat split.
Defined.

(** X3. An answer of [sel_time], written back as hh:mm, is a time that
    [sel_time] answers with itself. *)
Theorem sel_time_idempotent (s hh mm : string) (fuel fuel' : nat) (st st' st2 : state)
    (Hrun : sel_time fuel s st = (Ok (hh, mm), st')) :
  sel_time (S fuel') (hh ++ ":" ++ mm) st2
  = (Ok (hh, mm), put_stdout [Lit "Rounded time: "; Fmt (VStr (hh ++ ":" ++ mm))] st2).
Proof.
  destruct (sel_time_try_error s) as [[r Hr]|Hr].
  2:{ unfold sel_time in Hrun. rewrite bind_run, sel_time_loop_invalid in Hrun by done.
      discriminate Hrun. }
  destruct fuel as [|fuel]; [discriminate Hrun|].
  unfold sel_time in Hrun. rewrite bind_run, (sel_time_loop_ok _ _ _ _ Hr) in Hrun.
  apply sel_time_try_range in Hr as (h & m & _ & Hh & Hm & ->).
  destruct (round_half_hour_range h m Hh Hm) as [Hh' Hmm].
  destruct (split_rounded _ _ Hh' Hmm) as [Hsplit Hparse].
  rewrite Hsplit in Hrun. injection Hrun as <- <- _.
  set (h' := fst (round_half_hour h m)) in *.
  set (m' := snd (round_half_hour h m)) in *.
  assert (Hround : round_half_hour h' (if String.eqb m' "00" then 0 else 30) = (h', m')).
  { destruct Hmm as [-> | ->]; reflexivity. }
  assert (Htry : sel_time_try (format_02d h' ++ ":" ++ m') = Ok (format_02d h' ++ ":" ++ m')).
  { rewrite (sel_time_try_valid _ _ _ Hparse Hh'), Hround; [reflexivity|].
    destruct Hmm as [-> | ->]; cbn; lia. }
  unfold sel_time. rewrite bind_run, (sel_time_loop_ok _ _ _ _ Htry), Hsplit. reflexivity.
Qed.

Lemma sel_time_idempotent_witness :
  fst (sel_time 1 "12:50" empty_state) = Ok ("13", "00") ∧
  fst (sel_time 1 "13:00" empty_state) = Ok ("13", "00").
Proof.
  split; [reflexivity|].
  exact (f_equal fst (sel_time_idempotent "12:50" "13" "00" 1 0 empty_state
                        (snd (sel_time 1 "12:50" empty_state)) empty_state eq_refl)).
Defined.


(** ** Phase codes and permutations *)

Lemma phase_keys_suffixes :
  Forall (λ k1, Forall (λ k2, spec_suffix k1 = spec_suffix k2 -> k1 = k2) phase_keys ∧
                String.length (spec_suffix k1) = (2 * String.length k1 - 1)%nat)
         phase_keys.
Proof.
  apply (bool_decide_unpack _). vm_compute. exact I.
Qed.

(** X4. Translation is one-to-one: two phase codes with the same bus
    suffix are the same code; and the suffix of a code of k letters has k
    digits and k - 1 dots. *)
Theorem translate_injective (s1 s2 v : string)
    (H1 : translate s1 = Ok v) (H2 : translate s2 = Ok v) :
  s1 = s2 ∧ String.length v = (2 * String.length s1 - 1)%nat.
Proof.
  rewrite translate_table in H1, H2.
  destruct (decide (s1 ∈ phase_keys)) as [Hin1|Hn1];
    [rewrite bool_decide_eq_true_2 in H1 by done
    |rewrite bool_decide_eq_false_2 in H1 by done; discriminate H1].
  destruct (decide (s2 ∈ phase_keys)) as [Hin2|Hn2];
    [rewrite bool_decide_eq_true_2 in H2 by done
    |rewrite bool_decide_eq_false_2 in H2 by done; discriminate H2].
  injection H1 as <-. injection H2 as H2.
  pose proof phase_keys_suffixes as Hall. rewrite Forall_forall in Hall.
  destruct (Hall s1 Hin1) as [Hinj Hlen]. rewrite Forall_forall in Hinj.
  split; [by apply Hinj | exact Hlen].
Qed.

Lemma translate_injective_witness :
  translate "RB" = Ok "1.3" ∧ String.length "1.3" = 3%nat.
Proof.
  split; [vm_compute; reflexivity|].
  exact (proj2 (translate_injective "RB" "RB" "1.3" eq_refl eq_refl)).
Defined.

Lemma elem_of_selections {A} (l : list A) (x : A) (rest : list A) :
  (x, rest) ∈ selections l ↔ ∃ l1 l2, l = (l1 ++ x :: l2)%list ∧ rest = (l1 ++ l2)%list.
Proof.
  revert x rest. induction l as [|y l IH]; intros x rest; cbn [selections].
  - split; [by intros ?%elem_of_nil|]. intros ([|? ?] & l2 & [=] & _).
  - rewrite elem_of_cons. split.
    + intros [[= -> ->]|Hin].
      * by exists [], l.
      * apply list_elem_of_In, in_map_iff in Hin as ([x' rest'] & Heq & Hin).
        cbn [fst snd] in Heq. injection Heq as -> <-.
        apply list_elem_of_In, IH in Hin as (l1 & l2 & -> & ->).
        by exists (y :: l1), l2.
    + intros ([|z l1] & l2 & Hl & ->); cbn in Hl; injection Hl as -> ->.
      * by left.
      * right. apply list_elem_of_In, in_map_iff. exists (x, (l1 ++ l2)%list).
        split; [reflexivity|]. apply list_elem_of_In, IH. by exists l1, l2.
Qed.

Lemma elem_of_permutations_S {A} (r : nat) (pool : list A) (p : list A) :
  p ∈ permutations (S r) pool ↔
  ∃ x rest q, (x, rest) ∈ selections pool ∧ q ∈ permutations r rest ∧ p = x :: q.
Proof.
  cbn [permutations]. rewrite list_elem_of_In, in_flat_map. split.
  - intros ([x rest] & Hsel & Hin). cbn [fst snd] in Hin.
    apply in_map_iff in Hin as (q & <- & Hq).
    exists x, rest, q. by rewrite !list_elem_of_In.
  - intros (x & rest & q & Hsel & Hq & ->). exists (x, rest).
    split; [by apply list_elem_of_In|]. cbn [fst snd]. apply in_map.
    by apply list_elem_of_In.
Qed.

(** X5. The tuples that [permutations r pool] yields from a pool without
    repetition are exactly the lists of [r] distinct elements of the
    pool. *)
Theorem permutations_spec {A} (r : nat) (pool p : list A) (Hpool : NoDup pool) :
  p ∈ permutations r pool ↔ length p = r ∧ NoDup p ∧ ∀ x, x ∈ p -> x ∈ pool.
Proof.
  revert pool p Hpool. induction r as [|r IH]; intros pool p Hpool.
  - cbn [permutations]. rewrite list_elem_of_singleton. split.
    + intros ->. split; [reflexivity|]. split; [constructor|]. by intros x ?%elem_of_nil.
    + intros (Hlen & _). by destruct p.
  - rewrite elem_of_permutations_S. split.
    + intros (x & rest & q & Hsel & Hq & ->).
      apply elem_of_selections in Hsel as (l1 & l2 & -> & ->).
      apply NoDup_app in Hpool as (Hl1 & Hdisj & Hl2).
      apply NoDup_cons in Hl2 as [Hx2 Hl2].
      assert (Hrest : NoDup (l1 ++ l2)).
      { apply NoDup_app. split; [done|]. split; [|done].
        intros y Hy1 Hy2. apply (Hdisj y Hy1). by right. }
      apply (IH _ _ Hrest) in Hq as (Hlen & Hnd & Hsub).
      split; [cbn; by rewrite Hlen|]. split.
      * apply NoDup_cons. split; [|done]. intros Hxq%Hsub.
        apply elem_of_app in Hxq as [Hx1|Hx2']; [|done].
        apply (Hdisj x Hx1). by left.
      * intros y [->|Hy]%elem_of_cons.
        -- apply elem_of_app. right. by left.
        -- apply Hsub, elem_of_app in Hy as [Hy|Hy]; apply elem_of_app;
             [by left | right; by right].
    + intros (Hlen & Hnd & Hsub). destruct p as [|x q]; [discriminate Hlen|].
      injection Hlen as Hlen. apply NoDup_cons in Hnd as [Hxq Hq].
      assert (Hx : x ∈ pool) by (apply Hsub; by left).
      apply list_elem_of_split in Hx as (l1 & l2 & ->).
      exists x, (l1 ++ l2)%list, q. split; [apply elem_of_selections; by exists l1, l2|].
      split; [|reflexivity].
      apply NoDup_app in Hpool as (Hl1 & Hdisj & Hl2).
      apply NoDup_cons in Hl2 as [Hx2 Hl2].
      apply IH.
      * apply NoDup_app. split; [done|]. split; [|done].
        intros y Hy1 Hy2. apply (Hdisj y Hy1). by right.
      * split; [done|]. split; [done|]. intros y Hy.
        assert (Hyp : y ∈ (l1 ++ x :: l2)%list) by (apply Hsub; by right).
        apply elem_of_app in Hyp as [Hy1|[->|Hy2]%elem_of_cons]; apply elem_of_app; auto.
        contradiction.
Qed.

Lemma permutations_spec_witness :
  ["B"; "R"]%char ∈ permutations 2 ["R"; "B"; "W"]%char ∧
  ["R"; "R"]%char ∉ permutations 2 ["R"; "B"; "W"]%char.
Proof.
  assert (Hpool : NoDup ["R"; "B"; "W"]%char).
  { apply (bool_decide_unpack _). vm_compute. exact I. }
  split.
  - apply (proj2 (permutations_spec 2 _ ["B"; "R"]%char Hpool)).
    split; [reflexivity|]. split.
    + apply (bool_decide_unpack _). vm_compute. exact I.
    + intros x Hx. apply (bool_decide_unpack _).
      repeat (apply elem_of_cons in Hx as [->|Hx]); try (vm_compute; exact I).
      by apply elem_of_nil in Hx.
  - intros Hin. apply (proj1 (permutations_spec 2 _ _ Hpool)) in Hin as (_ & Hnd & _).
    apply (bool_decide_pack _) in Hnd. vm_compute in Hnd. exact Hnd.
Defined.




(** ** Whole stages: errors and optional tables *)

Lemma mv_txs_row_ok (i : nat) (row : mvtx_row) (st : state) :
  mv_row_ok row = true ->
  mv_txs_row phase_table (i, row) st = (Ok tt, add_calls (mv_row_calls row) st).
Proof.
  unfold mv_row_ok, mv_row_calls. intros H.
  destruct (Qeq_bool (mt_kvs_primary row) (mt_kvs_secondary row)) eqn:Heq.
  - by apply mv_txs_row_regulator.
  - cbn [orb] in H. destruct (translate (mt_Conn_Type row)) as [suffix|x|] eqn:Ht;
      try discriminate H.
    by apply mv_txs_row_split.
Qed.

Lemma mv_txs_row_bad (i : nat) (row : mvtx_row) (st : state) :
  mv_row_ok row = false ->
  mv_txs_row phase_table (i, row) st = (Raise (KeyError (mt_Conn_Type row)), st).
Proof.
  unfold mv_row_ok. intros H. apply orb_false_iff in H as [Heq Ht].
  unfold mv_txs_row. cbn [snd]. rewrite Heq. cbn [negb].
  rewrite bind_run. unfold lift. rewrite <- translate_subscript.
  rewrite translate_table in *.
  destruct (bool_decide (mt_Conn_Type row ∈ phase_keys)); [discriminate Ht | reflexivity].
Qed.

Lemma mv_txs_rows_ok (irs : list (nat * mvtx_row)) (st : state) :
  forallb mv_row_ok (map snd irs) = true ->
  for_each irs (mv_txs_row phase_table) st
  = (Ok tt, add_calls (concat (map mv_row_calls (map snd irs))) st).
Proof.
  revert st. induction irs as [|[i row] irs IH]; intros st H.
  - cbn. by rewrite add_calls_nil.
  - cbn [forallb map snd] in H. apply andb_true_iff in H as [Hrow Hrows].
    cbn [for_each map concat snd]. rewrite bind_run, (mv_txs_row_ok _ _ _ Hrow).
    rewrite (IH _ Hrows). by rewrite add_calls_app.
Qed.

(** X6. [mv_txs] stops at the first record of unequal voltages whose
    PhaseCode is not in the table: it raises [KeyError] on that code, the
    records before it are emitted in full and in order, and nothing is
    emitted for that record or any later one. Under the [try]/[except] of
    [build_network] the error is dropped and the run goes on without the
    remaining MV transformers. *)
Theorem mv_txs_stops_at_bad_record (e : env) (good rest : list mvtx_row) (bad : mvtx_row)
    (st : state)
    (Htable : mvtx (data e) = Some (good ++ bad :: rest)%list)
    (Hgood : forallb mv_row_ok good = true)
    (Hbad : mv_row_ok bad = false) :
  mv_txs e st = (Raise (KeyError (mt_Conn_Type bad)),
                 add_calls (concat (map mv_row_calls good)) st) ∧
  try_except_pass (mv_txs e) st = (Ok tt, add_calls (concat (map mv_row_calls good)) st).
Proof.
  assert (Hrun : mv_txs e st = (Raise (KeyError (mt_Conn_Type bad)),
                                add_calls (concat (map mv_row_calls good)) st)).
  { rewrite (mv_txs_run e _ st Htable). unfold iterrows.
    rewrite imap_app, for_each_app.
    pose proof (mv_txs_rows_ok (imap pair good) st) as Hpre.
    change (imap pair good) with (iterrows good) in Hpre at 1 3.
    rewrite map_snd_iterrows in Hpre. unfold iterrows in Hpre. rewrite (Hpre Hgood).
    cbn [imap for_each]. rewrite bind_run. by rewrite mv_txs_row_bad. }
  split; [exact Hrun|]. unfold try_except_pass. by rewrite Hrun.
Qed.

Lemma mv_txs_stops_at_bad_record_witness :
  fst (mv_txs (with_optional None
                 (Some [mvtx_of "R1_REG" "" 12.7 12.7 1000; mvtx_of "SW1" "RR" 22 12.7 1000;
                        mvtx_of "SW2" "RB" 22 12.7 1000])
                 sample_env) empty_state) = Raise (KeyError "RR") ∧
  length (emitted empty_state
            (snd (mv_txs (with_optional None
                 (Some [mvtx_of "R1_REG" "" 12.7 12.7 1000; mvtx_of "SW1" "RR" 22 12.7 1000;
                        mvtx_of "SW2" "RB" 22 12.7 1000])
                 sample_env) empty_state))) = 13%nat.
Proof.
  destruct (mv_txs_stops_at_bad_record
              (with_optional None
                 (Some [mvtx_of "R1_REG" "" 12.7 12.7 1000; mvtx_of "SW1" "RR" 22 12.7 1000;
                        mvtx_of "SW2" "RB" 22 12.7 1000])
                 sample_env)
              [mvtx_of "R1_REG" "" 12.7 12.7 1000] [mvtx_of "SW2" "RB" 22 12.7 1000]
              (mvtx_of "SW1" "RR" 22 12.7 1000) empty_state eq_refl)
    as [Hrun _].
  - vm_compute. reflexivity.
  - vm_compute. reflexivity.
  - rewrite Hrun. split; [reflexivity|]. cbn [snd]. rewrite emitted_add_calls.
    reflexivity.
Defined.

Lemma bind_ext {A B} (m1 m2 : M A) (f1 f2 : A -> M B) :
  (∀ st, m1 st = m2 st) -> (∀ a st, f1 a st = f2 a st) ->
  ∀ st, (m1 ≫= f1) st = (m2 ≫= f2) st.
Proof.
  intros Hm Hf st. rewrite !bind_run, Hm.
  destruct (m2 st) as [[a|x|] st1]; [apply Hf | reflexivity | reflexivity].
Qed.

Lemma for_each_ext {A} (l : list A) (body1 body2 : A -> M unit) :
  (∀ x st, body1 x st = body2 x st) ->
  ∀ st, for_each l body1 st = for_each l body2 st.
Proof.
  intros Hb. induction l as [|x l IH]; intros st; [reflexivity|].
  cbn [for_each]. apply bind_ext; [apply Hb | intros _; apply IH].
Qed.

(** The retry loop reads nothing of the environment but the commercial pool. *)
Lemma sample_com_env (e1 e2 : env) (day : Z) (cap : Q) (fuel : nat) :
  com_data e1 = com_data e2 ->
  ∀ st, sample_com fuel e1 day cap st = sample_com fuel e2 day cap st.
Proof.
  intros Hpool. induction fuel as [|fuel IH]; intros st; [reflexivity|].
  cbn [sample_com]. rewrite Hpool.
  apply bind_ext; [reflexivity|intros p st1].
  apply bind_ext; [reflexivity|intros m st2].
  destruct (Qltb m (cap / 2)); [reflexivity | apply IH].
Qed.

Lemma lv_load_mod_optional (e : env) (fuel : nat) (args : list Z) (st : state) :
  lv_load_mod (with_optional None None e) fuel args st
  = lv_load_mod (with_optional (Some []) (Some []) e) fuel args st.
Proof.
  assert (Hbody : ∀ d s, lv_load_mod_body (with_optional None None e) fuel d s
                        = lv_load_mod_body (with_optional (Some []) (Some []) e) fuel d s).
  { intros d s. unfold lv_load_mod_body.
    apply bind_ext; [reflexivity|intros day s1].
    apply bind_ext; [reflexivity|intros element s2].
    apply bind_ext; [|reflexivity].
    apply for_each_ext. intros [i row] s3. unfold lv_load_row_body. cbn [fst snd].
    destruct (ld_phases row =? 1); [reflexivity|].
    apply bind_ext; [reflexivity|intros _ s4].
    apply bind_ext; [|reflexivity].
    by apply sample_com_env. }
  unfold lv_load_mod. destruct args as [|d [|d' l]]; [apply Hbody | apply Hbody | reflexivity].
Qed.

(** X7. The two optional sheets: with [mvcaps] or [mvtx] absent, the stage
    under [try]/[except] completes and leaves the state as it was, and a
    whole run is the run on the same tables with those sheets empty. *)
Theorem build_network_optional_tables (e : env) (fuel : nat) (st : state) :
  try_except_pass (capacitors (with_optional None None e)) st = (Ok tt, st) ∧
  try_except_pass (mv_txs (with_optional None None e)) st = (Ok tt, st) ∧
  build_network (with_optional None None e) fuel st
  = build_network (with_optional (Some []) (Some []) e) fuel st.
Proof.
  assert (Hm : ∀ s, try_except_pass (mv_txs (with_optional None None e)) s
                    = try_except_pass (mv_txs (with_optional (Some []) (Some []) e)) s).
  { intros s. unfold try_except_pass, mv_txs. rewrite char_to_num_table. reflexivity. }
  split; [reflexivity|]. split.
  { unfold try_except_pass, mv_txs. rewrite char_to_num_table. reflexivity. }
  unfold build_network.
  repeat (apply bind_ext;
          [ first [ reflexivity | apply Hm | intros s; apply lv_load_mod_optional ]
          | intros ? ? ]).
  reflexivity.
Qed.




(** X8. A stage whose sheet is absent raises [KeyError] on the sheet's
    name before it emits anything. The load stage has by then reseeded the
    generator and drawn the day. A run whose first required sheet is
    absent ends with that error after the four commands of the base
    circuit. *)
Theorem stage_missing_table (e : env) (fuel : nat) (st : state) :
  (mv_net_txs (data e) = None ->
     mv_net_tx e st = (Raise (KeyError "mv_net_txs"), st)) ∧
  (linecodes (data e) = None ->
     line_codes e st = (Raise (KeyError "linecodes"), st)) ∧
  (lines (data e) = None ->
     connections e st = (Raise (KeyError "lines"), st)) ∧
  (mvcaps (data e) = None ->
     capacitors e st = (Raise (KeyError "mvcaps"), st)) ∧
  (mvtx (data e) = None ->
     mv_txs e st = (Raise (KeyError "mvtx"), st)) ∧
  (lvtx (data e) = None ->
     lv_tx e st = (Raise (KeyError "lvtx"), st)) ∧
  (lv_lines (data e) = None ->
     lv_nets e st = (Raise (KeyError "lv_lines"), st)) ∧
  (lv_loads (data e) = None ->
     lv_load_mod e fuel [] st = (Raise (KeyError "lv_loads"), set_rng (np_seed e 100) 1 st)) ∧
  (mv_net_txs (data e) = None ->
     fst (build_network e fuel st) = Raise (KeyError "mv_net_txs") ∧
     emitted st (snd (build_network e fuel st))
       = emitted st (snd ((basic_opendss_actions ;; voltage_source) st))).
Proof.
  repeat match goal with |- _ ∧ _ => split end; intros H.
  - unfold mv_net_tx. by rewrite H.
  - unfold line_codes. by rewrite H.
  - unfold connections. by rewrite H.
  - unfold capacitors. by rewrite H.
  - unfold mv_txs. rewrite char_to_num_table. by rewrite H.
  - unfold lv_tx. rewrite char_to_num_table. by rewrite H.
  - unfold lv_nets. by rewrite H.
  - unfold lv_load_mod, lv_load_mod_body. rewrite H. reflexivity.
  - unfold build_network, mv_net_tx. rewrite H. split; reflexivity.
Qed.

Lemma stage_missing_table_witness :
  fst (build_network (with_optional None None
         {| data := {| mv_net_txs := None; linecodes := None; lines := None; mvcaps := None;
                       mvtx := None; lvtx := None; lv_lines := None; lv_loads := None |};
            house_data := []; com_data := []; np_seed := λ _ n, n; now_year := 2024 |})
       1 empty_state) = Raise (KeyError "mv_net_txs").
Proof.
  apply (proj2 (proj2 (proj2 (proj2 (proj2 (proj2 (proj2 (proj2
          (stage_missing_table _ 1 empty_state))))))))).
  reflexivity.
Defined.

(** X9. When the first kept line whose line code is not in the table comes
    after rows that all resolve, the MV-line stage raises [IndexError] at
    that line with its definition already issued and its DSSNAME already
    written, but no Ampacity; the lines after it are not reached. *)
Theorem connections_fails_at_unresolved (e : env) (before rest : list line_row)
    (row : line_row) (lcs : list linecode_row) (st : state)
    (Hl : lines (data e) = Some (before ++ row :: rest)%list)
    (Hlc : linecodes (data e) = Some lcs)
    (Hbefore : ∀ r, r ∈ before -> is_deletion r = false ->
                 ampacity1_of (linecode_key r) lcs ≠ [])
    (Hkept : is_deletion row = false)
    (Hrow : ampacity1_of (linecode_key row) lcs = []) :
  ∃ st', connections e st = (Raise IndexError, st') ∧
    emitted st st'
      = (map (λ r, Command (mv_line_data r)) (List.filter (λ r, negb (is_deletion r)) before)
         ++ [Command (mv_line_data row)])%list ∧
    gis_MV_lines st' !! (length before, "DSSNAME")
      = Some (CText [Lit "mv_f0_l"; Fmt (ln_Line_Number row)]) ∧
    gis_MV_lines st' !! (length before, "Ampacity")
      = gis_MV_lines st !! (length before, "Ampacity").
Proof.
  destruct (connections_unresolved_run e before rest row lcs st Hl Hlc Hbefore Hkept Hrow)
    as (st' & Hrun & Hem & Hname & Hamp & _).
  by exists st'.
Qed.

Lemma connections_fails_at_unresolved_witness :
  ∃ st', connections
           (with_optional None None
              {| data := {| mv_net_txs := None; linecodes := Some [lc_abc];
                            lines := Some [line_of "Line" 1 "ABC" 3; line_of "Line" 2 "XYZ" 3;
                                           line_of "Line" 3 "ABC" 3];
                            mvcaps := None; mvtx := None; lvtx := None; lv_lines := None;
                            lv_loads := None |};
                 house_data := []; com_data := []; np_seed := λ _ n, n; now_year := 2024 |})
           empty_state = (Raise IndexError, st') ∧
         length (emitted empty_state st') = 2%nat ∧
         gis_MV_lines st' !! (1%nat, "Ampacity") = None.
Proof.
  edestruct (connections_fails_at_unresolved
               (with_optional None None
                  {| data := {| mv_net_txs := None; linecodes := Some [lc_abc];
                                lines := Some [line_of "Line" 1 "ABC" 3; line_of "Line" 2 "XYZ" 3;
                                               line_of "Line" 3 "ABC" 3];
                                mvcaps := None; mvtx := None; lvtx := None; lv_lines := None;
                                lv_loads := None |};
                     house_data := []; com_data := []; np_seed := λ _ n, n; now_year := 2024 |})
               [line_of "Line" 1 "ABC" 3] [line_of "Line" 3 "ABC" 3] (line_of "Line" 2 "XYZ" 3)
               [lc_abc] empty_state eq_refl eq_refl)
    as (st' & Hrun & Hem & _ & Hamp).
  - intros r Hin _. apply list_elem_of_singleton in Hin as ->. vm_compute. discriminate.
  - reflexivity.
  - reflexivity.
  - exists st'. split; [exact Hrun|]. split; [by rewrite Hem | exact Hamp].
Defined.

(** ** The day and the generator *)

Lemma lv_load_mod_body_day (e : env) (fuel : nat) (d d' : Z) (st st' : state) :
  lv_load_mod_body e fuel d st = (Ok d', st') ->
  (d = 0 ∧ d' = Z.of_nat (np_seed e 100 0) mod 365) ∨ (d ≠ 0 ∧ d' = d).
Proof.
  unfold lv_load_mod_body. rewrite bind_run. intros H.
  destruct (Z.eqb_spec d 0) as [->|Hd].
  - left. split; [reflexivity|]. rewrite bind_run in H.
    unfold np_random_seed, modify in H. cbv beta iota in H.
    rewrite randint_run in H by lia. cbn [rng_stream rng_pos set_rng] in H.
    rewrite bind_run in H. destruct (get_table _ _ _) as [[rows|x|] st1]; try discriminate H.
    rewrite bind_run in H. destruct (for_each _ _ _) as [[[]|x|] st2]; try discriminate H.
    by injection H as <- _.
  - right. split; [exact Hd|]. unfold mret, M_ret in H. cbv beta iota in H.
    rewrite bind_run in H. destruct (get_table _ _ _) as [[rows|x|] st1]; try discriminate H.
    rewrite bind_run in H. destruct (for_each _ _ _) as [[[]|x|] st2]; try discriminate H.
    by injection H as <- _.
Qed.

(** X10. With no day given (or day 0, which means the same), the load
    stage reseeds the generator with 100 before it draws: what it does and
    returns does not depend on what the generator did before, and the day
    it returns lies in 0..364. *)
Theorem lv_load_mod_default_day (e : env) (fuel : nat) (st : state) :
  (∀ (s : nat -> nat) (p : nat),
     lv_load_mod e fuel [] (set_rng s p st) = lv_load_mod e fuel [] st) ∧
  lv_load_mod e fuel [0] st = lv_load_mod e fuel [] st ∧
  (∀ d st', lv_load_mod e fuel [] st = (Ok d, st') ->
     d = Z.of_nat (np_seed e 100 0) mod 365 ∧ 0 <= d < 365).
Proof.
  split; [|split].
  - intros s p. reflexivity.
  - reflexivity.
  - intros d st' H. unfold lv_load_mod in H.
    apply lv_load_mod_body_day in H as [[_ ->]|[Hd _]]; [|done].
    split; [reflexivity|]. apply Z.mod_pos_bound. lia.
Qed.

(** X11. A day other than 0 is taken as given, with no range test and
    without reseeding: the stage returns that day, and on an empty table of
    loads it leaves the state as it was. *)
Theorem lv_load_mod_explicit_day (e : env) (fuel : nat) (d : Z) (st : state)
    (Hd : d ≠ 0) :
  (∀ d' st', lv_load_mod e fuel [d] st = (Ok d', st') -> d' = d) ∧
  (lv_loads (data e) = Some [] -> lv_load_mod e fuel [d] st = (Ok d, st)).
Proof.
  split.
  - intros d' st' H. unfold lv_load_mod in H.
    apply lv_load_mod_body_day in H as [[-> _]|[_ ->]]; done.
  - intros Hrows. unfold lv_load_mod, lv_load_mod_body.
    apply Z.eqb_neq in Hd. rewrite Hd, Hrows. reflexivity.
Qed.

Lemma lv_load_mod_explicit_day_witness :
  lv_load_mod (with_optional None None
                 {| data := {| mv_net_txs := None; linecodes := None; lines := None;
                               mvcaps := None; mvtx := None; lvtx := None; lv_lines := None;
                               lv_loads := Some [] |};
                    house_data := []; com_data := []; np_seed := λ _ n, n; now_year := 2024 |})
     3 [400] empty_state = (Ok 400, empty_state).
Proof.
  apply (proj2 (lv_load_mod_explicit_day _ 3 400 empty_state ltac:(lia))).
  reflexivity.
Defined.


Lemma lv_load_mod_default_day_witness :
  fst (lv_load_mod sample_env 5 [] empty_state) = Ok 0 ∧
  fst (lv_load_mod sample_env 5 [] (set_rng (λ n, 7 * n)%nat 3 empty_state)) = Ok 0.
Proof.
  destruct (lv_load_mod_default_day sample_env 5 empty_state) as (Hrng & _ & Hday).
  split.
  - destruct (lv_load_mod sample_env 5 [] empty_state) as [o st'] eqn:Hrun.
    assert (Ho : o = Ok 0) by (apply (f_equal fst) in Hrun; vm_compute in Hrun; congruence).
    subst o. by destruct (Hday 0 st' eq_refl).
  - rewrite Hrng. vm_compute. reflexivity.
Defined.

(** ** The retry loop and the bound profiles *)

(** X12. When every customer of the commercial pool has, on the chosen
    day, a profile whose peak is at least half the capacity, the retry
    loop never ends: it runs out of any amount of fuel, having drawn once
    per pass. *)
Theorem sample_com_infeasible (e : env) (day : Z) (cap : Q) (fuel : nat) (st : state)
    (Hpool : com_data e ≠ [])
    (Hall : ∀ days, days ∈ com_data e ->
              ∃ p m, np_index days day = Ok p ∧ np_max p = Ok m ∧ (cap / 2 <= m)%Q) :
  fst (sample_com fuel e day cap st) = Diverge ∧
  rng_pos (snd (sample_com fuel e day cap st)) = (rng_pos st + fuel)%nat ∧
  dss_log (snd (sample_com fuel e day cap st)) = dss_log st.
Proof.
  revert st. induction fuel as [|fuel IH]; intros st.
  - cbn. repeat split. lia.
  - assert (Hlen : 0 < Z.of_nat (length (com_data e))).
    { destruct (com_data e); [done | cbn [length]; lia]. }
    destruct (np_index_in_range (com_data e)
                (Z.of_nat (rng_stream st (rng_pos st)) mod Z.of_nat (length (com_data e))))
      as (days & Hdays & Hin).
    { apply Z.mod_pos_bound. exact Hlen. }
    destruct (Hall days Hin) as (p & m & Hp & Hm & Hle).
    assert (Hdraw : draw_profile (com_data e) day st
                    = (Ok p, set_rng (rng_stream st) (S (rng_pos st)) st)).
    { unfold draw_profile. rewrite bind_run, randint_run by exact Hlen.
      unfold lift. rewrite Hdays. cbn [mbind outcome_bind]. by rewrite Hp. }
    assert (Hno : Qltb m (cap / 2) = false).
    { unfold Qltb. apply negb_false_iff. by apply Qle_bool_iff. }
    rewrite (sample_com_step e day cap fuel st _ p m Hdraw Hm), Hno.
    destruct (IH (set_rng (rng_stream st) (S (rng_pos st)) st)) as (Ho & Hpos & Hlog).
    split; [exact Ho|]. split; [|exact Hlog].
    rewrite Hpos. cbn [set_rng rng_pos]. lia.
Qed.

Lemma sample_com_infeasible_witness :
  fst (sample_com 50 sample_env 0 8 empty_state) = Diverge ∧
  rng_pos (snd (sample_com 50 sample_env 0 8 empty_state)) = 50%nat.
Proof.
  destruct (sample_com_infeasible sample_env 0 8 50 empty_state) as (Ho & Hpos & _).
  - discriminate.
  - intros days Hin.
    repeat (apply elem_of_cons in Hin as [->|Hin]).
    + exists [6; 1; 2]%Q, 6%Q. repeat split. vm_compute. discriminate.
    + exists [1; 4; 3]%Q, 4%Q. repeat split. vm_compute. discriminate.
    + by apply elem_of_nil in Hin.
  - split; [exact Ho | exact Hpos].
Defined.





Lemma draw_profile_log (p : pool) (day : Z) (st st' : state) (o : outcome (list Q)) :
  draw_profile p day st = (o, st') -> dss_log st' = dss_log st.
Proof.
  intros H. destruct (draw_profile_run _ _ _ _ _ H) as [(_ & -> & _)|(-> & _)]; reflexivity.
Qed.

Lemma lv_load_row_body_ok (e : env) (fuel : nat) (day : Z) (i : nat) (row : lv_load_row)
    (st st1 : state) :
  lv_load_row_body e fuel day (i, row) st = (Ok tt, st1) ->
  ∃ p, dss_log st1 = (dss_log st ++ bound_calls row (load_tag row) i p)%list ∧
       (ld_phases row ≠ 1 -> p ≠ [] ∧ ∀ x, x ∈ p -> (x < ld_tx_cap row / 2)%Q).
Proof.
  unfold lv_load_row_body, load_tag. cbn [fst snd]. intros Hrun.
  destruct (Z.eqb_spec (ld_phases row) 1) as [Hph|Hph];
    rewrite bind_run, dss_command_run in Hrun.
  - cbv beta iota in Hrun. rewrite bind_run in Hrun.
    destruct (draw_profile (house_data e) day _) as [[p|x|] st2] eqn:Hd; try discriminate Hrun.
    apply draw_profile_log in Hd. cbn [add_calls dss_log] in Hd.
    rewrite bind_run, dss_command_run in Hrun. cbv beta iota in Hrun.
    rewrite bind_daily_run, add_calls_app in Hrun. injection Hrun as <-.
    exists p. split; [|done]. cbn [add_calls dss_log]. rewrite Hd.
    by rewrite <- app_assoc.
  - cbv beta iota in Hrun. rewrite bind_run in Hrun.
    destruct (sample_com fuel e day (ld_tx_cap row) _) as [[p|x|] st2] eqn:Hs;
      try discriminate Hrun.
    destruct (sample_com_feasible _ _ _ _ _ _ _ Hs) as (m & Hm & Hlt).
    apply sample_com_log in Hs. cbn [add_calls dss_log] in Hs.
    rewrite bind_run, dss_command_run in Hrun. cbv beta iota in Hrun.
    rewrite bind_daily_run, add_calls_app in Hrun. injection Hrun as <-.
    exists p. split.
    + cbn [add_calls dss_log]. rewrite Hs. by rewrite <- app_assoc.
    + intros _. destruct (np_max_spec p m Hm) as [Hin Hmax]. split.
      * intros ->. by apply elem_of_nil in Hin.
      * intros x Hx. eapply Qle_lt_trans; [by apply Hmax | exact Hlt].
Qed.

Lemma loads_loop (e : env) (fuel : nat) (day : Z) (irs : list (nat * lv_load_row)) :
  ∀ st st', for_each irs (lv_load_row_body e fuel day) st = (Ok tt, st') ->
    ∃ ps, length ps = length irs ∧
          dss_log st' = (dss_log st ++ loads_calls irs ps)%list ∧
          Forall2 (λ ir p, ld_phases (snd ir) ≠ 1 ->
                     p ≠ [] ∧ ∀ x, x ∈ p -> (x < ld_tx_cap (snd ir) / 2)%Q) irs ps.
Proof.
  induction irs as [|[i row] irs IH]; intros st st' Hrun.
  - injection Hrun as <-. exists []. split; [reflexivity|]. split; [|constructor].
    unfold loads_calls. cbn. by rewrite app_nil_r.
  - cbn [for_each] in Hrun. rewrite bind_run in Hrun.
    destruct (lv_load_row_body e fuel day (i, row) st) as [[[]|x|] st1] eqn:Hrow;
      try discriminate Hrun.
    apply lv_load_row_body_ok in Hrow as (p & Hlog1 & Hp).
    destruct (IH _ _ Hrun) as (ps & Hlen & Hlog & Hall).
    exists (p :: ps). split; [cbn; by rewrite Hlen|]. split.
    + rewrite Hlog, Hlog1. unfold loads_calls. cbn [zip_with concat fst snd].
      by rewrite <- app_assoc.
    + by constructor.
Qed.

(** X13. A load stage that completes has issued, for every load of the
    table and in table order, the load's definition, one loadshape named
    after the load's index and kind ([res] for phase count 1, [com]
    otherwise), and the two calls that bind that loadshape to the load:
    four calls per load and nothing else. Every multiplier of a profile
    bound to a load that is not residential is below half its [tx_cap]. *)
Theorem lv_load_mod_binds_every_load (e : env) (fuel : nat) (args : list Z)
    (rows : list lv_load_row) (st st' : state) (d : Z)
    (Hrows : lv_loads (data e) = Some rows)
    (Hrun : lv_load_mod e fuel args st = (Ok d, st')) :
  ∃ ps, length ps = length rows ∧
        emitted st st' = loads_calls (iterrows rows) ps ∧
        length (emitted st st') = (4 * length rows)%nat ∧
        Forall2 (λ row p, ld_phases row ≠ 1 ->
                   p ≠ [] ∧ ∀ x, x ∈ p -> (x < ld_tx_cap row / 2)%Q) rows ps.
Proof.
  assert (Hbody : ∃ d0, lv_load_mod_body e fuel d0 st = (Ok d, st')).
  { unfold lv_load_mod in Hrun. destruct args as [|d0 [|d1 l]]; eauto. discriminate Hrun. }
  destruct Hbody as [d0 Hbody]. clear Hrun.
  unfold lv_load_mod_body in Hbody. rewrite bind_run in Hbody.
  destruct ((if d0 =? 0 then np_random_seed e 100 ;; randint 0 365 else mret d0) st)
    as [o0 st0] eqn:Hday.
  assert (Hlog0 : dss_log st0 = dss_log st).
  { destruct (d0 =? 0).
    - rewrite bind_run in Hday. unfold np_random_seed, modify in Hday. cbv beta iota in Hday.
      rewrite randint_run in Hday by lia. by injection Hday as _ <-.
    - by injection Hday as _ <-. }
  destruct o0 as [day|x|]; try discriminate Hbody.
  rewrite Hrows in Hbody. rewrite bind_run in Hbody. unfold get_table, mret, M_ret in Hbody.
  cbv beta iota in Hbody. rewrite bind_run in Hbody.
  destruct (for_each (iterrows rows) _ st0) as [[[]|x|] st2] eqn:Hloop; try discriminate Hbody.
  injection Hbody as _ <-.
  destruct (loads_loop _ _ _ _ _ _ Hloop) as (ps & Hlen & Hlog & Hall).
  unfold iterrows in Hlen. rewrite length_imap in Hlen.
  exists ps. split; [exact Hlen|].
  assert (Hem : emitted st st2 = loads_calls (iterrows rows) ps).
  { apply emitted_app. by rewrite Hlog, Hlog0. }
  split; [exact Hem|]. split.
  - rewrite Hem. clear -Hlen. unfold loads_calls, iterrows.
    revert ps Hlen. generalize (@pair nat lv_load_row).
    induction rows as [|row rows IH]; intros f [|p ps] Hlen; try discriminate Hlen;
      [reflexivity|].
    cbn [imap zip_with concat]. rewrite length_app.
    rewrite (IH (f ∘ S) ps) by (by injection Hlen). cbn [length bound_calls]. lia.
  - clear -Hall. unfold iterrows in Hall.
    assert (G : ∀ (g : nat -> nat) qs,
              Forall2 (λ (ir : nat * lv_load_row) p, ld_phases (snd ir) ≠ 1 ->
                         p ≠ [] ∧ ∀ x, x ∈ p -> (x < ld_tx_cap (snd ir) / 2)%Q)
                      (imap (λ j x, (g j, x)) rows) qs ->
              Forall2 (λ row p, ld_phases row ≠ 1 ->
                         p ≠ [] ∧ ∀ x, x ∈ p -> (x < ld_tx_cap row / 2)%Q) rows qs).
    { clear. induction rows as [|row rows IH]; intros g qs H; inversion H; subst; constructor.
      - assumption.
      - by apply (IH (g ∘ S)). }
    apply (G id). exact Hall.
Qed.

Lemma lv_load_mod_binds_every_load_witness :
  ∃ ps, emitted empty_state (snd (lv_load_mod sample_env 5 [] empty_state))
          = loads_calls (iterrows [load_of "house" 1 0; load_of "shop" 3 10]) ps ∧
        length (emitted empty_state (snd (lv_load_mod sample_env 5 [] empty_state))) = 8%nat.
Proof.
  destruct (lv_load_mod_binds_every_load sample_env 5 []
              [load_of "house" 1 0; load_of "shop" 3 10] empty_state
              (snd (lv_load_mod sample_env 5 [] empty_state)) 0 eq_refl)
    as (ps & _ & Hem & Hlen & _).
  - vm_compute. reflexivity.
  - exists ps. split; [exact Hem | exact Hlen].
Defined.

(** ** LV transformers as a stage *)

Lemma lv_tx_data_bad (i : nat) (row : lvtx_row) :
  lv_row_ok (i, row) = false ->
  lv_tx_data phase_table i row = Raise (KeyError (lt_Conn_Type row)) ∧
  String.length (lt_Conn_Type row) ≠ 3%nat.
Proof.
  unfold lv_row_ok, lv_tx_data. cbn [fst snd]. unfold subscript.
  destruct (Nat.eqb_spec (String.length (lt_Conn_Type row)) 3); [discriminate|].
  destruct (String.length (lt_Conn_Type row) =? 2)%nat;
    destruct (phase_table !! lt_Conn_Type row); cbn; try discriminate; auto.
Qed.

Lemma lv_tx_row_ok (ir : nat * lvtx_row) (st : state) :
  lv_row_ok ir = true ->
  lv_tx_row phase_table ir st
  = (Ok tt, name_lv_tx (fst ir) (snd ir) (add_calls [Command (lv_tx_cmd ir)] st)).
Proof.
  destruct ir as [i row]. unfold lv_row_ok, lv_tx_cmd. cbn [fst snd]. intros H.
  destruct (lv_tx_data phase_table i row) as [c|x|] eqn:Hc; try discriminate H.
  by apply lv_tx_row_run.
Qed.

Lemma lv_tx_row_bad (i : nat) (row : lvtx_row) (st : state) :
  lv_row_ok (i, row) = false ->
  lv_tx_row phase_table (i, row) st = (Raise (KeyError (lt_Conn_Type row)), st).
Proof.
  intros [H _]%lv_tx_data_bad. unfold lv_tx_row. cbn [fst snd].
  rewrite bind_run. unfold lift. by rewrite H.
Qed.

Lemma lv_tx_rows (irs : list (nat * lvtx_row)) :
  forallb lv_row_ok irs = true -> NoDup (map fst irs) ->
  ∀ st, ∃ st', for_each irs (lv_tx_row phase_table) st = (Ok tt, st') ∧
    dss_log st' = (dss_log st ++ map (λ ir, Command (lv_tx_cmd ir)) irs)%list ∧
    gis_MV_lines st' = gis_MV_lines st ∧
    (∀ ir, ir ∈ irs -> gis_MVLV_txs st' !! (fst ir, "DSSNAME")
                        = Some (CText [Lit "mv_f0_lv_"; Fmt (lt_Substation_ID (snd ir))])) ∧
    (∀ k, fst k ∉ map fst irs -> gis_MVLV_txs st' !! k = gis_MVLV_txs st !! k).
Proof.
  induction irs as [|[i row] irs IH]; intros Hok Hnd st.
  - exists st. split; [reflexivity|]. split; [cbn; by rewrite app_nil_r|].
    split; [reflexivity|]. split; [by intros ir ?%elem_of_nil | done].
  - cbn [forallb] in Hok. apply andb_true_iff in Hok as [Hrow Hrest].
    cbn [map fst] in Hnd. apply NoDup_cons in Hnd as [Hfresh Hnd].
    destruct (IH Hrest Hnd (name_lv_tx i row (add_calls [Command (lv_tx_cmd (i, row))] st)))
      as (st' & Hrun & Hlog & Hlines & Hnames & Hframe).
    exists st'. split; [|split; [|split; [|split]]].
    + cbn [for_each]. rewrite bind_run, (lv_tx_row_ok _ _ Hrow). exact Hrun.
    + rewrite Hlog. cbn. by rewrite <- app_assoc.
    + by rewrite Hlines.
    + intros ir [->|Hin]%elem_of_cons; [|by apply Hnames].
      cbn [fst snd]. rewrite Hframe by exact Hfresh. cbn. apply lookup_insert_eq.
    + intros k Hk. cbn [map fst] in Hk. apply not_elem_of_cons in Hk as [Hki Hk].
      rewrite Hframe by exact Hk. cbn. apply lookup_insert_ne. intros <-. by apply Hki.
Qed.

(** X14. [lv_tx] emits the rows in table order, one transformer each, and
    writes the DSSNAME of each emitted row in the Geo Layer of the MV/LV
    transformers; the layer of the MV lines is left alone. It stops at the
    first row it cannot emit, a row whose PhaseCode has not three
    characters and is not in the table, with [KeyError] on that code and
    nothing written for that row; a code of three characters is never
    looked up. *)
Theorem lv_tx_stage (e : env) (good tail : list lvtx_row) (st : state)
    (Htable : lvtx (data e) = Some (good ++ tail)%list)
    (Hgood : forallb lv_row_ok (iterrows good) = true)
    (Htail : match tail with
             | [] => True
             | bad :: _ => lv_row_ok (length good, bad) = false
             end) :
  ∃ st', lv_tx e st = (match tail with
                       | [] => Ok tt
                       | bad :: _ => Raise (KeyError (lt_Conn_Type bad))
                       end, st') ∧
    emitted st st' = map (λ ir, Command (lv_tx_cmd ir)) (iterrows good) ∧
    gis_MV_lines st' = gis_MV_lines st ∧
    (∀ i row, good !! i = Some row ->
       gis_MVLV_txs st' !! (i, "DSSNAME")
         = Some (CText [Lit "mv_f0_lv_"; Fmt (lt_Substation_ID row)])) ∧
    (∀ i col, (length good <= i)%nat ->
       gis_MVLV_txs st' !! (i, col) = gis_MVLV_txs st !! (i, col)) ∧
    match tail with
    | [] => True
    | bad :: _ => String.length (lt_Conn_Type bad) ≠ 3%nat
    end.
Proof.
  destruct (lv_tx_rows (iterrows good) Hgood (NoDup_iterrows good) st)
    as (st' & Hrun & Hlog & Hlines & Hnames & Hframe).
  exists st'. split; [|split; [|split; [|split; [|split]]]].
  - rewrite (lv_tx_run e _ st Htable). unfold iterrows. rewrite imap_app, for_each_app.
    unfold iterrows in Hrun. rewrite Hrun.
    destruct tail as [|bad tail]; [reflexivity|].
    cbn [imap for_each]. rewrite bind_run, Nat.add_0_r. by rewrite lv_tx_row_bad.
  - by apply emitted_app.
  - exact Hlines.
  - intros i row Hi. apply (Hnames (i, row)). by apply elem_of_iterrows.
  - intros i col Hi. apply Hframe. cbn [fst]. intros Hin.
    apply list_elem_of_In, in_map_iff in Hin as ([j row] & Hj & Hin). cbn [fst] in Hj. subst j.
    apply list_elem_of_In, elem_of_iterrows, lookup_lt_Some in Hin. lia.
  - destruct tail as [|bad tail]; [exact I|]. by apply lv_tx_data_bad in Htail as [_ ?].
Qed.

Lemma lv_tx_stage_witness :
  ∃ st', lv_tx (with_optional None None
                  {| data := {| mv_net_txs := None; linecodes := None; lines := None;
                                mvcaps := None; mvtx := None;
                                lvtx := Some [lvtx_of "T1" "XYZ" 22 0.4; lvtx_of "T2" "RR" 22 0.25;
                                              lvtx_of "T3" "W" 12.7 0.25];
                                lv_lines := None; lv_loads := None |};
                     house_data := []; com_data := []; np_seed := λ _ n, n; now_year := 2024 |})
           empty_state = (Raise (KeyError "RR"), st') ∧
         length (emitted empty_state st') = 1%nat ∧
         gis_MVLV_txs st' !! (1%nat, "DSSNAME") = None.
Proof.
  edestruct (lv_tx_stage
               (with_optional None None
                  {| data := {| mv_net_txs := None; linecodes := None; lines := None;
                                mvcaps := None; mvtx := None;
                                lvtx := Some [lvtx_of "T1" "XYZ" 22 0.4; lvtx_of "T2" "RR" 22 0.25;
                                              lvtx_of "T3" "W" 12.7 0.25];
                                lv_lines := None; lv_loads := None |};
                     house_data := []; com_data := []; np_seed := λ _ n, n; now_year := 2024 |})
               [lvtx_of "T1" "XYZ" 22 0.4]
               [lvtx_of "T2" "RR" 22 0.25; lvtx_of "T3" "W" 12.7 0.25]
               empty_state eq_refl)
    as (st' & Hrun & Hem & _ & _ & Hframe & _).
  - vm_compute. reflexivity.
  - vm_compute. reflexivity.
  - exists st'. split; [exact Hrun|]. split; [by rewrite Hem|].
    by rewrite (Hframe 1%nat "DSSNAME") by (cbn; lia).
Defined.

(** ** Loads whose profile cannot be drawn *)

(** X15. A load whose profile cannot be drawn is left defined without a
    loadshape, whatever its phase count. With an empty pool the draw raises
    [ValueError] and the generator is not advanced; with a day outside the
    pool's days the draw raises [IndexError] after one draw of the
    generator, for a residential load and, on the first pass of the retry
    loop, for any other load. In each case the load's definition has been
    issued and nothing after it. *)
Theorem load_without_profile (e : env) (fuel : nat) (day : Z) (i : nat)
    (row : lv_load_row) (st : state) :
  (ld_phases row = 1 -> house_data e = [] ->
     lv_load_row_body e fuel day (i, row) st
     = (Raise ValueError, add_calls [Command (load_data row)] st)) ∧
  (ld_phases row ≠ 1 -> com_data e = [] ->
     lv_load_row_body e (S fuel) day (i, row) st
     = (Raise ValueError, add_calls [Command (load_data row)] st)) ∧
  (ld_phases row = 1 -> house_data e ≠ [] ->
   (∀ days, days ∈ house_data e -> np_index days day = Raise IndexError) ->
     lv_load_row_body e fuel day (i, row) st
     = (Raise IndexError,
        set_rng (rng_stream st) (S (rng_pos st)) (add_calls [Command (load_data row)] st))) ∧
  (ld_phases row ≠ 1 -> com_data e ≠ [] ->
   (∀ days, days ∈ com_data e -> np_index days day = Raise IndexError) ->
     lv_load_row_body e (S fuel) day (i, row) st
     = (Raise IndexError,
        set_rng (rng_stream st) (S (rng_pos st)) (add_calls [Command (load_data row)] st))).
Proof.
  split; [|split; [|split]].
  - intros Hph Hpool. unfold lv_load_row_body. cbn [fst snd].
    apply Z.eqb_eq in Hph. rewrite Hph, bind_run, dss_command_run. cbv beta iota.
    rewrite bind_run. unfold draw_profile. rewrite Hpool. reflexivity.
  - intros Hph Hpool. unfold lv_load_row_body. cbn [fst snd].
    apply Z.eqb_neq in Hph. rewrite Hph, bind_run, dss_command_run. cbv beta iota.
    rewrite bind_run. cbn [sample_com]. unfold draw_profile. rewrite Hpool. reflexivity.
  - intros Hph Hpool Hdays. unfold lv_load_row_body. cbn [fst snd].
    apply Z.eqb_eq in Hph. rewrite Hph, bind_run, dss_command_run. cbv beta iota.
    rewrite bind_run.
    destruct (draw_profile_nonempty (house_data e) day
                (add_calls [Command (load_data row)] st) Hpool) as (days & Hd & ->).
    rewrite (Hdays days) by (by eapply list_elem_of_lookup_2). reflexivity.
  - intros Hph Hpool Hdays. unfold lv_load_row_body. cbn [fst snd].
    apply Z.eqb_neq in Hph. rewrite Hph, bind_run, dss_command_run. cbv beta iota.
    rewrite bind_run. cbn [sample_com]. rewrite bind_run.
    destruct (draw_profile_nonempty (com_data e) day
                (add_calls [Command (load_data row)] st) Hpool) as (days & Hd & ->).
    rewrite (Hdays days) by (by eapply list_elem_of_lookup_2). reflexivity.
Qed.

Lemma load_without_profile_witness :
  fst (lv_load_row_body sample_env 5 1 (0%nat, load_of "house" 1 0) empty_state)
    = Raise IndexError ∧
  rng_pos (snd (lv_load_row_body sample_env 5 1 (0%nat, load_of "house" 1 0) empty_state))
    = 1%nat ∧
  fst (lv_load_row_body sample_env 5 1 (1%nat, load_of "shop" 3 10) empty_state)
    = Raise IndexError ∧
  rng_pos (snd (lv_load_row_body sample_env 5 1 (1%nat, load_of "shop" 3 10) empty_state))
    = 1%nat.
Proof.
  assert (Hdays : ∀ pool : pool, pool = house_data sample_env ∨ pool = com_data sample_env ->
            ∀ days, days ∈ pool -> np_index days 1 = Raise IndexError).
  { intros pool [-> | ->] days Hin;
      repeat (apply elem_of_cons in Hin as [->|Hin]); try reflexivity;
      by apply elem_of_nil in Hin. }
  rewrite (proj1 (proj2 (proj2 (load_without_profile sample_env 5 1 0 (load_of "house" 1 0)
                                  empty_state)))
             eq_refl ltac:(discriminate) (Hdays _ (or_introl eq_refl))).
  rewrite (proj2 (proj2 (proj2 (load_without_profile sample_env 4 1 1 (load_of "shop" 3 10)
                                  empty_state)))
             ltac:(discriminate) ltac:(discriminate) (Hdays _ (or_intror eq_refl))).
  repeat split.
Defined.
